(** * TechCommerce DataOps: the cleaning pipeline and the alert engine

    A shallow embedding of [correcao_automatica.py] (class [DataCleaner]) and
    [sistema_alertas.py] (classes [Alert] and [AlertSystem]), with the
    properties of the two components stated and proved over it.

    Modelling conventions.
    - A pandas [DataFrame] is a list of typed rows in frame order; a column
      of dtype [object] holds [option str] cells ([None] is the missing
      value, [str] a text as its Unicode code points), a [float64] column
      holds [option Q] cells ([None] is NaN, finite floats are read as exact
      rationals), an [int64] column holds [Z] cells.
    - Python [int] is [Z]; the float [percentage] of an alert is the exact
      rational [Q].
    - [self] is threaded explicitly: every method is a computation in a
      state monad whose state is the object, and whose result is either a
      value or a raised exception.
    - [datetime.now()] is an argument [now] of the operation that reads it.
    - [str.lower], [str.upper], [str.title] and [str.strip] are the
      algorithms of the interpreter over its Unicode character database,
      which is a parameter (class [Unicode]) known on the ASCII characters.
    - [sort_values] sorts with a sort that is not stable: it is a parameter
      (class [Sorting]) of which only the contract is known.
    - [pd.to_datetime] and the calendar are a parameter (class [Calendar]);
      the parser is given the column it converts.
    - The module-level [logger] and [print] are output sinks outside the
      objects and are not part of the state. *)

From Stdlib Require Import ZArith QArith Qabs Qround List String Ascii Bool Lia.
From Stdlib Require Import DecimalString Sorted Permutation NArith.
Import ListNotations.

(* ------------------------------------------------------------------ *)
(** ** Methods as state-and-exception computations *)

Module Py.

Inductive Exception : Type :=
| TypeError (msg : string).

Inductive Result (A : Type) : Type :=
| Ok (a : A)
| Raise (e : Exception).
Arguments Ok {A} a.
Arguments Raise {A} e.

(** A method of an object of class [S] returning an [A]. *)
Definition M (S A : Type) : Type := S -> Result A * S.

Definition ret {S A} (a : A) : M S A := fun s => (Ok a, s).

Definition bind {S A B} (c : M S A) (k : A -> M S B) : M S B :=
  fun s =>
    match c s with
    | (Ok a, s') => k a s'
    | (Raise e, s') => (Raise e, s')
    end.

Definition raise {S A} (e : Exception) : M S A := fun s => (Raise e, s).
Definition get {S} : M S S := fun s => (Ok s, s).

(** [for x in xs: body(x)] *)
Fixpoint for_each {S A} (xs : list A) (body : A -> M S unit) : M S unit :=
  match xs with
  | [] => ret tt
  | x :: xs' => bind (body x) (fun _ => for_each xs' body)
  end.

(** [if cond: body] *)
Definition when {S} (cond : bool) (body : M S unit) : M S unit :=
  if cond then body else ret tt.

End Py.

Import Py.

Declare Scope py_scope.
Delimit Scope py_scope with py.
Notation "x <- c ;; k" := (bind c (fun x => k))
  (at level 61, c at next level, right associativity) : py_scope.
Notation "c ;;; k" := (bind c (fun _ => k))
  (at level 61, right associativity) : py_scope.

(* ------------------------------------------------------------------ *)
(** ** Rational comparisons as the code's boolean tests *)

Definition Qltb (x y : Q) : bool := negb (Qle_bool y x).

(* ------------------------------------------------------------------ *)
(** ** sistema_alertas.py *)

Module Alertas.

Local Open Scope string_scope.
Local Open Scope py_scope.

(** [class Severity(Enum)] *)
Inductive Severity : Type := LOW | MEDIUM | HIGH | CRITICAL.

Definition Severity_eqb (a b : Severity) : bool :=
  match a, b with
  | LOW, LOW | MEDIUM, MEDIUM | HIGH, HIGH | CRITICAL, CRITICAL => true
  | _, _ => false
  end.

(** [Severity.value] *)
Definition Severity_value (s : Severity) : string :=
  match s with
  | LOW => "Baixa"
  | MEDIUM => "Média"
  | HIGH => "Alta"
  | CRITICAL => "Crítica"
  end.

(** The [summary] dictionary of a results structure; a key that is absent
    is [None], and is read through [dict.get] with the code's default. *)
Record Summary : Type := {
  total : option Z;
  successful : option Z;
  failed : option Z;
  success_rate : option Q
}.

(** One entry of [results['checkpoints']]. *)
Record Checkpoint : Type := {
  success : option bool;
  error : option string
}.

Record Results : Type := {
  checkpoints : option (list (string * Checkpoint));
  summary : option Summary
}.

(** The free-form [details] dictionary of an alert. *)
Inductive Details : Type :=
| DictDetails (items : list (string * string))
| ErrorDetails (error : string)
| SummaryDetails (s : Summary).

(** [class Alert] *)
Record Alert : Type := {
  timestamp : Z;
  dataset : string;
  issue : string;
  severity : Severity;
  affected_records : Z;
  total_records : Z;
  percentage : Q;
  details : Details;
  status : string
}.

(** [(affected / total * 100) if total > 0 else 0] *)
Definition percentage_of (affected total : Z) : Q :=
  if (0 <? total)%Z then inject_Z affected / inject_Z total * 100 else 0.

(** [details or {}]: [None] becomes the empty dictionary (an empty
    dictionary is replaced by an empty dictionary). *)
Definition details_or_empty (details : option Details) : Details :=
  match details with
  | None => DictDetails []
  | Some d => d
  end.

(** [Alert.__init__] *)
Definition Alert_init (now : Z) (dataset issue : string) (severity : Severity)
    (affected_records total_records : Z) (details : option Details) : Alert :=
  {| timestamp := now;
     dataset := dataset;
     issue := issue;
     severity := severity;
     affected_records := affected_records;
     total_records := total_records;
     percentage := percentage_of affected_records total_records;
     details := details_or_empty details;
     status := "ABERTO" |}.

(** Python's [round(x, 2)], read on exact rationals: nearest multiple of
    1/100, a tie going to the even one. The code rounds the binary float
    that holds the percentage, whose value can lie on the other side of a
    decimal tie; no property below depends on the rounded value. *)
Definition round_half_even (q : Q) : Z :=
  let f := Qfloor q in
  let r := q - inject_Z f in
  if Qltb r (1 # 2) then f
  else if Qltb (1 # 2) r then (f + 1)%Z
  else if Z.even f then f else (f + 1)%Z.

Definition round2 (q : Q) : Q := inject_Z (round_half_even (q * 100)) / 100.

(** The dictionary built by [Alert.to_dict]. *)
Record AlertDict : Type := {
  d_timestamp : Z;
  d_dataset : string;
  d_issue : string;
  d_severity : string;
  d_affected_records : Z;
  d_total_records : Z;
  d_percentage : Q;
  d_status : string;
  d_details : Details
}.

Definition to_dict (self : Alert) : AlertDict :=
  {| d_timestamp := timestamp self;
     d_dataset := dataset self;
     d_issue := issue self;
     d_severity := Severity_value (severity self);
     d_affected_records := affected_records self;
     d_total_records := total_records self;
     d_percentage := round2 (percentage self);
     d_status := status self;
     d_details := details self |}.

(** The dictionary returned by [escalate_alert]. *)
Record Escalation : Type := {
  alert : AlertDict;
  recipients : list string;
  sla_hours : Z;
  escalated_at : Z
}.

(** [class AlertSystem]: the alert list of the object, and the lines
    appended so far to [../data/quality/escalations.json]. The fields
    [alert_history], [config_path] and [thresholds] are set by [__init__]
    and never read. *)
Record AlertSystem : Type := {
  alerts : list Alert;
  escalations_json : list Escalation
}.

Definition AlertSystem_init : AlertSystem :=
  {| alerts := []; escalations_json := [] |}.

(** [AlertSystem.determine_severity]; [None] is the code's [None]. *)
Definition determine_severity (percentage : Q) : option Severity :=
  if Qltb percentage 1 then None
  else if Qltb percentage 3 then Some LOW
  else if Qltb percentage 5 then Some MEDIUM
  else if Qltb percentage 10 then Some HIGH
  else Some CRITICAL.

(** [self.alerts.append(alert)] *)
Definition alerts_append (a : Alert) : M AlertSystem unit :=
  fun self =>
    (Ok tt, {| alerts := alerts self ++ [a];
               escalations_json := escalations_json self |}).

(** [AlertSystem.create_alert] *)
Definition create_alert (now : Z) (dataset issue : string) (affected total : Z)
    (details : option Details) : M AlertSystem (option Alert) :=
  let percentage := percentage_of affected total in
  match determine_severity percentage with
  | None => ret None
  | Some severity =>
      let alert := Alert_init now dataset issue severity affected total details in
      alerts_append alert ;;;
      ret (Some alert)
  end.

(** [AlertSystem._save_escalation]: one more line in the escalations file. *)
Definition _save_escalation (escalation : Escalation) : M AlertSystem unit :=
  fun self =>
    (Ok tt, {| alerts := alerts self;
               escalations_json := escalations_json self ++ [escalation] |}).

(** [AlertSystem.escalate_alert] *)
Definition escalate_alert (now : Z) (a : Alert) : M AlertSystem Escalation :=
  let '(recipients, sla_hours) :=
    match severity a with
    | CRITICAL => (["CDO"; "Data Owner"; "Data Steward"], 4%Z)
    | HIGH => (["Data Owner"; "Data Steward"], 24%Z)
    | MEDIUM => (["Data Steward"], 48%Z)
    | LOW => (["Data Custodian"], 168%Z)
    end in
  let escalation :=
    {| alert := to_dict a;
       recipients := recipients;
       sla_hours := sla_hours;
       escalated_at := now |} in
  _save_escalation escalation ;;;
  ret escalation.

(** [str.replace(old, new)] for a non-empty [old]: every occurrence, left
    to right, without overlap. [skip] counts the characters of an occurrence
    that are still to be dropped. *)
Fixpoint replace_from (old new : string) (skip : nat) (s : string) : string :=
  match s with
  | EmptyString => EmptyString
  | String c s' =>
      match skip with
      | S k => replace_from old new k s'
      | O =>
          if prefix old s
          then new ++ replace_from old new (String.length old - 1) s'
          else String c (replace_from old new 0 s')
      end
  end.

Definition replace (old new s : string) : string := replace_from old new 0 s.

(** [dict.get(key, default)] on a key that may be absent. *)
Definition get_default {A} (v : option A) (default : A) : A :=
  match v with
  | Some a => a
  | None => default
  end.

Definition empty_summary : Summary :=
  {| total := None; successful := None; failed := None; success_rate := None |}.

(** [AlertSystem.analyze_quality_results] *)
Definition analyze_quality_results (now : Z) (results : Results)
    : M AlertSystem unit :=
  for_each (get_default (checkpoints results) [])
    (fun item =>
       let '(checkpoint, details) := item in
       let dataset := replace "_lab" "" (replace "checkpoint_" "" checkpoint) in
       when (negb (get_default (success details) false))
         (create_alert now dataset "Checkpoint falhou completamente" 1 1
            (Some (ErrorDetails (get_default (error details) "Unknown"))) ;;;
          ret tt)) ;;;
  let summary := get_default (summary results) empty_summary in
  let success_rate := get_default (success_rate summary) 100 in
  let failure_rate := 100 - success_rate in
  when (Qltb 0 failure_rate)
    (create_alert now "GERAL" "Taxa de falha nos checkpoints"
       (get_default (failed summary) 0%Z)
       (get_default (total summary) 1%Z)
       (Some (SummaryDetails summary)) ;;;
     ret tt).

(** [AlertSystem.save_alerts]: the dictionary to save is built from
    [self.alerts], the output file is opened for writing, and
    [json.dumps(alerts_data, f, indent=2, ensure_ascii=False)] is called;
    [json.dumps] takes only [obj] positionally, so the call raises
    [TypeError] with CPython's message for one positional parameter, two
    positional and two keyword arguments. The file that [open] has created
    by then stays empty; the engine's own state does not hold it. *)
Definition save_alerts : M AlertSystem unit :=
  self <- get ;;
  let alerts_data := map to_dict (alerts self) in
  raise (TypeError "dumps() takes 1 positional argument but 2 positional arguments (and 2 keyword-only arguments) were given").

(** [alert.severity in [Severity.CRITICAL, Severity.HIGH]] *)
Definition critical_or_high (a : Alert) : bool :=
  Severity_eqb (severity a) CRITICAL || Severity_eqb (severity a) HIGH.

(** [AlertSystem.process_alerts]. [generate_alert_dashboard] only reads
    [self.alerts] to build the text that is printed. *)
Definition process_alerts (now : Z) (results : Results)
    : M AlertSystem (list Alert) :=
  analyze_quality_results now results ;;;
  self <- get ;;
  for_each (alerts self)
    (fun a => when (critical_or_high a) (escalate_alert now a ;;; ret tt)) ;;;
  save_alerts ;;;
  self <- get ;;
  ret (alerts self).

(** The results structure of [main()]. *)
Definition mock_results : Results :=
  {| checkpoints := Some
       [ ("checkpoint_clientes_lab",
          {| success := Some false; error := Some "Duplicatas > 10%" |});
         ("checkpoint_produtos", {| success := Some true; error := None |});
         ("checkpoint_vendas",
          {| success := Some false; error := Some "Valores inválidos" |});
         ("checkpoint_logistica", {| success := Some true; error := None |}) ];
     summary := Some
       {| total := Some 4%Z; successful := Some 2%Z; failed := Some 2%Z;
          success_rate := Some 50 |} |}.

End Alertas.

(* ------------------------------------------------------------------ *)
(** ** Python text operations

    The text of a cell that the cleaning transforms is the sequence of its
    code points, as a Python [str] is; the operations below are CPython's
    algorithms over the character database, which is a parameter. Text that
    is only compared, joined or searched (names of datasets, messages,
    dates as written in the file) is kept as a string. *)

Module Texto.

Local Open Scope N_scope.

(** A Python [str]. *)
Definition str : Type := list N.

(** The code points of a literal, which the file holds in UTF-8. *)
Fixpoint decode_utf8 (need : nat) (acc : N) (bytes : list N) : str :=
  match bytes with
  | [] => []
  | b :: rest =>
      match need with
      | O =>
          if b <? 128 then b :: decode_utf8 0 0 rest
          else if b <? 224 then decode_utf8 1 (b - 192) rest
          else if b <? 240 then decode_utf8 2 (b - 224) rest
          else decode_utf8 3 (b - 240) rest
      | S O => (acc * 64 + (b - 128)) :: decode_utf8 0 0 rest
      | S k => decode_utf8 k (acc * 64 + (b - 128)) rest
      end
  end.

Definition lit (s : string) : str :=
  decode_utf8 0 0 (map N_of_ascii (list_ascii_of_string s)).

(** [a == b] on text. *)
Fixpoint str_eqb (a b : str) : bool :=
  match a, b with
  | [], [] => true
  | x :: a', y :: b' => (x =? y) && str_eqb a' b'
  | _, _ => false
  end.

Definition between (lo hi c : N) : bool := (lo <=? c) && (c <=? hi).

(** The ASCII characters: white space (TAB to CR, FS to US and the space),
    the letters [A-Z] and [a-z], the digits [0-9], and their case. *)
Definition is_space (c : N) : bool := between 9 13 c || between 28 32 c.
Definition is_upper (c : N) : bool := between 65 90 c.
Definition is_lower (c : N) : bool := between 97 122 c.
Definition is_alpha (c : N) : bool := is_upper c || is_lower c.
Definition is_digit (c : N) : bool := between 48 57 c.
Definition to_lower (c : N) : N := if is_upper c then c + 32 else c.
Definition to_upper (c : N) : N := if is_lower c then c - 32 else c.


(** Text made of ASCII characters only. *)
Definition ascii_only (s : str) : Prop := Forall (fun c => c < 128) s.


(** What the text methods take from the Unicode character database of the
    interpreter: the full case mappings of a character
    ([_PyUnicode_ToLowerFull], [_PyUnicode_ToUpperFull],
    [_PyUnicode_ToTitleFull]), whether it is cased, case-ignorable, white
    space ([str.isspace]) or a decimal digit (what [\d] matches). Of the
    database itself only this is used: on ASCII it is the ASCII table; a
    white space character has no case and is not the capital sigma; the
    case mappings of another character hold a character that is not white
    space; the two small sigmas are not white space. *)
Class Unicode : Type := {
  to_lower_full : N -> list N;
  to_upper_full : N -> list N;
  to_title_full : N -> list N;
  is_cased : N -> bool;
  is_case_ignorable : N -> bool;
  is_whitespace : N -> bool;
  is_decimal : N -> bool;
  ascii_table :
    forall c, c < 128 ->
      to_lower_full c = [to_lower c] /\
      to_upper_full c = [to_upper c] /\
      to_title_full c = [to_upper c] /\
      is_cased c = is_alpha c /\
      is_whitespace c = is_space c /\
      is_decimal c = is_digit c;
  whitespace_has_no_case :
    forall c, is_whitespace c = true ->
      to_lower_full c = [c] /\ to_upper_full c = [c] /\
      to_title_full c = [c] /\ c <> 931;
  case_keeps_text :
    forall c, is_whitespace c = false ->
      (exists d, In d (to_lower_full c) /\ is_whitespace d = false) /\
      (exists d, In d (to_upper_full c) /\ is_whitespace d = false) /\
      (exists d, In d (to_title_full c) /\ is_whitespace d = false);
  small_sigma_is_text :
    is_whitespace 962 = false /\ is_whitespace 963 = false
}.

Definition is_empty (s : str) : bool :=
  match s with
  | [] => true
  | _ :: _ => false
  end.

(** Stripping the characters of a class [space] from the left, from the
    right and from both ends of a text. *)
Fixpoint lstrip_chars (space : N -> bool) (s : str) : str :=
  match s with
  | [] => []
  | c :: s' => if space c then lstrip_chars space s' else s
  end.

Fixpoint rstrip_chars (space : N -> bool) (s : str) : str :=
  match s with
  | [] => []
  | c :: s' =>
      let r := rstrip_chars space s' in
      if space c && is_empty r then [] else c :: r
  end.

Definition strip_chars (space : N -> bool) (s : str) : str :=
  lstrip_chars space (rstrip_chars space s).

Section WithUnicode.
Context {uni : Unicode}.

(** [handle_capital_sigma]: a capital sigma (U+03A3) is final when a cased
    character stands before it and none after it, case-ignorable
    characters apart. *)
Fixpoint first_not_ignorable (s : str) : option N :=
  match s with
  | [] => None
  | c :: rest =>
      if is_case_ignorable c then first_not_ignorable rest else Some c
  end.

Definition final_sigma (before_reversed after : str) : bool :=
  match first_not_ignorable before_reversed with
  | Some c =>
      is_cased c &&
      match first_not_ignorable after with
      | Some d => negb (is_cased d)
      | None => true
      end
  | None => false
  end.

(** [lower_ucs4]: the lower case of the character [c] of a text, given
    what stands before it (nearest first) and after it. *)
Definition lower_at (before_reversed : str) (c : N) (after : str) : list N :=
  if c =? 931
  then [if final_sigma before_reversed after then 962 else 963]
  else to_lower_full c.

(** [str.lower] *)
Fixpoint lower_from (before_reversed : str) (s : str) : str :=
  match s with
  | [] => []
  | c :: rest =>
      (lower_at before_reversed c rest ++
       lower_from (c :: before_reversed) rest)%list
  end.

Definition lower (s : str) : str := lower_from [] s.

(** [str.upper] *)
Definition upper (s : str) : str := flat_map to_upper_full s.

(** [str.lstrip], [str.rstrip], [str.strip]: white space is stripped. *)
Definition lstrip (s : str) : str := lstrip_chars is_whitespace s.
Definition rstrip (s : str) : str := rstrip_chars is_whitespace s.
Definition strip (s : str) : str := strip_chars is_whitespace s.

(** [str.title]: a character that follows a cased one is put in lower
    case, any other in title case. *)
Fixpoint title_from (previous_is_cased : bool) (before_reversed : str) (s : str)
    : str :=
  match s with
  | [] => []
  | c :: rest =>
      ((if previous_is_cased
        then lower_at before_reversed c rest
        else to_title_full c) ++
       title_from (is_cased c) (c :: before_reversed) rest)%list
  end.

Definition title (s : str) : str := title_from false [] s.

(** [re.sub(r'\D', '', x)] *)
Definition only_digits (s : str) : str := filter is_decimal s.

End WithUnicode.

(** [str(n)] for an [int]. *)
Definition str_int (n : Z) : str :=
  lit (NilZero.string_of_int (Z.to_int n)).

(** Regular expressions, matched by derivatives. *)
Inductive regex : Type :=
| Void
| Eps
| Chr (p : N -> bool)
| Seq (r1 r2 : regex)
| Alt (r1 r2 : regex)
| Star (r : regex).

Fixpoint nullable (r : regex) : bool :=
  match r with
  | Void => false
  | Eps => true
  | Chr _ => false
  | Seq r1 r2 => nullable r1 && nullable r2
  | Alt r1 r2 => nullable r1 || nullable r2
  | Star _ => true
  end.

Fixpoint deriv (c : N) (r : regex) : regex :=
  match r with
  | Void => Void
  | Eps => Void
  | Chr p => if p c then Eps else Void
  | Seq r1 r2 =>
      if nullable r1
      then Alt (Seq (deriv c r1) r2) (deriv c r2)
      else Seq (deriv c r1) r2
  | Alt r1 r2 => Alt (deriv c r1) (deriv c r2)
  | Star r1 => Seq (deriv c r1) (Star r1)
  end.

(** The whole of [s] is in the language of [r]. *)
Fixpoint fullmatch (r : regex) (s : str) : bool :=
  match s with
  | [] => nullable r
  | c :: s' => fullmatch (deriv c r) s'
  end.

Definition Plus (r : regex) : regex := Seq r (Star r).
Definition Opt (r : regex) : regex := Alt r Eps.
Definition is_char (a : ascii) (c : N) : bool := N_of_ascii a =? c.

(** [[a-zA-Z0-9._%+-]] *)
Definition local_char (c : N) : bool :=
  is_alpha c || is_digit c ||
  is_char "." c || is_char "_" c || is_char "%" c || is_char "+" c || is_char "-" c.

(** [[a-zA-Z0-9.-]] *)
Definition domain_char (c : N) : bool :=
  is_alpha c || is_digit c || is_char "." c || is_char "-" c.

(** [r'^[a-zA-Z0-9._%+-]+@[a-zA-Z0-9.-]+\.[a-zA-Z]{2,}$'] under [re.match]:
    the pattern is anchored at both ends, and [$] also matches just before a
    newline that ends the string. *)
Definition email_pattern : regex :=
  Seq (Plus (Chr local_char))
    (Seq (Chr (is_char "@"))
       (Seq (Plus (Chr domain_char))
          (Seq (Chr (is_char "."))
             (Seq (Seq (Chr is_alpha) (Seq (Chr is_alpha) (Star (Chr is_alpha))))
                (Opt (Chr (is_char "010"%char))))))).

Definition match_email (s : str) : bool := fullmatch email_pattern s.

End Texto.

(* ------------------------------------------------------------------ *)
(** ** pandas operations on frames *)

Module Frame.
Import Texto.

(** A cell of a date column: text as read from the file, a timestamp
    ([datetime64], in nanoseconds), or the missing value. *)
Inductive DateCell : Type :=
| DStr (s : string)
| DTime (t : Z)
| NaT.

(** A cell of an [object] column that holds arbitrary Python values. *)
Inductive PyObj : Type :=
| OStr (s : str)
| OBool (b : bool)
| OInt (n : Z)
| ONaN.

(** What the code takes from pandas and [datetime] without defining it:
    the parser behind [pd.to_datetime(col, errors='coerce')] and the
    calendar year of a timestamp. The parser is given the column it
    converts besides the text of the cell, since pandas may settle on one
    format for the whole column; [None] when the text is not a date, or not
    one in that format. *)
Class Calendar : Type := {
  parse_datetime : list DateCell -> string -> option Z;
  dt_year : Z -> Z
}.

(** [pd.to_datetime(col, errors='coerce')], at one cell of [col]. *)
Definition to_datetime {cal : Calendar} (col : list DateCell) (c : DateCell)
    : DateCell :=
  match c with
  | DStr s =>
      match parse_datetime col s with
      | Some t => DTime t
      | None => NaT
      end
  | DTime t => DTime t
  | NaT => NaT
  end.

(** The timestamp of a cell, [None] for [NaT] (and for text not converted). *)
Definition instant (c : DateCell) : option Z :=
  match c with
  | DTime t => Some t
  | _ => None
  end.

(** [str(x)] as [astype(str)] applies it. *)
Definition py_str (x : PyObj) : str :=
  match x with
  | OStr s => s
  | OBool true => lit "True"
  | OBool false => lit "False"
  | OInt n => str_int n
  | ONaN => lit "nan"
  end.

(** [mask.sum()] for a mask given row by row. *)
Definition mask_sum {A} (mask : A -> bool) (df : list A) : nat :=
  List.length (filter mask df).

(** [df.loc[mask, col] = f(row)] *)
Definition loc_set {A} (mask : A -> bool) (set : A -> A) (df : list A) : list A :=
  map (fun r => if mask r then set r else r) df.

(** [df[col] = f(df[col])] *)
Definition assign {A} (set : A -> A) (df : list A) : list A := map set df.

(** [df.duplicated(keep='first')]: a row is marked when an earlier row is
    the same on the compared columns. *)
Fixpoint duplicated_from {A} (same : A -> A -> bool) (seen : list A) (df : list A)
    : list bool :=
  match df with
  | [] => []
  | r :: df' => existsb (same r) seen :: duplicated_from same (r :: seen) df'
  end.

Definition duplicated {A} (same : A -> A -> bool) (df : list A) : list bool :=
  duplicated_from same [] df.

Definition bool_sum (mask : list bool) : nat := List.length (filter (fun b => b) mask).

(** [df.drop_duplicates(keep='first')] *)
Fixpoint drop_duplicates_from {A} (same : A -> A -> bool) (seen : list A)
    (df : list A) : list A :=
  match df with
  | [] => []
  | r :: df' =>
      if existsb (same r) seen
      then drop_duplicates_from same (r :: seen) df'
      else r :: drop_duplicates_from same (r :: seen) df'
  end.

Definition drop_duplicates {A} (same : A -> A -> bool) (df : list A) : list A :=
  drop_duplicates_from same [] df.

(** The order of [sort_values(col, ascending=False)] on a timestamp column:
    [later a b] when [a] sorts strictly before [b]; [NaT] sorts last. *)
Definition later (a b : option Z) : bool :=
  match a, b with
  | Some x, Some y => (y <? x)%Z
  | Some _, None => true
  | None, _ => false
  end.

(** No row is registered later than a row that stands before it. *)
Definition sorted_desc {A} (key : A -> option Z) (df : list A) : Prop :=
  StronglySorted (fun a b => later (key b) (key a) = false) df.

(** [df.sort_values(col, ascending=False)] with the default sort kind,
    quicksort, which is not stable: the result holds the rows of the frame,
    no row registered later than a row before it, the missing dates last;
    the order of rows with equal keys is whatever the sort makes it. *)
Class Sorting : Type := {
  sort_values_desc : forall {A : Type}, (A -> option Z) -> list A -> list A;
  sort_values_desc_rows :
    forall (A : Type) (key : A -> option Z) (df : list A),
      Permutation df (sort_values_desc key df);
  sort_values_desc_order :
    forall (A : Type) (key : A -> option Z) (df : list A),
      sorted_desc key (sort_values_desc key df)
}.

(** A stable sort of that contract: insertion from the end of the frame,
    which leaves rows with equal keys in frame order. *)
Fixpoint insert_desc {A} (key : A -> option Z) (r : A) (sorted : list A) : list A :=
  match sorted with
  | [] => [r]
  | y :: rest =>
      if later (key y) (key r)
      then y :: insert_desc key r rest
      else r :: sorted
  end.

Fixpoint insertion_sort_desc {A} (key : A -> option Z) (df : list A) : list A :=
  match df with
  | [] => []
  | r :: df' => insert_desc key r (insertion_sort_desc key df')
  end.


(** [col.isin(values)] on an integer column. *)
Definition isin (x : Z) (values : list Z) : bool := existsb (Z.eqb x) values.

(** [col.abs()] on an [int64] column, whose cells lie between -2^63 and
    2^63 - 1: the least value has no positive counterpart and is left as
    it is. *)
Definition int64_abs (x : Z) : Z :=
  if (x =? - 2 ^ 63)%Z then x else Z.abs x.

(** Equality of cells, a missing value being equal to a missing value (as
    [duplicated] compares them). *)
Definition opt_eqb {A} (eqb : A -> A -> bool) (a b : option A) : bool :=
  match a, b with
  | Some x, Some y => eqb x y
  | None, None => true
  | _, _ => false
  end.

Definition DateCell_eqb (a b : DateCell) : bool :=
  match a, b with
  | DStr x, DStr y => String.eqb x y
  | DTime x, DTime y => Z.eqb x y
  | NaT, NaT => true
  | _, _ => false
  end.

Definition PyObj_eqb (a b : PyObj) : bool :=
  match a, b with
  | OStr x, OStr y => str_eqb x y
  | OBool x, OBool y => Bool.eqb x y
  | OInt x, OInt y => Z.eqb x y
  | ONaN, ONaN => true
  | _, _ => false
  end.

(** Arithmetic and comparisons on [float64] cells: NaN propagates, and a
    comparison with NaN is false. The values are taken as exact rationals;
    the rounding of the binary floats of the code is not followed, so a
    difference within a rounding error of a threshold may compare
    otherwise there. *)
Definition fmul (a b : option Q) : option Q :=
  match a, b with
  | Some x, Some y => Some (x * y)
  | _, _ => None
  end.

Definition fsub (a b : option Q) : option Q :=
  match a, b with
  | Some x, Some y => Some (x - y)
  | _, _ => None
  end.

Definition fabs (a : option Q) : option Q := option_map Qabs a.

Definition fgt (a : option Q) (b : Q) : bool :=
  match a with
  | Some x => Qltb b x
  | None => false
  end.

Definition flt (a : option Q) (b : Q) : bool :=
  match a with
  | Some x => Qltb x b
  | None => false
  end.

End Frame.
(* ------------------------------------------------------------------ *)
(** ** The four datasets: one row type per schema *)

Module Clientes.
Import Frame Texto.

Record Row : Type := {
  id_cliente : Z;
  nome : option str;
  email : option str;
  telefone : option str;
  data_nascimento : DateCell;
  cidade : option str;
  estado : option str;
  data_cadastro : DateCell
}.

Definition set_nome (v : option str) (r : Row) : Row :=
  {| id_cliente := id_cliente r; nome := v; email := email r;
     telefone := telefone r; data_nascimento := data_nascimento r;
     cidade := cidade r; estado := estado r; data_cadastro := data_cadastro r |}.

Definition set_email (v : option str) (r : Row) : Row :=
  {| id_cliente := id_cliente r; nome := nome r; email := v;
     telefone := telefone r; data_nascimento := data_nascimento r;
     cidade := cidade r; estado := estado r; data_cadastro := data_cadastro r |}.

Definition set_telefone (v : option str) (r : Row) : Row :=
  {| id_cliente := id_cliente r; nome := nome r; email := email r;
     telefone := v; data_nascimento := data_nascimento r;
     cidade := cidade r; estado := estado r; data_cadastro := data_cadastro r |}.

Definition set_data_nascimento (v : DateCell) (r : Row) : Row :=
  {| id_cliente := id_cliente r; nome := nome r; email := email r;
     telefone := telefone r; data_nascimento := v;
     cidade := cidade r; estado := estado r; data_cadastro := data_cadastro r |}.

Definition set_cidade (v : option str) (r : Row) : Row :=
  {| id_cliente := id_cliente r; nome := nome r; email := email r;
     telefone := telefone r; data_nascimento := data_nascimento r;
     cidade := v; estado := estado r; data_cadastro := data_cadastro r |}.

Definition set_estado (v : option str) (r : Row) : Row :=
  {| id_cliente := id_cliente r; nome := nome r; email := email r;
     telefone := telefone r; data_nascimento := data_nascimento r;
     cidade := cidade r; estado := v; data_cadastro := data_cadastro r |}.

Definition set_data_cadastro (v : DateCell) (r : Row) : Row :=
  {| id_cliente := id_cliente r; nome := nome r; email := email r;
     telefone := telefone r; data_nascimento := data_nascimento r;
     cidade := cidade r; estado := estado r; data_cadastro := v |}.

(** [subset=['id_cliente']] *)
Definition same_id (a b : Row) : bool := Z.eqb (id_cliente a) (id_cliente b).

End Clientes.

Module Produtos.
Import Frame Texto.

Record Row : Type := {
  id_produto : Z;
  nome_produto : option str;
  categoria : option str;
  preco : option Q;
  estoque : Z;
  data_criacao : DateCell;
  ativo : PyObj
}.

Definition set_nome_produto (v : option str) (r : Row) : Row :=
  {| id_produto := id_produto r; nome_produto := v; categoria := categoria r;
     preco := preco r; estoque := estoque r; data_criacao := data_criacao r;
     ativo := ativo r |}.

Definition set_categoria (v : option str) (r : Row) : Row :=
  {| id_produto := id_produto r; nome_produto := nome_produto r; categoria := v;
     preco := preco r; estoque := estoque r; data_criacao := data_criacao r;
     ativo := ativo r |}.

Definition set_preco (v : option Q) (r : Row) : Row :=
  {| id_produto := id_produto r; nome_produto := nome_produto r;
     categoria := categoria r; preco := v; estoque := estoque r;
     data_criacao := data_criacao r; ativo := ativo r |}.

Definition set_estoque (v : Z) (r : Row) : Row :=
  {| id_produto := id_produto r; nome_produto := nome_produto r;
     categoria := categoria r; preco := preco r; estoque := v;
     data_criacao := data_criacao r; ativo := ativo r |}.

Definition set_data_criacao (v : DateCell) (r : Row) : Row :=
  {| id_produto := id_produto r; nome_produto := nome_produto r;
     categoria := categoria r; preco := preco r; estoque := estoque r;
     data_criacao := v; ativo := ativo r |}.

Definition set_ativo (v : PyObj) (r : Row) : Row :=
  {| id_produto := id_produto r; nome_produto := nome_produto r;
     categoria := categoria r; preco := preco r; estoque := estoque r;
     data_criacao := data_criacao r; ativo := v |}.

(** Two rows equal on every column, as [df.duplicated()] compares them. *)
Definition same_row (a b : Row) : bool :=
  Z.eqb (id_produto a) (id_produto b) &&
  opt_eqb str_eqb (nome_produto a) (nome_produto b) &&
  opt_eqb str_eqb (categoria a) (categoria b) &&
  opt_eqb Qeq_bool (preco a) (preco b) &&
  Z.eqb (estoque a) (estoque b) &&
  DateCell_eqb (data_criacao a) (data_criacao b) &&
  PyObj_eqb (ativo a) (ativo b).

End Produtos.

Module Vendas.
Import Frame Texto.

Record Row : Type := {
  id_venda : Z;
  id_cliente : Z;
  id_produto : Z;
  quantidade : Z;
  valor_unitario : option Q;
  valor_total : option Q;
  data_venda : DateCell;
  status : option str
}.

Definition set_quantidade (v : Z) (r : Row) : Row :=
  {| id_venda := id_venda r; id_cliente := id_cliente r;
     id_produto := id_produto r; quantidade := v;
     valor_unitario := valor_unitario r; valor_total := valor_total r;
     data_venda := data_venda r; status := status r |}.

Definition set_valor_total (v : option Q) (r : Row) : Row :=
  {| id_venda := id_venda r; id_cliente := id_cliente r;
     id_produto := id_produto r; quantidade := quantidade r;
     valor_unitario := valor_unitario r; valor_total := v;
     data_venda := data_venda r; status := status r |}.

Definition set_data_venda (v : DateCell) (r : Row) : Row :=
  {| id_venda := id_venda r; id_cliente := id_cliente r;
     id_produto := id_produto r; quantidade := quantidade r;
     valor_unitario := valor_unitario r; valor_total := valor_total r;
     data_venda := v; status := status r |}.

Definition set_status (v : option str) (r : Row) : Row :=
  {| id_venda := id_venda r; id_cliente := id_cliente r;
     id_produto := id_produto r; quantidade := quantidade r;
     valor_unitario := valor_unitario r; valor_total := valor_total r;
     data_venda := data_venda r; status := v |}.

End Vendas.

Module Logistica.
Import Frame Texto.

Record Row : Type := {
  id_entrega : Z;
  id_venda : Z;
  transportadora : option str;
  data_envio : DateCell;
  data_entrega_prevista : DateCell;
  data_entrega_real : DateCell;
  status_entrega : option str
}.

Definition set_transportadora (v : option str) (r : Row) : Row :=
  {| id_entrega := id_entrega r; id_venda := id_venda r; transportadora := v;
     data_envio := data_envio r;
     data_entrega_prevista := data_entrega_prevista r;
     data_entrega_real := data_entrega_real r;
     status_entrega := status_entrega r |}.

Definition set_data_envio (v : DateCell) (r : Row) : Row :=
  {| id_entrega := id_entrega r; id_venda := id_venda r;
     transportadora := transportadora r; data_envio := v;
     data_entrega_prevista := data_entrega_prevista r;
     data_entrega_real := data_entrega_real r;
     status_entrega := status_entrega r |}.

Definition set_data_entrega_prevista (v : DateCell) (r : Row) : Row :=
  {| id_entrega := id_entrega r; id_venda := id_venda r;
     transportadora := transportadora r; data_envio := data_envio r;
     data_entrega_prevista := v;
     data_entrega_real := data_entrega_real r;
     status_entrega := status_entrega r |}.

Definition set_data_entrega_real (v : DateCell) (r : Row) : Row :=
  {| id_entrega := id_entrega r; id_venda := id_venda r;
     transportadora := transportadora r; data_envio := data_envio r;
     data_entrega_prevista := data_entrega_prevista r;
     data_entrega_real := v;
     status_entrega := status_entrega r |}.

Definition set_status_entrega (v : option str) (r : Row) : Row :=
  {| id_entrega := id_entrega r; id_venda := id_venda r;
     transportadora := transportadora r; data_envio := data_envio r;
     data_entrega_prevista := data_entrega_prevista r;
     data_entrega_real := data_entrega_real r;
     status_entrega := v |}.

End Logistica.
(* ------------------------------------------------------------------ *)
(** ** correcao_automatica.py *)

Module Cleaner.
Import Frame Texto.

Local Open Scope string_scope.
Local Open Scope py_scope.

(** One entry of [corrections_log]. *)
Record CorrectionRecord : Type := {
  timestamp : Z;
  dataset : string;
  record_id : PyObj;
  field : string;
  old_value : str;
  new_value : str;
  reason : string
}.

(** [class DataCleaner] *)
Record DataCleaner : Type := {
  corrections_log : list CorrectionRecord
}.

(** [DataCleaner.__init__] *)
Definition DataCleaner_init : DataCleaner := {| corrections_log := [] |}.

(** [DataCleaner.log_correction] *)
Definition log_correction (now : Z) (dataset : string) (record_id : PyObj)
    (field : string) (old_value new_value : PyObj) (reason : string)
    : M DataCleaner unit :=
  fun self =>
    (Ok tt,
     {| corrections_log :=
          corrections_log self ++
          [ {| timestamp := now;
               dataset := dataset;
               record_id := record_id;
               field := field;
               old_value := py_str old_value;
               new_value := py_str new_value;
               reason := reason |} ] |}).

(** [col.astype(str)] on an [object] column of text: the missing value
    becomes the text [nan]. *)
Definition astype_str (x : option str) : str :=
  match x with
  | Some s => s
  | None => lit "nan"
  end.

(** [col.unique()] on an integer column. *)
Definition unique (values : list Z) : list Z := drop_duplicates Z.eqb values.

Section WithLibraries.
Context {cal : Calendar} {uni : Unicode} {ord : Sorting}.

(** [col.isna() | (col.str.strip() == '')] *)
Definition blank (x : option str) : bool :=
  match x with
  | None => true
  | Some s => is_empty (strip s)
  end.

(** [DataCleaner.clean_clientes] *)
Definition clean_clientes (now : Z) (df : list Clientes.Row)
    : M DataCleaner (list Clientes.Row) :=
  let df_clean := df in
  (* 1. *)
  let duplicates_before := bool_sum (duplicated Clientes.same_id df_clean) in
  let df_clean :=
    if (0 <? duplicates_before)%nat then
      let col := map Clientes.data_cadastro df_clean in
      let df_clean :=
        assign (fun r => Clientes.set_data_cadastro
                           (to_datetime col (Clientes.data_cadastro r)) r)
          df_clean in
      let df_clean :=
        sort_values_desc (fun r => instant (Clientes.data_cadastro r)) df_clean in
      drop_duplicates Clientes.same_id df_clean
    else df_clean in
  (* 2. *)
  let df_clean :=
    assign (fun r => Clientes.set_telefone
                       (Some (only_digits (astype_str (Clientes.telefone r)))) r)
      df_clean in
  (* 3. *)
  let df_clean :=
    assign (fun r => Clientes.set_email
                       (option_map (fun s => strip (lower s)) (Clientes.email r)) r)
      df_clean in
  (* 4. *)
  let invalid_emails := fun r =>
    negb (match Clientes.email r with
          | Some s => match_email s
          | None => false
          end) in
  let df_clean :=
    if (0 <? mask_sum invalid_emails df_clean)%nat
    then loc_set invalid_emails (Clientes.set_email None) df_clean
    else df_clean in
  (* 5. *)
  let df_clean :=
    assign (fun r => Clientes.set_estado
                       (option_map (fun s => strip (upper s)) (Clientes.estado r)) r)
      df_clean in
  (* 6. *)
  let df_clean :=
    assign (fun r => Clientes.set_cidade
                       (option_map (fun s => strip (title s)) (Clientes.cidade r)) r)
      df_clean in
  (* 7. *)
  let nome_vazio := fun r => blank (Clientes.nome r) in
  let df_clean :=
    if (0 <? mask_sum nome_vazio df_clean)%nat
    then loc_set nome_vazio
           (fun r => Clientes.set_nome
                       (Some (lit "Cliente " ++ str_int (Clientes.id_cliente r))%list)
                       r)
           df_clean
    else df_clean in
  (* 8. *)
  let col := map Clientes.data_nascimento df_clean in
  let df_clean :=
    assign (fun r => Clientes.set_data_nascimento
                       (to_datetime col (Clientes.data_nascimento r)) r)
      df_clean in
  let current_year := dt_year now in
  let invalid_birth := fun r =>
    match instant (Clientes.data_nascimento r) with
    | Some t => (dt_year t <? 1900)%Z || (current_year <? dt_year t)%Z
    | None => false
    end in
  let df_clean :=
    if (0 <? mask_sum invalid_birth df_clean)%nat
    then loc_set invalid_birth (Clientes.set_data_nascimento NaT) df_clean
    else df_clean in
  ret df_clean.

(** [col.map({'true': True, 'false': False})] *)
Definition map_true_false (s : str) : PyObj :=
  if str_eqb s (lit "true") then OBool true
  else if str_eqb s (lit "false") then OBool false
  else ONaN.

(** [DataCleaner.clean_produtos] *)
Definition clean_produtos (df : list Produtos.Row)
    : M DataCleaner (list Produtos.Row) :=
  let df_clean := df in
  (* 1. *)
  let duplicates := bool_sum (duplicated Produtos.same_row df_clean) in
  let df_clean :=
    if (0 <? duplicates)%nat
    then drop_duplicates Produtos.same_row df_clean
    else df_clean in
  (* 2. *)
  let preco_negativo := fun r => flt (Produtos.preco r) 0 in
  let df_clean :=
    if (0 <? mask_sum preco_negativo df_clean)%nat
    then loc_set preco_negativo
           (fun r => Produtos.set_preco (fabs (Produtos.preco r)) r) df_clean
    else df_clean in
  (* 3. *)
  let estoque_negativo := fun r => (Produtos.estoque r <? 0)%Z in
  let df_clean :=
    if (0 <? mask_sum estoque_negativo df_clean)%nat
    then loc_set estoque_negativo (Produtos.set_estoque 0%Z) df_clean
    else df_clean in
  (* 4. *)
  let categoria_vazia := fun r => blank (Produtos.categoria r) in
  let df_clean :=
    if (0 <? mask_sum categoria_vazia df_clean)%nat
    then loc_set categoria_vazia (Produtos.set_categoria (Some (lit "Sem Categoria")))
           df_clean
    else df_clean in
  (* 5. *)
  let df_clean :=
    assign (fun r => Produtos.set_categoria
                       (option_map (fun s => strip (title s)) (Produtos.categoria r)) r)
      df_clean in
  (* 6. *)
  let df_clean :=
    assign (fun r => Produtos.set_nome_produto
                       (option_map strip (Produtos.nome_produto r)) r) df_clean in
  (* 7. *)
  let df_clean :=
    assign (fun r => Produtos.set_ativo
                       (OStr (lower (py_str (Produtos.ativo r)))) r) df_clean in
  let df_clean :=
    assign (fun r => Produtos.set_ativo
                       (map_true_false (py_str (Produtos.ativo r))) r) df_clean in
  (* 8. *)
  let col := map Produtos.data_criacao df_clean in
  let df_clean :=
    assign (fun r => Produtos.set_data_criacao
                       (to_datetime col (Produtos.data_criacao r)) r) df_clean in
  ret df_clean.

(** [DataCleaner.clean_vendas] *)
Definition clean_vendas (now : Z) (df : list Vendas.Row)
    (df_clientes : list Clientes.Row) (df_produtos : list Produtos.Row)
    : M DataCleaner (list Vendas.Row) :=
  let df_clean := df in
  (* 1. *)
  let valid_clients := unique (map Clientes.id_cliente df_clientes) in
  let invalid_clients := fun r => negb (isin (Vendas.id_cliente r) valid_clients) in
  let df_clean :=
    if (0 <? mask_sum invalid_clients df_clean)%nat
    then filter (fun r => negb (invalid_clients r)) df_clean
    else df_clean in
  (* 2. *)
  let valid_products := unique (map Produtos.id_produto df_produtos) in
  let invalid_products := fun r => negb (isin (Vendas.id_produto r) valid_products) in
  let df_clean :=
    if (0 <? mask_sum invalid_products df_clean)%nat
    then filter (fun r => negb (invalid_products r)) df_clean
    else df_clean in
  (* 3. *)
  let not_canceled := fun r =>
    negb (opt_eqb str_eqb (Vendas.status r) (Some (lit "Cancelada"))) in
  let qty_negative := fun r => (Vendas.quantidade r <=? 0)%Z && not_canceled r in
  let df_clean :=
    if (0 <? mask_sum qty_negative df_clean)%nat
    then loc_set qty_negative
           (fun r => Vendas.set_quantidade (int64_abs (Vendas.quantidade r)) r)
           df_clean
    else df_clean in
  (* 4. *)
  let valor_total_calculado := fun r =>
    fmul (Some (inject_Z (Vendas.quantidade r))) (Vendas.valor_unitario r) in
  let difference := fun r =>
    fabs (fsub (Vendas.valor_total r) (valor_total_calculado r)) in
  let inconsistent := fun r => fgt (difference r) (1 # 100) in
  let df_clean :=
    if (0 <? mask_sum inconsistent df_clean)%nat
    then loc_set inconsistent
           (fun r => Vendas.set_valor_total (valor_total_calculado r) r) df_clean
    else df_clean in
  (* 5. *)
  let col := map Vendas.data_venda df_clean in
  let df_clean :=
    assign (fun r => Vendas.set_data_venda
                       (to_datetime col (Vendas.data_venda r)) r)
      df_clean in
  let future_dates := fun r =>
    match instant (Vendas.data_venda r) with
    | Some t => (now <? t)%Z
    | None => false
    end in
  let df_clean :=
    if (0 <? mask_sum future_dates df_clean)%nat
    then loc_set future_dates (Vendas.set_data_venda (DTime now)) df_clean
    else df_clean in
  (* 6. *)
  let df_clean :=
    assign (fun r => Vendas.set_status
                       (option_map (fun s => strip (title s)) (Vendas.status r)) r)
      df_clean in
  ret df_clean.

(** [DataCleaner.clean_logistica] *)
Definition clean_logistica (df : list Logistica.Row) (df_vendas : list Vendas.Row)
    : M DataCleaner (list Logistica.Row) :=
  let df_clean := df in
  (* 1. *)
  let valid_sales := unique (map Vendas.id_venda df_vendas) in
  let invalid_sales := fun r => negb (isin (Logistica.id_venda r) valid_sales) in
  let df_clean :=
    if (0 <? mask_sum invalid_sales df_clean)%nat
    then filter (fun r => negb (invalid_sales r)) df_clean
    else df_clean in
  (* 2. *)
  let col := map Logistica.data_envio df_clean in
  let df_clean :=
    assign (fun r => Logistica.set_data_envio
                       (to_datetime col (Logistica.data_envio r)) r) df_clean in
  let col := map Logistica.data_entrega_prevista df_clean in
  let df_clean :=
    assign (fun r => Logistica.set_data_entrega_prevista
                       (to_datetime col (Logistica.data_entrega_prevista r)) r)
      df_clean in
  let col := map Logistica.data_entrega_real df_clean in
  let df_clean :=
    assign (fun r => Logistica.set_data_entrega_real
                       (to_datetime col (Logistica.data_entrega_real r)) r)
      df_clean in
  (* 3. *)
  let df_clean :=
    assign (fun r => Logistica.set_status_entrega
                       (option_map (fun s => strip (title s))
                          (Logistica.status_entrega r)) r) df_clean in
  (* 4. *)
  let df_clean :=
    assign (fun r => Logistica.set_transportadora
                       (option_map (fun s => strip (title s))
                          (Logistica.transportadora r)) r) df_clean in
  (* 5. the mask is only counted for the log *)
  let invalid_delivery := fun r =>
    match instant (Logistica.data_entrega_real r),
          instant (Logistica.data_envio r) with
    | Some real, Some envio => (real <? envio)%Z
    | _, _ => false
    end in
  let _ := mask_sum invalid_delivery df_clean in
  ret df_clean.

(** The dictionary returned by [clean_all]. *)
Record Cleaned : Type := {
  clientes : list Clientes.Row;
  produtos : list Produtos.Row;
  vendas : list Vendas.Row;
  logistica : list Logistica.Row
}.

(** [DataCleaner.clean_all] *)
Definition clean_all (now : Z) (clientes_df : list Clientes.Row)
    (produtos_df : list Produtos.Row) (vendas_df : list Vendas.Row)
    (logistica_df : list Logistica.Row) : M DataCleaner Cleaned :=
  clientes_clean <- clean_clientes now clientes_df ;;
  produtos_clean <- clean_produtos produtos_df ;;
  vendas_clean <- clean_vendas now vendas_df clientes_clean produtos_clean ;;
  logistica_clean <- clean_logistica logistica_df vendas_clean ;;
  ret {| clientes := clientes_clean;
         produtos := produtos_clean;
         vendas := vendas_clean;
         logistica := logistica_clean |}.

End WithLibraries.

End Cleaner.
(* ------------------------------------------------------------------ *)
(** ** Specification-level definitions *)

Module Spec.
Import Alertas.

Local Open Scope string_scope.

(** The severity table of the specification: recipients and SLA hours. *)
Definition escalation_table (s : Severity) : list string * Z :=
  match s with
  | LOW => (["Data Custodian"], 168%Z)
  | MEDIUM => (["Data Steward"], 48%Z)
  | HIGH => (["Data Owner"; "Data Steward"], 24%Z)
  | CRITICAL => (["CDO"; "Data Owner"; "Data Steward"], 4%Z)
  end.

(** The outcome of a [create_alert] call that stores an alert of severity
    [sev]: the alert is returned, it is the last of the alert list, which is
    otherwise unchanged, and it is open. *)
Definition stored (sev : Severity) (affected total : Z) (sys : AlertSystem)
    (out : Result (option Alert) * AlertSystem) : Prop :=
  exists a,
    fst out = Ok (Some a) /\
    alerts (snd out) = (alerts sys ++ [a])%list /\
    escalations_json (snd out) = escalations_json sys /\
    severity a = sev /\
    status a = "ABERTO" /\
    percentage a = percentage_of affected total /\
    affected_records a = affected /\
    total_records a = total.

(** The outcome of a [create_alert] call that creates nothing. *)
Definition no_alert (sys : AlertSystem)
    (out : Result (option Alert) * AlertSystem) : Prop :=
  out = (Ok None, sys).

(** The operations of the alert engine, as steps of its state. Any alert
    object, built by the constructor, may be passed to [escalate_alert]. *)
Inductive step : AlertSystem -> AlertSystem -> Prop :=
| step_create now ds issue affected total details sys :
    step sys (snd (create_alert now ds issue affected total details sys))
| step_escalate now t ds issue sev affected total details sys :
    step sys (snd (escalate_alert now
                     (Alert_init t ds issue sev affected total details) sys))
| step_analyze now results sys :
    step sys (snd (analyze_quality_results now results sys))
| step_process now results sys :
    step sys (snd (process_alerts now results sys)).

Inductive reachable : AlertSystem -> Prop :=
| reach_init : reachable AlertSystem_init
| reach_step sys sys' : reachable sys -> step sys sys' -> reachable sys'.

(** Every alert of the engine, and every snapshot it has written, is open. *)
Definition all_open (sys : AlertSystem) : Prop :=
  Forall (fun a => status a = "ABERTO") (alerts sys) /\
  Forall (fun e => d_status (alert e) = "ABERTO") (escalations_json sys).

(** The escalation that the severity table gives for [a] at time [now]. *)
Definition escalation_of (now : Z) (a : Alert) : Escalation :=
  {| alert := to_dict a;
     recipients := fst (escalation_table (severity a));
     sla_hours := snd (escalation_table (severity a));
     escalated_at := now |}.

(** Escalating [a] leaves some status other than open behind: on an alert
    of the engine, or in the snapshot returned. *)
Definition leaves_open_state (now : Z) (a : Alert) (sys : AlertSystem) : Prop :=
  (exists a', In a' (alerts (snd (escalate_alert now a sys))) /\
              status a' <> "ABERTO") \/
  (exists e, fst (escalate_alert now a sys) = Ok e /\
             d_status (alert e) <> "ABERTO").

End Spec.
(* ------------------------------------------------------------------ *)
(** ** The cleaning steps, row by row

    Apart from the removal of rows, every step of a cleaning operation
    rewrites one column from the values of the same row. The definitions
    below are those rewritings; the cleaning operations are shown further
    down to apply them to every row that is kept. *)

Module PorLinha.
Import Frame Texto Cleaner.

Local Open Scope string_scope.

Section WithLibraries.
Context {cal : Calendar} {uni : Unicode} {ord : Sorting}.

(** Clientes, step 1. *)
Definition clientes_sem_duplicatas (df : list Clientes.Row) : list Clientes.Row :=
  if (0 <? bool_sum (duplicated Clientes.same_id df))%nat then
    drop_duplicates Clientes.same_id
      (sort_values_desc (fun r => instant (Clientes.data_cadastro r))
         (assign (fun r => Clientes.set_data_cadastro
                             (to_datetime (map Clientes.data_cadastro df)
                                (Clientes.data_cadastro r)) r) df))
  else df.

(** Clientes, steps 2 to 8. *)
Definition cliente_telefone (r : Clientes.Row) : Clientes.Row :=
  Clientes.set_telefone (Some (only_digits (astype_str (Clientes.telefone r)))) r.

Definition cliente_email (r : Clientes.Row) : Clientes.Row :=
  Clientes.set_email (option_map (fun s => strip (lower s)) (Clientes.email r)) r.

Definition email_invalido (r : Clientes.Row) : bool :=
  negb (match Clientes.email r with
        | Some s => match_email s
        | None => false
        end).

Definition cliente_email_valido (r : Clientes.Row) : Clientes.Row :=
  if email_invalido r then Clientes.set_email None r else r.

Definition cliente_estado (r : Clientes.Row) : Clientes.Row :=
  Clientes.set_estado (option_map (fun s => strip (upper s)) (Clientes.estado r)) r.

Definition cliente_cidade (r : Clientes.Row) : Clientes.Row :=
  Clientes.set_cidade (option_map (fun s => strip (title s)) (Clientes.cidade r)) r.

Definition cliente_nome (r : Clientes.Row) : Clientes.Row :=
  if blank (Clientes.nome r)
  then Clientes.set_nome
         (Some (lit "Cliente " ++ str_int (Clientes.id_cliente r))%list) r
  else r.

Definition cliente_nascimento (col : list DateCell) (r : Clientes.Row)
    : Clientes.Row :=
  Clientes.set_data_nascimento (to_datetime col (Clientes.data_nascimento r)) r.

Definition nascimento_invalido (now : Z) (r : Clientes.Row) : bool :=
  match instant (Clientes.data_nascimento r) with
  | Some t => (dt_year t <? 1900)%Z || (dt_year now <? dt_year t)%Z
  | None => false
  end.

Definition cliente_nascimento_valido (now : Z) (r : Clientes.Row) : Clientes.Row :=
  if nascimento_invalido now r then Clientes.set_data_nascimento NaT r else r.

(** The steps 2 to 8 on one row; [col] is the birth date column that step 8
    converts. *)
Definition limpa_cliente (now : Z) (col : list DateCell) (r : Clientes.Row)
    : Clientes.Row :=
  cliente_nascimento_valido now
    (cliente_nascimento col
       (cliente_nome
          (cliente_cidade
             (cliente_estado
                (cliente_email_valido
                   (cliente_email
                      (cliente_telefone r))))))).

(** The columns of a cleaned customer, each from the raw cell. *)
Definition email_limpo (e : option str) : option str :=
  match option_map (fun s => strip (lower s)) e with
  | Some s => if match_email s then Some s else None
  | None => None
  end.

Definition nome_limpo (id : Z) (n : option str) : option str :=
  if blank n then Some (lit "Cliente " ++ str_int id)%list else n.

Definition nascimento_limpo (now : Z) (col : list DateCell) (d : DateCell)
    : DateCell :=
  match to_datetime col d with
  | DTime t =>
      if (dt_year t <? 1900)%Z || (dt_year now <? dt_year t)%Z
      then NaT else DTime t
  | other => other
  end.





(** Produtos, steps 2 to 8. *)
Definition produto_preco (r : Produtos.Row) : Produtos.Row :=
  if flt (Produtos.preco r) 0
  then Produtos.set_preco (fabs (Produtos.preco r)) r else r.

Definition produto_estoque (r : Produtos.Row) : Produtos.Row :=
  if (Produtos.estoque r <? 0)%Z then Produtos.set_estoque 0%Z r else r.

Definition produto_categoria_vazia (r : Produtos.Row) : Produtos.Row :=
  if blank (Produtos.categoria r)
  then Produtos.set_categoria (Some (lit "Sem Categoria")) r else r.

Definition produto_categoria (r : Produtos.Row) : Produtos.Row :=
  Produtos.set_categoria
    (option_map (fun s => strip (title s)) (Produtos.categoria r)) r.

Definition produto_nome (r : Produtos.Row) : Produtos.Row :=
  Produtos.set_nome_produto (option_map strip (Produtos.nome_produto r)) r.

Definition produto_ativo_texto (r : Produtos.Row) : Produtos.Row :=
  Produtos.set_ativo (OStr (lower (py_str (Produtos.ativo r)))) r.

Definition produto_ativo (r : Produtos.Row) : Produtos.Row :=
  Produtos.set_ativo (map_true_false (py_str (Produtos.ativo r))) r.

Definition produto_data_criacao (col : list DateCell) (r : Produtos.Row)
    : Produtos.Row :=
  Produtos.set_data_criacao (to_datetime col (Produtos.data_criacao r)) r.

(** The steps 2 to 8 on one row; [col] is the creation date column. *)
Definition limpa_produto (col : list DateCell) (r : Produtos.Row)
    : Produtos.Row :=
  produto_data_criacao col
    (produto_ativo
       (produto_ativo_texto
          (produto_nome
             (produto_categoria
                (produto_categoria_vazia
                   (produto_estoque
                      (produto_preco r))))))).

(** Vendas, steps 1 and 2: the rows that are kept. *)
Definition cliente_valido (df_clientes : list Clientes.Row) (r : Vendas.Row) : bool :=
  negb (negb (isin (Vendas.id_cliente r)
                (unique (map Clientes.id_cliente df_clientes)))).

Definition produto_valido (df_produtos : list Produtos.Row) (r : Vendas.Row) : bool :=
  negb (negb (isin (Vendas.id_produto r)
                (unique (map Produtos.id_produto df_produtos)))).

(** Vendas, steps 3 to 6. *)
Definition venda_quantidade (r : Vendas.Row) : Vendas.Row :=
  if (Vendas.quantidade r <=? 0)%Z &&
     negb (opt_eqb str_eqb (Vendas.status r) (Some (lit "Cancelada")))
  then Vendas.set_quantidade (int64_abs (Vendas.quantidade r)) r else r.

Definition valor_total_calculado (r : Vendas.Row) : option Q :=
  fmul (Some (inject_Z (Vendas.quantidade r))) (Vendas.valor_unitario r).

Definition inconsistent (r : Vendas.Row) : bool :=
  fgt (fabs (fsub (Vendas.valor_total r) (valor_total_calculado r))) (1 # 100).

Definition venda_valor_total (r : Vendas.Row) : Vendas.Row :=
  if inconsistent r
  then Vendas.set_valor_total (valor_total_calculado r) r else r.

Definition venda_data (col : list DateCell) (r : Vendas.Row) : Vendas.Row :=
  Vendas.set_data_venda (to_datetime col (Vendas.data_venda r)) r.

Definition venda_data_futura (now : Z) (r : Vendas.Row) : Vendas.Row :=
  if match instant (Vendas.data_venda r) with
     | Some t => (now <? t)%Z
     | None => false
     end
  then Vendas.set_data_venda (DTime now) r else r.

Definition venda_status (r : Vendas.Row) : Vendas.Row :=
  Vendas.set_status (option_map (fun s => strip (title s)) (Vendas.status r)) r.

(** The steps 3 to 6 on one row; [col] is the sale date column. *)
Definition limpa_venda (now : Z) (col : list DateCell) (r : Vendas.Row)
    : Vendas.Row :=
  venda_status
    (venda_data_futura now
       (venda_data col
          (venda_valor_total
             (venda_quantidade r)))).

(** Logistica, step 1: the rows that are kept. *)
Definition venda_valida (df_vendas : list Vendas.Row) (r : Logistica.Row) : bool :=
  negb (negb (isin (Logistica.id_venda r)
                (unique (map Vendas.id_venda df_vendas)))).

(** Logistica, steps 2 to 4; the three date columns are [envios],
    [previstas] and [reais]. *)
Definition limpa_entrega (envios previstas reais : list DateCell)
    (r : Logistica.Row) : Logistica.Row :=
  (fun r => Logistica.set_transportadora
              (option_map (fun s => strip (title s)) (Logistica.transportadora r)) r)
    ((fun r => Logistica.set_status_entrega
                 (option_map (fun s => strip (title s))
                    (Logistica.status_entrega r)) r)
       ((fun r => Logistica.set_data_entrega_real
                    (to_datetime reais (Logistica.data_entrega_real r)) r)
          ((fun r => Logistica.set_data_entrega_prevista
                       (to_datetime previstas (Logistica.data_entrega_prevista r)) r)
             ((fun r => Logistica.set_data_envio
                          (to_datetime envios (Logistica.data_envio r)) r) r)))).

(** A cleaning operation as a whole: the rows kept, each cleaned with the
    date columns of the rows kept. *)
Definition clientes_limpos (now : Z) (kept : list Clientes.Row)
    : list Clientes.Row :=
  map (limpa_cliente now (map Clientes.data_nascimento kept)) kept.

Definition produtos_limpos (kept : list Produtos.Row) : list Produtos.Row :=
  map (limpa_produto (map Produtos.data_criacao kept)) kept.

Definition vendas_limpas (now : Z) (kept : list Vendas.Row) : list Vendas.Row :=
  map (limpa_venda now (map Vendas.data_venda kept)) kept.

Definition entregas_limpas (kept : list Logistica.Row) : list Logistica.Row :=
  map (limpa_entrega (map Logistica.data_envio kept)
         (map Logistica.data_entrega_prevista kept)
         (map Logistica.data_entrega_real kept)) kept.

End WithLibraries.

(** The total-value rule of a sale row: the total is within one cent of
    quantity times unit price (false when one of the values is missing). *)
Definition total_consistent (r : Vendas.Row) : Prop :=
  exists total unit_price,
    Vendas.valor_total r = Some total /\
    Vendas.valor_unitario r = Some unit_price /\
    Qabs (total - inject_Z (Vendas.quantidade r) * unit_price) <= 1 # 100.

End PorLinha.
(* ------------------------------------------------------------------ *)
(** ** Sample data *)

Module Exemplos.
Import Frame Texto.

Local Open Scope string_scope.
Local Open Scope Z_scope.

Definition digit (c : ascii) : option Z :=
  if is_digit (N_of_ascii c) then Some (Z.of_N (N_of_ascii c) - 48) else None.

Definition number2 (a b : ascii) : option Z :=
  match digit a, digit b with
  | Some x, Some y => Some (10 * x + y)
  | _, _ => None
  end.

(** A calendar for the samples: it reads dates written [YYYY-MM-DD],
    whatever the column, and numbers the days [YYYYMMDD]. *)
Definition parse_iso_date (s : string) : option Z :=
  match s with
  | String y1 (String y2 (String y3 (String y4 (String "-"
      (String m1 (String m2 (String "-" (String d1 (String d2 EmptyString))))))))) =>
      match number2 y1 y2, number2 y3 y4, number2 m1 m2, number2 d1 d2 with
      | Some c, Some y, Some m, Some d =>
          if (1 <=? m) && (m <=? 12) && (1 <=? d) && (d <=? 31)
          then Some ((100 * c + y) * 10000 + m * 100 + d)
          else None
      | _, _, _, _ => None
      end
  | _ => None
  end.

Definition calendario_iso : Calendar :=
  {| parse_datetime := fun _ => parse_iso_date;
     dt_year := fun t => t / 10000 |}.

(** The day on which the samples are cleaned. *)
Definition hoje : Z := 20250315.

Definition cliente_1 : Clientes.Row :=
  {| Clientes.id_cliente := 1;
     Clientes.nome := Some (lit "Ana Souza");
     Clientes.email := Some (lit " Ana.Souza@Mail.com ");
     Clientes.telefone := Some (lit "(11) 98888-7777");
     Clientes.data_nascimento := DStr "1990-05-20";
     Clientes.cidade := Some (lit "sao paulo");
     Clientes.estado := Some (lit "sp");
     Clientes.data_cadastro := DStr "2023-01-01" |}.

(** The two customer rows of the scenario: the same identifier, the second
    registered later and without a name. *)
Definition cliente_antigo : Clientes.Row :=
  {| Clientes.id_cliente := 1;
     Clientes.nome := Some (lit "Ana Souza");
     Clientes.email := Some (lit "ana@mail.com");
     Clientes.telefone := Some (lit "11 4444-5555");
     Clientes.data_nascimento := DStr "1990-05-20";
     Clientes.cidade := Some (lit "campinas");
     Clientes.estado := Some (lit "sp");
     Clientes.data_cadastro := DStr "2023-01-01" |}.

Definition cliente_recente : Clientes.Row :=
  {| Clientes.id_cliente := 1;
     Clientes.nome := Some (lit "");
     Clientes.email := None;
     Clientes.telefone := None;
     Clientes.data_nascimento := NaT;
     Clientes.cidade := None;
     Clientes.estado := None;
     Clientes.data_cadastro := DStr "2024-06-01" |}.

Definition produto_1 : Produtos.Row :=
  {| Produtos.id_produto := 1;
     Produtos.nome_produto := Some (lit " Teclado ");
     Produtos.categoria := Some (lit "perifericos");
     Produtos.preco := Some (2 # 1)%Q;
     Produtos.estoque := 10;
     Produtos.data_criacao := DStr "2022-03-01";
     Produtos.ativo := OStr (lit "True") |}.

(** Same identifier as [produto_1], another product name. *)
Definition produto_1_bis : Produtos.Row :=
  Produtos.set_nome_produto (Some (lit "Mouse")) produto_1.

(** The sale of the scenario: quantity 5, unit price 2.00, total 9.00. *)
Definition venda_1 : Vendas.Row :=
  {| Vendas.id_venda := 1;
     Vendas.id_cliente := 1;
     Vendas.id_produto := 1;
     Vendas.quantidade := 5;
     Vendas.valor_unitario := Some (200 # 100)%Q;
     Vendas.valor_total := Some (900 # 100)%Q;
     Vendas.data_venda := DStr "2024-11-05";
     Vendas.status := Some (lit "pendente") |}.

(** The same sale with the total missing from the file. *)
Definition venda_sem_total : Vendas.Row :=
  Vendas.set_valor_total None venda_1.

(** A second customer, product, sale and shipment, with identifier 2. *)
Definition cliente_2 : Clientes.Row :=
  {| Clientes.id_cliente := 2;
     Clientes.nome := Some (lit "Bruno Lima");
     Clientes.email := Some (lit "bruno@mail.com");
     Clientes.telefone := Some (lit "21 3333-2222");
     Clientes.data_nascimento := DStr "1985-10-02";
     Clientes.cidade := Some (lit "rio de janeiro");
     Clientes.estado := Some (lit "rj");
     Clientes.data_cadastro := DStr "2022-07-15" |}.

Definition produto_2 : Produtos.Row :=
  {| Produtos.id_produto := 2;
     Produtos.nome_produto := Some (lit "Monitor");
     Produtos.categoria := Some (lit "telas");
     Produtos.preco := Some (900 # 1)%Q;
     Produtos.estoque := 3;
     Produtos.data_criacao := DStr "2022-04-01";
     Produtos.ativo := OStr (lit "False") |}.

Definition venda_2 : Vendas.Row :=
  {| Vendas.id_venda := 2;
     Vendas.id_cliente := 2;
     Vendas.id_produto := 2;
     Vendas.quantidade := 1;
     Vendas.valor_unitario := Some (900 # 1)%Q;
     Vendas.valor_total := Some (900 # 1)%Q;
     Vendas.data_venda := DStr "2024-12-01";
     Vendas.status := Some (lit "Cancelada") |}.

(** The sale [venda_2] once more under the identifier of [venda_1]. *)
Definition venda_1_bis : Vendas.Row :=
  {| Vendas.id_venda := 1;
     Vendas.id_cliente := 2;
     Vendas.id_produto := 2;
     Vendas.quantidade := 1;
     Vendas.valor_unitario := Some (900 # 1)%Q;
     Vendas.valor_total := Some (900 # 1)%Q;
     Vendas.data_venda := DStr "2024-12-01";
     Vendas.status := Some (lit "Cancelada") |}.

(** A customer of Izmir, the city written in capitals with the dotted
    capital I (U+0130). *)
Definition cliente_izmir : Clientes.Row :=
  {| Clientes.id_cliente := 3;
     Clientes.nome := Some (lit "Deniz");
     Clientes.email := Some (lit "deniz@mail.com");
     Clientes.telefone := Some (lit "232 555 0101");
     Clientes.data_nascimento := DStr "1992-03-08";
     Clientes.cidade := Some (lit "İZMİR");
     Clientes.estado := Some (lit "tr");
     Clientes.data_cadastro := DStr "2024-02-02" |}.



Definition entrega_1 : Logistica.Row :=
  {| Logistica.id_entrega := 1;
     Logistica.id_venda := 1;
     Logistica.transportadora := Some (lit "correios");
     Logistica.data_envio := DStr "2024-11-06";
     Logistica.data_entrega_prevista := DStr "2024-11-10";
     Logistica.data_entrega_real := NaT;
     Logistica.status_entrega := Some (lit "em transito") |}.

Definition entrega_2 : Logistica.Row :=
  {| Logistica.id_entrega := 2;
     Logistica.id_venda := 2;
     Logistica.transportadora := Some (lit "jadlog");
     Logistica.data_envio := DStr "2024-12-02";
     Logistica.data_entrega_prevista := DStr "2024-12-09";
     Logistica.data_entrega_real := DStr "2024-12-08";
     Logistica.status_entrega := Some (lit "entregue") |}.

(** A character database for the samples: Python's on ASCII, on the letter
    a with tilde (U+00E3, capital U+00C3), on the dotted capital I (U+0130,
    whose lower case is [i] followed by the combining dot above, U+0307),
    on the next line character (U+0085) and the no-break space (U+00A0),
    both white space; every other character is given no case. *)
Definition amostra_lower (c : N) : list N :=
  if (c <? 128)%N then [to_lower c]
  else if (c =? 195)%N then [227%N]
  else if (c =? 304)%N then [105%N; 775%N]
  else [c].

Definition amostra_upper (c : N) : list N :=
  if (c <? 128)%N then [to_upper c]
  else if (c =? 227)%N then [195%N]
  else [c].

Definition amostra_cased (c : N) : bool :=
  if (c <? 128)%N then is_alpha c
  else (c =? 195)%N || (c =? 227)%N || (c =? 304)%N.

Definition amostra_case_ignorable (c : N) : bool :=
  (c =? 39)%N || (c =? 46)%N || (c =? 58)%N || (c =? 94)%N || (c =? 96)%N ||
  (c =? 775)%N.

Definition amostra_whitespace (c : N) : bool :=
  if (c <? 128)%N then is_space c else (c =? 133)%N || (c =? 160)%N.

Definition amostra_decimal (c : N) : bool :=
  if (c <? 128)%N then is_digit c else false.

End Exemplos.
(* ------------------------------------------------------------------ *)
(** ** dashboard_qualidade.py and main.py: where the results come from *)

Module Dashboard.
Import Alertas.

Local Open Scope string_scope.

(** What [self.context.run_checkpoint(checkpoint_name=...)] does, a call
    into Great Expectations: it returns a result whose [success] is read,
    or it raises. *)
Inductive CheckpointRun : Type :=
| Ran (success : bool)
| Threw (message : string).

(** [QualityDashboard.run_checkpoint]: the keys [success] and [error] of
    the dictionary returned (the others, [checkpoint], [timestamp] and
    [run_id], are not read again). An exception of the run is caught. *)
Definition run_checkpoint (gx : string -> CheckpointRun) (checkpoint_name : string)
    : Checkpoint :=
  match gx checkpoint_name with
  | Ran success => {| success := Some success; error := None |}
  | Threw message => {| success := Some false; error := Some message |}
  end.

(** The list [checkpoints] of [run_all_checkpoints]. *)
Definition checkpoint_names : list string :=
  [ "checkpoint_clientes_lab"; "checkpoint_produtos";
    "checkpoint_vendas"; "checkpoint_logistica" ].

(** [sum(1 for r in results.values() if r.get('success', False))] *)
Definition count_successful (results : list (string * Checkpoint)) : Z :=
  Z.of_nat (List.length
              (filter (fun item => get_default (success (snd item)) false)
                 results)).

(** [QualityDashboard.run_all_checkpoints] *)
Definition run_all_checkpoints (gx : string -> CheckpointRun) : Results :=
  let results :=
    map (fun checkpoint => (checkpoint, run_checkpoint gx checkpoint))
      checkpoint_names in
  let total := Z.of_nat (List.length results) in
  let successful := count_successful results in
  let success_rate :=
    if (0 <? total)%Z
    then inject_Z successful / inject_Z total * 100 else 0 in
  {| checkpoints := Some results;
     summary := Some {| total := Some total;
                        successful := Some successful;
                        failed := Some (total - successful)%Z;
                        success_rate := Some success_rate |} |}.

(** The classification of [calculate_quality_score]. *)
Definition quality_level (success_rate : Q) : string :=
  if Qle_bool 98 success_rate then "EXCELENTE"
  else if Qle_bool 95 success_rate then "BOM"
  else if Qle_bool 90 success_rate then "ACEITÁVEL"
  else "CRÍTICO".

(** [QualityDashboard.calculate_quality_score]: score and level; [None]
    stands for the [KeyError] of a results structure without
    [summary] or without [success_rate]. *)
Definition calculate_quality_score (results : Results) : option (Q * string) :=
  match summary results with
  | Some s =>
      match success_rate s with
      | Some rate => Some (rate, quality_level rate)
      | None => None
      end
  | None => None
  end.

(** [main] of main.py, from the point of view of its exit code: the stages
    before the alerts (setup, suites, ingestion, cleaning, dashboard) either
    raise or hand over the results of the dashboard; then a fresh
    [AlertSystem] processes them; any exception is caught and gives exit
    code 1, and 0 is returned at the end of the [try] block. *)
Definition main_exit_code (now : Z) (stages_1_to_5 : Result Results) : Z :=
  match stages_1_to_5 with
  | Raise _ => 1%Z
  | Ok results =>
      match fst (process_alerts now results AlertSystem_init) with
      | Ok _ => 0%Z
      | Raise _ => 1%Z
      end
  end.

End Dashboard.

(* ------------------------------------------------------------------ *)
(** ** Further specification-level definitions *)

Module Medidas.
Import Alertas Frame Texto Cleaner.

Local Open Scope string_scope.

(** The order None < Low < Medium < High < Critical. *)
Definition severity_rank (s : option Severity) : nat :=
  match s with
  | None => 0
  | Some LOW => 1
  | Some MEDIUM => 2
  | Some HIGH => 3
  | Some CRITICAL => 4
  end.

(** An alert is classified as its own figures say. *)
Definition well_classified (a : Alert) : Prop :=
  (0 < total_records a)%Z /\
  (0 < affected_records a)%Z /\
  percentage a = percentage_of (affected_records a) (total_records a) /\
  1 <= percentage a /\
  determine_severity (percentage a) = Some (severity a).

(** A checkpoint entry that [analyze_quality_results] reports. *)
Definition failed_checkpoint (item : string * Checkpoint) : bool :=
  negb (get_default (success (snd item)) false).

(** The alert that [analyze_quality_results] stores for a failed
    checkpoint. *)
Definition checkpoint_alert (now : Z) (item : string * Checkpoint) : Alert :=
  Alert_init now
    (replace "_lab" "" (replace "checkpoint_" "" (fst item)))
    "Checkpoint falhou completamente" CRITICAL 1 1
    (Some (ErrorDetails (get_default (error (snd item)) "Unknown"))).

(** The aggregate alert of [analyze_quality_results], when there is one. *)
Definition aggregate_alert (now : Z) (results : Results) : list Alert :=
  let s := get_default (summary results) empty_summary in
  if Qltb 0 (100 - get_default (success_rate s) 100) then
    match determine_severity
            (percentage_of (get_default (failed s) 0%Z)
               (get_default (total s) 1%Z)) with
    | Some sev =>
        [Alert_init now "GERAL" "Taxa de falha nos checkpoints" sev
           (get_default (failed s) 0%Z) (get_default (total s) 1%Z)
           (Some (SummaryDetails s))]
    | None => []
    end
  else [].

(** Every character of a text satisfies [p]. *)
Fixpoint all_chars (p : N -> bool) (s : str) : bool :=
  match s with
  | [] => true
  | c :: s' => p c && all_chars p s'
  end.

(** The language of a regular expression. *)
Inductive lang : regex -> str -> Prop :=
| lang_eps : lang Eps []
| lang_chr p c : p c = true -> lang (Chr p) [c]
| lang_seq r1 r2 s1 s2 :
    lang r1 s1 -> lang r2 s2 -> lang (Seq r1 r2) (s1 ++ s2)%list
| lang_alt_l r1 r2 s : lang r1 s -> lang (Alt r1 r2) s
| lang_alt_r r1 r2 s : lang r2 s -> lang (Alt r1 r2) s
| lang_star_nil r : lang (Star r) []
| lang_star_cons r s1 s2 :
    lang r s1 -> lang (Star r) s2 -> lang (Star r) (s1 ++ s2)%list.

(** A text of the form local@domain.tld: a non-empty local part of the
    characters [a-zA-Z0-9._%+-], a non-empty domain of [a-zA-Z0-9.-], and
    at least two letters after the last dot. *)
Definition address (s : str) : Prop :=
  exists local domain tld,
    s = (local ++ lit "@" ++ domain ++ lit "." ++ tld)%list /\
    local <> [] /\ all_chars local_char local = true /\
    domain <> [] /\ all_chars domain_char domain = true /\
    (2 <= List.length tld)%nat /\ all_chars is_alpha tld = true.

End Medidas.

(* ------------------------------------------------------------------ *)
(** ** dashboard_qualidade.py: the executive report *)

Module Relatorio.
Import Alertas Texto Dashboard.

Local Open Scope string_scope.

(** The line that [generate_executive_report] writes under
    [RECOMENDAÇÕES:]. *)
Definition recommendation (score : Q) : string :=
  if Qltb score 90 then
    "  ⚠️  URGENTE: Qualidade abaixo do aceitável. Revisar processos."
  else if Qltb score 95 then
    "  ⚠️  ATENÇÃO: Qualidade requer melhoria."
  else if Qltb score 98 then
    "  ✓  Qualidade boa. Manter monitoramento."
  else
    "  ✓  Excelente qualidade! Manter boas práticas.".

Section WithUnicode.
Context {uni : Unicode}.

(** One line of [DETALHAMENTO POR DATASET]: the dataset name in capitals
    and the status shown. *)
Definition dataset_line (item : string * Checkpoint) : str * string :=
  let dataset := replace "_lab" "" (replace "checkpoint_" "" (fst item)) in
  let status := if get_default (success (snd item)) false
                then "✓ OK" else "✗ FALHA" in
  (upper (lit dataset), status).

(** The report of [generate_executive_report], field by field instead of
    laid out as text: the score and its level, the four figures of the
    summary, the dataset lines and the recommendation. *)
Record Report : Type := {
  report_score : Q;
  report_level : string;
  report_total : Z;
  report_successful : Z;
  report_failed : Z;
  report_lines : list (str * string);
  report_recommendation : string
}.

(** [QualityDashboard.generate_executive_report]; [None] stands for the
    [KeyError] of a results structure without one of the keys read. *)
Definition generate_executive_report (results : Results) : option Report :=
  match calculate_quality_score results, summary results, checkpoints results with
  | Some (score, level), Some s, Some items =>
      match total s, successful s, failed s with
      | Some t, Some ok, Some ko =>
          Some {| report_score := score;
                  report_level := level;
                  report_total := t;
                  report_successful := ok;
                  report_failed := ko;
                  report_lines := map dataset_line items;
                  report_recommendation := recommendation score |}
      | _, _, _ => None
      end
  | _, _, _ => None
  end.

End WithUnicode.

End Relatorio.

(* ------------------------------------------------------------------ *)
(** ** sistema_alertas.py: the alert dashboard *)

Module Painel.
Import Alertas.

Local Open Scope string_scope.

(** The dictionary [by_severity], its keys in insertion order. *)
Definition Groups : Type := list (Severity * list Alert).

(** [by_severity.get(severity)] *)
Fixpoint groups_get (severity : Severity) (by_severity : Groups)
    : option (list Alert) :=
  match by_severity with
  | [] => None
  | (k, v) :: rest =>
      if Severity_eqb severity k then Some v else groups_get severity rest
  end.

(** [by_severity[severity].append(alert)], for a key that is present. *)
Fixpoint groups_append (severity : Severity) (alert : Alert) (by_severity : Groups)
    : Groups :=
  match by_severity with
  | [] => []
  | (k, v) :: rest =>
      if Severity_eqb severity k then (k, (v ++ [alert])%list) :: rest
      else (k, v) :: groups_append severity alert rest
  end.

(** The body of the grouping loop. *)
Definition group_alert (by_severity : Groups) (alert : Alert) : Groups :=
  let severity := Alertas.severity alert in
  let by_severity :=
    match groups_get severity by_severity with
    | None => (by_severity ++ [(severity, [])])%list
    | Some _ => by_severity
    end in
  groups_append severity alert by_severity.

(** [for alert in self.alerts: ...] starting from the empty dictionary. *)
Definition group_by_severity (alerts : list Alert) : Groups :=
  fold_left group_alert alerts [].

Definition icon (severity : Severity) : string :=
  if Severity_eqb severity CRITICAL then "🔴"
  else if Severity_eqb severity HIGH then "🟠"
  else if Severity_eqb severity MEDIUM then "🟡"
  else "🟢".

(** One block of the dashboard: the heading (icon, severity, number of
    alerts) and the alerts listed under it. *)
Record Block : Type := {
  block_icon : string;
  block_severity : Severity;
  block_count : nat;
  block_alerts : list Alert
}.

(** [AlertSystem.generate_alert_dashboard], block by block instead of laid
    out as text: [None] is the message that no alert is active, otherwise
    the number shown as [Total de Alertas Ativos] and the blocks in the
    order written. *)
Definition generate_alert_dashboard (self : AlertSystem)
    : option (nat * list Block) :=
  match alerts self with
  | [] => None
  | _ :: _ =>
      let by_severity := group_by_severity (alerts self) in
      Some (List.length (alerts self),
            flat_map
              (fun severity =>
                 let alerts := get_default (groups_get severity by_severity) [] in
                 match alerts with
                 | [] => []
                 | _ :: _ =>
                     [{| block_icon := icon severity;
                         block_severity := severity;
                         block_count := List.length alerts;
                         block_alerts := alerts |}]
                 end)
              [CRITICAL; HIGH; MEDIUM; LOW])
  end.

End Painel.

(* ------------------------------------------------------------------ *)
(** ** pipeline_ingestao.py: schema validation *)

Module Ingestao.

Local Open Scope string_scope.

(** A schema: column name and dtype name, in the order written. *)
Definition Schema : Type := list (string * string).

(** [SchemaValidator.SCHEMAS] *)
Definition SCHEMAS : list (string * Schema) :=
  [ ("clientes",
     [ ("id_cliente", "int64"); ("nome", "object"); ("email", "object");
       ("telefone", "object"); ("data_nascimento", "object");
       ("cidade", "object"); ("estado", "object");
       ("data_cadastro", "object") ]);
    ("produtos",
     [ ("id_produto", "int64"); ("nome_produto", "object");
       ("categoria", "object"); ("preco", "float64"); ("estoque", "int64");
       ("data_criacao", "object"); ("ativo", "object") ]);
    ("vendas",
     [ ("id_venda", "int64"); ("id_cliente", "int64"); ("id_produto", "int64");
       ("quantidade", "int64"); ("valor_unitario", "float64");
       ("valor_total", "float64"); ("data_venda", "object");
       ("status", "object") ]);
    ("logistica",
     [ ("id_entrega", "int64"); ("id_venda", "int64");
       ("transportadora", "object"); ("data_envio", "object");
       ("data_entrega_prevista", "object"); ("data_entrega_real", "object");
       ("status_entrega", "object") ]) ].

(** [dict.get(key)] *)
Fixpoint dict_get {V} (key : string) (d : list (string * V)) : option V :=
  match d with
  | [] => None
  | (k, v) :: rest => if String.eqb key k then Some v else dict_get key rest
  end.

(** What [validate] reads of a frame: the labels of [df.columns], in
    order, each with the dtype name of its column. *)
Definition FrameInfo : Type := list (string * string).

Definition columns (df : FrameInfo) : list string := map fst df.

Definition mem (x : string) (xs : list string) : bool :=
  existsb (String.eqb x) xs.

(** [set(a) - set(b)], listed without repetition. *)
Definition set_diff (a b : list string) : list string :=
  nodup string_dec (filter (fun x => negb (mem x b)) a).

(** The dtype names of the columns labelled [col]: [df[col]] is a Series
    when there is one, and a DataFrame, which has no [dtype], when the
    label is repeated. *)
Definition dtypes_of (col : string) (df : FrameInfo) : list string :=
  map snd (filter (fun c => String.eqb (fst c) col) df).

Inductive SchemaError : Type :=
| UnknownSchema (dataset_name : string)
| MissingCols (cols : list string)
| ExtraCols (cols : list string).

Record Warning : Type := {
  w_col : string;
  w_expected : string;
  w_actual : string
}.

(** The condition under which a dtype difference is logged. *)
Definition dtype_differs (expected_type actual_type : string) : bool :=
  negb (String.eqb actual_type expected_type) &&
  negb (String.eqb expected_type "object" && String.prefix "object" actual_type).

(** The loop over [expected_schema.items()]: the warnings logged, or
    [None] for the [AttributeError] of [df[col].dtype] on a repeated
    label. *)
Fixpoint check_dtypes (df : FrameInfo) (expected_schema : Schema)
    : option (list Warning) :=
  match expected_schema with
  | [] => Some []
  | (col, expected_type) :: rest =>
      if mem col (columns df) then
        match dtypes_of col df with
        | [actual_type] =>
            match check_dtypes df rest with
            | Some warnings =>
                Some (if dtype_differs expected_type actual_type
                      then {| w_col := col; w_expected := expected_type;
                              w_actual := actual_type |} :: warnings
                      else warnings)
            | None => None
            end
        | _ => None
        end
      else check_dtypes df rest
  end.

(** [SchemaValidator.validate]: the pair returned and the warnings logged,
    or [None] for the [AttributeError]. *)
Definition validate (df : FrameInfo) (dataset_name : string)
    : option (bool * list SchemaError * list Warning) :=
  match dict_get dataset_name SCHEMAS with
  | None | Some [] => Some (false, [UnknownSchema dataset_name], [])
  | Some expected_schema =>
      let expected_cols := map fst expected_schema in
      let actual_cols := columns df in
      let missing_cols := set_diff expected_cols actual_cols in
      let errors :=
        match missing_cols with [] => [] | _ => [MissingCols missing_cols] end in
      let extra_cols := set_diff actual_cols expected_cols in
      let errors :=
        (errors ++
         match extra_cols with [] => [] | _ => [ExtraCols extra_cols] end)%list in
      match check_dtypes df expected_schema with
      | Some warnings =>
          Some (Nat.eqb (List.length errors) 0, errors, warnings)
      | None => None
      end
  end.

End Ingestao.

(* ================================================================== *)
(** * Properties *)

Import Alertas Spec.
Local Open Scope string_scope.

(** ** Comparisons *)

Lemma Qltb_lt (x y : Q) : Qltb x y = true <-> x < y.
Proof.
  unfold Qltb. rewrite negb_true_iff.
  split; intro Hxy.
  - apply Qnot_le_lt. intro Hle.
    apply Qle_bool_iff in Hle. congruence.
  - destruct (Qle_bool y x) eqn:E; [|reflexivity].
    apply Qle_bool_iff in E. exfalso. exact (Qlt_not_le _ _ Hxy E).
Qed.

Lemma Qltb_ge (x y : Q) : Qltb x y = false <-> y <= x.
Proof.
  unfold Qltb. rewrite negb_false_iff. apply Qle_bool_iff.
Qed.

(** ** The state monad *)

Lemma bind_preserves {S A B} (P : S -> Prop) (c : M S A) (k : A -> M S B) s :
  P (snd (c s)) ->
  (forall a s', P s' -> P (snd (k a s'))) ->
  P (snd (bind c k s)).
Proof.
  intros Hc Hk. unfold bind.
  destruct (c s) as [[a|e] s']; simpl in *; auto.
Qed.

Lemma for_each_preserves {S A} (P : S -> Prop) (xs : list A)
    (body : A -> M S unit) :
  (forall x s, In x xs -> P s -> P (snd (body x s))) ->
  forall s, P s -> P (snd (for_each xs body s)).
Proof.
  induction xs as [|x xs IH]; intros Hbody s Hs; simpl.
  - exact Hs.
  - apply bind_preserves.
    + apply Hbody; [now left | exact Hs].
    + intros _ s' Hs'. apply IH; [|exact Hs'].
      intros y s0 Hy. apply Hbody. now right.
Qed.

Lemma when_preserves {S} (P : S -> Prop) (cond : bool) (body : M S unit) s :
  P s -> (cond = true -> P (snd (body s))) -> P (snd (when cond body s)).
Proof.
  intros Hs Hb. destruct cond; simpl; auto.
Qed.

(** ** The alert engine *)

Lemma determine_severity_spec (p : Q) :
  (p < 1 -> determine_severity p = None) /\
  (1 <= p -> p < 3 -> determine_severity p = Some LOW) /\
  (3 <= p -> p < 5 -> determine_severity p = Some MEDIUM) /\
  (5 <= p -> p < 10 -> determine_severity p = Some HIGH) /\
  (10 <= p -> determine_severity p = Some CRITICAL).
Proof.
  unfold determine_severity.
  repeat split; intros;
    repeat match goal with
    | |- context [Qltb ?a ?b] =>
        let E := fresh "E" in
        destruct (Qltb a b) eqn:E;
        [apply Qltb_lt in E | apply Qltb_ge in E]
    end;
    try reflexivity; exfalso;
    repeat match goal with
    | H1 : ?a <= ?b, H2 : ?b < ?c |- _ =>
        lazymatch goal with
        | _ : a < c |- _ => fail
        | _ => pose proof (Qle_lt_trans _ _ _ H1 H2)
        end
    end;
    repeat match goal with
    | Hc : (?a < ?b)%Q |- _ =>
        first [ now (apply Qlt_not_le in Hc; apply Hc; discriminate)
              | now (apply Qlt_not_le in Hc; apply Hc; assumption) ]
    end.
Qed.

Lemma create_alert_none now ds issue affected total details sys :
  determine_severity (percentage_of affected total) = None ->
  no_alert sys (create_alert now ds issue affected total details sys).
Proof.
  intro Hsev. unfold no_alert, create_alert. rewrite Hsev. reflexivity.
Qed.

Lemma create_alert_some now ds issue affected total details sys sev :
  determine_severity (percentage_of affected total) = Some sev ->
  stored sev affected total sys
    (create_alert now ds issue affected total details sys).
Proof.
  intro Hsev. unfold stored, create_alert. rewrite Hsev.
  eexists. cbn. repeat split; reflexivity.
Qed.

Lemma percentage_of_positive (affected total : Z) :
  (0 < total)%Z ->
  percentage_of affected total == inject_Z affected / inject_Z total * 100.
Proof.
  intro Hpos. unfold percentage_of.
  apply Z.ltb_lt in Hpos. rewrite Hpos. reflexivity.
Qed.

Lemma percentage_of_zero (affected : Z) : percentage_of affected 0 == 0.
Proof. reflexivity. Qed.

(** C1. For every call [create_alert(dataset, issue, affected, total,
    details)] the percentage is [affected / total * 100] for a positive
    total and 0 for a total of zero, and the outcome follows the severity
    table on it: below 1 nothing is created and the engine is unchanged;
    from 1 up to 3 (excluded) a Low alert, from 3 up to 5 a Medium one, from
    5 up to 10 a High one and from 10 on a Critical one is returned and
    appended to the alert list with status open (the text [ABERTO]); in
    particular a percentage of exactly 1 gives Low and one of exactly 10
    gives Critical. *)
Theorem C1_create_alert_severity_table
    (now : Z) (ds issue : string) (affected total : Z)
    (details : option Details) (sys : AlertSystem) :
  let p := percentage_of affected total in
  let out := create_alert now ds issue affected total details sys in
  ((0 < total)%Z -> p == inject_Z affected / inject_Z total * 100) /\
  (total = 0%Z -> p == 0) /\
  (p < 1 -> no_alert sys out) /\
  (1 <= p /\ p < 3 -> stored LOW affected total sys out) /\
  (3 <= p /\ p < 5 -> stored MEDIUM affected total sys out) /\
  (5 <= p /\ p < 10 -> stored HIGH affected total sys out) /\
  (10 <= p -> stored CRITICAL affected total sys out) /\
  (p == 1 -> stored LOW affected total sys out) /\
  (p == 10 -> stored CRITICAL affected total sys out).
Proof.
  intros p out.
  destruct (determine_severity_spec p) as (Hnone & Hlow & Hmed & Hhigh & Hcrit).
  split; [exact (percentage_of_positive affected total)|].
  split; [intros ->; apply percentage_of_zero|].
  split; [intro Hp; apply create_alert_none; auto|].
  split; [intros [H1 H2]; apply create_alert_some; auto|].
  split; [intros [H1 H2]; apply create_alert_some; auto|].
  split; [intros [H1 H2]; apply create_alert_some; auto|].
  split; [intro Hp; apply create_alert_some; auto|].
  split; intro Hp; apply create_alert_some.
  - apply Hlow; rewrite Hp; [discriminate | reflexivity].
  - apply Hcrit. rewrite Hp. discriminate.
Qed.

Lemma C1_create_alert_severity_table_witness :
  (percentage_of 1 100 == 1 /\
   stored LOW 1 100 AlertSystem_init
     (create_alert 0 "vendas" "Valores inconsistentes" 1 100 None
        AlertSystem_init)) /\
  (percentage_of 10 100 == 10 /\
   stored CRITICAL 10 100 AlertSystem_init
     (create_alert 0 "vendas" "Valores inconsistentes" 10 100 None
        AlertSystem_init)) /\
  (percentage_of 999 100000 < 1 /\
   no_alert AlertSystem_init
     (create_alert 0 "vendas" "Valores inconsistentes" 999 100000 None
        AlertSystem_init)) /\
  ((0 < 100)%Z /\ percentage_of 4 100 == inject_Z 4 / inject_Z 100 * 100) /\
  percentage_of 7 0 == 0.
Proof.
  split; [|split; [|split; [|split]]].
  - split; [reflexivity|].
    apply (C1_create_alert_severity_table 0 "vendas" "Valores inconsistentes"
             1 100 None AlertSystem_init).
    reflexivity.
  - split; [reflexivity|].
    apply (C1_create_alert_severity_table 0 "vendas" "Valores inconsistentes"
             10 100 None AlertSystem_init).
    reflexivity.
  - split; [reflexivity|].
    apply (C1_create_alert_severity_table 0 "vendas" "Valores inconsistentes"
             999 100000 None AlertSystem_init).
    reflexivity.
  - split; [lia|].
    apply (C1_create_alert_severity_table 0 "vendas" "Valores inconsistentes"
             4 100 None AlertSystem_init).
    lia.
  - apply (C1_create_alert_severity_table 0 "vendas" "Valores inconsistentes"
             7 0 None AlertSystem_init).
    reflexivity.
Defined.

Lemma escalate_alert_result (now : Z) (a : Alert) (sys : AlertSystem) :
  exists esc,
    escalate_alert now a sys =
      (Ok esc, {| alerts := alerts sys;
                  escalations_json := (escalations_json sys ++ [esc])%list |}) /\
    alert esc = to_dict a /\
    escalated_at esc = now /\
    (recipients esc, sla_hours esc) = escalation_table (severity a).
Proof.
  unfold escalate_alert.
  destruct (severity a) eqn:Hsev; eexists; cbn; repeat split; reflexivity.
Qed.

(** C7. For every alert, [escalate_alert] returns an escalation whose
    recipients and SLA hours are those of the severity table (Critical:
    CDO, Data Owner, Data Steward, 4 hours; High: Data Owner, Data Steward,
    24; Medium: Data Steward, 48; Low: Data Custodian, 168), with a snapshot
    of the alert, and appends it to the escalations file without touching
    the alert list; in particular the alert created from affected = 15 and
    total = 100 is Critical, with percentage 15, and escalating it returns
    the recipients CDO, Data Owner, Data Steward and an SLA of 4 hours. *)
Theorem C7_escalate_alert_table :
  (forall (now : Z) (a : Alert) (sys : AlertSystem),
     exists esc,
       escalate_alert now a sys =
         (Ok esc, {| alerts := alerts sys;
                     escalations_json := (escalations_json sys ++ [esc])%list |}) /\
       alert esc = to_dict a /\
       (recipients esc, sla_hours esc) = escalation_table (severity a)) /\
  (forall (now now' : Z) (ds issue : string) (details : option Details)
          (sys : AlertSystem),
     exists a sys' esc sys'',
       create_alert now ds issue 15 100 details sys = (Ok (Some a), sys') /\
       severity a = CRITICAL /\
       percentage a == 15 /\
       escalate_alert now' a sys' = (Ok esc, sys'') /\
       recipients esc = ["CDO"; "Data Owner"; "Data Steward"] /\
       sla_hours esc = 4%Z).
Proof.
  split.
  - intros now a sys.
    destruct (escalate_alert_result now a sys) as (esc & Hrun & Hsnap & _ & Htab).
    exists esc. auto.
  - intros now now' ds issue details sys.
    pose (a := Alert_init now ds issue CRITICAL 15 100 details).
    pose (sys' := {| alerts := (alerts sys ++ [a])%list;
                     escalations_json := escalations_json sys |}).
    destruct (escalate_alert_result now' a sys') as (esc & Hrun & _ & _ & Htab).
    exists a, sys', esc. eexists.
    split; [reflexivity|].
    split; [reflexivity|].
    split; [reflexivity|].
    split; [exact Hrun|].
    cbn in Htab. inversion Htab. split; reflexivity.
Qed.

Lemma create_alert_all_open now ds issue affected total details sys :
  all_open sys ->
  all_open (snd (create_alert now ds issue affected total details sys)).
Proof.
  intros [Ha He]. unfold create_alert.
  destruct (determine_severity (percentage_of affected total)); cbn.
  - split; [|exact He].
    apply Forall_app. split; [exact Ha|].
    constructor; [reflexivity | constructor].
  - split; assumption.
Qed.

Lemma escalate_alert_all_open now a sys :
  status a = "ABERTO" ->
  all_open sys ->
  all_open (snd (escalate_alert now a sys)).
Proof.
  intros Hst [Ha He].
  destruct (escalate_alert_result now a sys) as (esc & Hrun & Hsnap & _).
  rewrite Hrun. cbn. split; [exact Ha|].
  apply Forall_app. split; [exact He|].
  constructor; [|constructor].
  rewrite Hsnap. exact Hst.
Qed.

Lemma escalate_alert_alerts now a sys :
  alerts (snd (escalate_alert now a sys)) = alerts sys.
Proof.
  destruct (escalate_alert_result now a sys) as (esc & Hrun & _).
  rewrite Hrun. reflexivity.
Qed.

Lemma analyze_quality_results_all_open now results sys :
  all_open sys ->
  all_open (snd (analyze_quality_results now results sys)).
Proof.
  intro Hsys. unfold analyze_quality_results.
  apply bind_preserves.
  - apply for_each_preserves; [|exact Hsys].
    intros [checkpoint details] s _ Hs.
    apply when_preserves; [exact Hs|]. intros _.
    apply bind_preserves; [|intros; assumption].
    apply create_alert_all_open, Hs.
  - intros _ s Hs.
    apply when_preserves; [exact Hs|]. intros _.
    apply bind_preserves; [|intros; assumption].
    apply create_alert_all_open, Hs.
Qed.

Lemma escalate_alert_run (now : Z) (a : Alert) (sys : AlertSystem) :
  escalate_alert now a sys =
    (Ok (escalation_of now a),
     {| alerts := alerts sys;
        escalations_json := (escalations_json sys ++ [escalation_of now a])%list |}).
Proof.
  unfold escalate_alert, escalation_of.
  destruct (severity a); reflexivity.
Qed.

(** The escalation loop of [process_alerts] keeps the alert list and appends
    one escalation for each Critical or High alert of [xs], in order. *)
Lemma escalation_loop (now : Z) (xs : list Alert) (sys : AlertSystem) :
  for_each xs
    (fun a => when (critical_or_high a)
                (bind (escalate_alert now a) (fun _ => ret tt))) sys =
  (Ok tt,
   {| alerts := alerts sys;
      escalations_json :=
        (escalations_json sys ++
         map (escalation_of now) (filter critical_or_high xs))%list |}).
Proof.
  revert sys. induction xs as [|a xs IH]; intro sys; simpl.
  - rewrite app_nil_r. destruct sys; reflexivity.
  - unfold bind at 1, when.
    destruct (critical_or_high a); cbn.
    + unfold bind at 1. rewrite escalate_alert_run. cbn.
      rewrite IH. cbn. rewrite <- app_assoc. reflexivity.
    + apply IH.
Qed.

Lemma process_alerts_run (now : Z) (results : Results) (sys : AlertSystem) :
  let sys1 := snd (analyze_quality_results now results sys) in
  fst (analyze_quality_results now results sys) = Ok tt ->
  process_alerts now results sys =
    (Raise (TypeError "dumps() takes 1 positional argument but 2 positional arguments (and 2 keyword-only arguments) were given"),
     {| alerts := alerts sys1;
        escalations_json :=
          (escalations_json sys1 ++
           map (escalation_of now) (filter critical_or_high (alerts sys1)))%list |}).
Proof.
  intros sys1 Hok. unfold process_alerts.
  unfold bind at 1.
  destruct (analyze_quality_results now results sys) as [r s1] eqn:Hrun.
  cbn in Hok, sys1. subst r sys1.
  unfold bind at 1, get at 1.
  unfold bind at 1. rewrite escalation_loop.
  reflexivity.
Qed.

Lemma for_each_ok {S A} (xs : list A) (body : A -> M S unit) :
  (forall x s, In x xs -> fst (body x s) = Ok tt) ->
  forall s, fst (for_each xs body s) = Ok tt.
Proof.
  induction xs as [|x xs IH]; intros Hbody s; simpl.
  - reflexivity.
  - unfold bind.
    pose proof (Hbody x s (or_introl eq_refl)) as Hx.
    destruct (body x s) as [r s']. cbn in Hx. subst r.
    apply IH. intros y s0 Hy. apply Hbody. now right.
Qed.

Lemma create_alert_ok now ds issue affected total details sys :
  exists r, fst (create_alert now ds issue affected total details sys) = Ok r.
Proof.
  unfold create_alert.
  destruct (determine_severity (percentage_of affected total));
    eexists; reflexivity.
Qed.

Lemma create_then_ret_ok now ds issue affected total details sys :
  fst (bind (create_alert now ds issue affected total details)
         (fun _ => ret tt) sys) = Ok tt.
Proof.
  unfold bind.
  destruct (create_alert_ok now ds issue affected total details sys) as [r Hr].
  destruct (create_alert now ds issue affected total details sys) as [r' s'].
  cbn in Hr. subst r'. reflexivity.
Qed.

Lemma analyze_quality_results_ok now results sys :
  fst (analyze_quality_results now results sys) = Ok tt.
Proof.
  unfold analyze_quality_results.
  unfold bind at 1.
  match goal with
  | |- context [for_each ?xs ?body sys] =>
      pose proof (for_each_ok xs body) as Hloop
  end.
  match type of Hloop with
  | ?P -> _ => assert (Hbody : P)
  end.
  { intros [checkpoint details] s _.
    destruct (negb (get_default (success details) false)); cbn;
      first [reflexivity | apply create_then_ret_ok]. }
  specialize (Hloop Hbody sys).
  match goal with
  | |- context [for_each ?xs ?body sys] =>
      destruct (for_each xs body sys) as [r s1]
  end.
  cbn in Hloop. subst r.
  match goal with
  | |- context [when ?c _] => destruct c; cbn
  end.
  - apply create_then_ret_ok.
  - reflexivity.
Qed.

Lemma process_alerts_all_open now results sys :
  all_open sys -> all_open (snd (process_alerts now results sys)).
Proof.
  intro Hsys.
  rewrite (process_alerts_run now results sys
             (analyze_quality_results_ok now results sys)).
  destruct (analyze_quality_results_all_open now results sys Hsys) as [Ha He].
  cbn. split; [exact Ha|].
  apply Forall_app. split; [exact He|].
  apply Forall_forall. intros e Hin.
  apply in_map_iff in Hin. destruct Hin as (a & <- & Hin).
  apply filter_In in Hin. destruct Hin as [Hin _].
  cbn. rewrite Forall_forall in Ha. apply Ha, Hin.
Qed.

Lemma reachable_all_open sys : reachable sys -> all_open sys.
Proof.
  induction 1 as [|sys sys' Hreach IH Hstep].
  - split; constructor.
  - destruct Hstep.
    + apply create_alert_all_open, IH.
    + apply escalate_alert_all_open; [reflexivity | exact IH].
    + apply analyze_quality_results_all_open, IH.
    + apply process_alerts_all_open, IH.
Qed.

Lemma critical_or_high_iff (a : Alert) :
  critical_or_high a = true <-> severity a = CRITICAL \/ severity a = HIGH.
Proof.
  unfold critical_or_high.
  destruct (severity a); cbn; split; intro Hs; auto;
    try discriminate; destruct Hs; discriminate.
Qed.

(** C8, as the code has it. Every alert is created with status open (the
    text [ABERTO]) and no operation of the alert engine changes the status
    of an alert: in every state reachable through [create_alert],
    [escalate_alert], [analyze_quality_results] and [process_alerts] all
    alerts and all escalation snapshots are open. [escalate_alert] leaves
    the alert list as it is and returns a snapshot with the status of the
    alert, and [process_alerts] calls it for the Critical and High alerts
    only, then stops in [save_alerts]. *)
Theorem C8_status_stays_open :
  (forall sys, reachable sys -> all_open sys) /\
  (forall now a sys,
     alerts (snd (escalate_alert now a sys)) = alerts sys /\
     exists e, fst (escalate_alert now a sys) = Ok e /\
               d_status (alert e) = status a) /\
  (forall now results sys,
     let sys1 := snd (analyze_quality_results now results sys) in
     alerts (snd (process_alerts now results sys)) = alerts sys1 /\
     escalations_json (snd (process_alerts now results sys)) =
       (escalations_json sys1 ++
        map (escalation_of now) (filter critical_or_high (alerts sys1)))%list) /\
  (forall a, critical_or_high a = true <->
             severity a = CRITICAL \/ severity a = HIGH).
Proof.
  split; [exact reachable_all_open|].
  split; [|split; [|exact critical_or_high_iff]].
  - intros now a sys. rewrite escalate_alert_run. cbn.
    split; [reflexivity|]. eexists. split; reflexivity.
  - intros now results sys sys1.
    rewrite (process_alerts_run now results sys
               (analyze_quality_results_ok now results sys)).
    split; reflexivity.
Qed.

Lemma C8_status_stays_open_witness :
  reachable (snd (process_alerts 0 mock_results AlertSystem_init)) /\
  all_open (snd (process_alerts 0 mock_results AlertSystem_init)).
Proof.
  assert (Hreach : reachable (snd (process_alerts 0 mock_results AlertSystem_init))).
  { eapply reach_step; [apply reach_init | apply step_process]. }
  split; [exact Hreach|].
  exact (proj1 C8_status_stays_open _ Hreach).
Defined.

(** C8, as stated, fails: escalating the Critical alert created from
    affected = 15 and total = 100 leaves that alert, and the snapshot
    returned, with status [ABERTO]; no other status appears. *)
Lemma C8_counterexample :
  let a := Alert_init 0 "vendas" "Valores inconsistentes" CRITICAL 15 100 None in
  let sys := snd (create_alert 0 "vendas" "Valores inconsistentes" 15 100 None
                    AlertSystem_init) in
  alerts sys = [a] /\
  severity a = CRITICAL /\
  ~ leaves_open_state 1 a sys.
Proof.
  cbn zeta. split; [reflexivity|]. split; [reflexivity|].
  intros [(a' & Hin & Hst) | (e & He & Hst)].
  - rewrite escalate_alert_alerts in Hin. cbn in Hin.
    destruct Hin as [<- | []]. apply Hst. reflexivity.
  - rewrite escalate_alert_run in He. cbn in He.
    injection He as <-. apply Hst. reflexivity.
Qed.

Import Frame Texto Cleaner.

(* ================================================================== *)
(** * Text *)

(** ** The ASCII table *)

Ltac ascii_cases :=
  unfold to_lower, to_upper, is_alpha, is_upper, is_lower, is_space, is_digit,
    between in *;
  repeat match goal with
         | |- context [(?a <=? ?b)%N] => destruct (N.leb_spec a b)
         | H : context [(?a <=? ?b)%N] |- _ => destruct (N.leb_spec a b)
         end;
  cbn in *; try reflexivity; try discriminate; try lia.



Lemma to_upper_lower c : is_alpha c = false -> to_upper c = c /\ to_lower c = c.
Proof. intro Ha. split; ascii_cases. Qed.

Lemma is_space_to_lower c : is_space (to_lower c) = is_space c.
Proof. ascii_cases. Qed.

Lemma is_space_to_upper c : is_space (to_upper c) = is_space c.
Proof. ascii_cases. Qed.



Lemma space_not_alpha c : is_space c = true -> is_alpha c = false.
Proof. intro Hs. ascii_cases. Qed.

Lemma to_lower_ascii c : (c < 128)%N -> (to_lower c < 128)%N.
Proof. intro Hc. ascii_cases. Qed.

Lemma to_upper_ascii c : (c < 128)%N -> (to_upper c < 128)%N.
Proof. intro Hc. ascii_cases. Qed.

Lemma is_alpha_ascii c : is_alpha c = true -> (c < 128)%N.
Proof. intro Ha. ascii_cases. Qed.

Lemma is_digit_ascii c : is_digit c = true -> (c < 128)%N.
Proof. intro Ha. ascii_cases. Qed.

Lemma is_alpha_lower_fixed c :
  is_alpha c = true -> is_upper c = false -> to_lower c = c.
Proof. intros Ha Hu. ascii_cases. Qed.

Lemma str_eqb_eq (a b : str) : str_eqb a b = true <-> a = b.
Proof.
  revert b. induction a as [|x a IH]; intros [|y b]; cbn;
    try (split; intro Hab; congruence).
  rewrite andb_true_iff, N.eqb_eq, IH.
  split; [intros [-> ->]; reflexivity | intro Hab; now injection Hab].
Qed.

Lemma str_eqb_refl (a : str) : str_eqb a a = true.
Proof. now apply str_eqb_eq. Qed.

(** ** Stripping *)

Lemma is_empty_true (s : str) : is_empty s = true <-> s = [].
Proof. destruct s; cbn; split; intro Hs; congruence. Qed.

Section Stripping.
Variable space : N -> bool.

Lemma lstrip_chars_idem (s : str) :
  lstrip_chars space (lstrip_chars space s) = lstrip_chars space s.
Proof.
  induction s as [|c s IH]; cbn; [reflexivity|].
  destruct (space c) eqn:Hc; [exact IH|].
  cbn. now rewrite Hc.
Qed.

Lemma rstrip_chars_idem (s : str) :
  rstrip_chars space (rstrip_chars space s) = rstrip_chars space s.
Proof.
  induction s as [|c s IH]; cbn; [reflexivity|].
  destruct (space c && is_empty (rstrip_chars space s)) eqn:Hc; cbn;
    [reflexivity|].
  now rewrite IH, Hc.
Qed.

Lemma rstrip_lstrip_chars (s : str) :
  rstrip_chars space (lstrip_chars space s) =
  lstrip_chars space (rstrip_chars space s).
Proof.
  induction s as [|c s IH]; cbn; [reflexivity|].
  destruct (space c) eqn:Hc; cbn.
  - rewrite IH. destruct (is_empty (rstrip_chars space s)) eqn:He; cbn.
    + apply is_empty_true in He. now rewrite He.
    + now rewrite Hc.
  - now rewrite Hc.
Qed.

Lemma strip_chars_idem (s : str) :
  strip_chars space (strip_chars space s) = strip_chars space s.
Proof.
  unfold strip_chars.
  now rewrite rstrip_lstrip_chars, rstrip_chars_idem, lstrip_chars_idem.
Qed.

Lemma rstrip_chars_nil (s : str) :
  rstrip_chars space s = [] <-> forallb space s = true.
Proof.
  induction s as [|c s IH]; cbn; [tauto|].
  destruct (space c) eqn:Hc; cbn.
  - destruct (rstrip_chars space s) as [|x r] eqn:Hr; cbn.
    + split; [intros _; now apply IH | reflexivity].
    + split; [discriminate|]. intro Hall. apply IH in Hall. discriminate.
  - split; discriminate.
Qed.

Lemma lstrip_chars_nil (s : str) :
  lstrip_chars space s = [] <-> forallb space s = true.
Proof.
  induction s as [|c s IH]; cbn; [tauto|].
  destruct (space c) eqn:Hc; cbn; [exact IH|].
  split; discriminate.
Qed.

Lemma forallb_rstrip_chars (s : str) :
  forallb space s = false -> forallb space (rstrip_chars space s) = false.
Proof.
  induction s as [|c s IH]; cbn; [discriminate|].
  destruct (space c) eqn:Hc; cbn.
  - intro Hall. specialize (IH Hall).
    destruct (rstrip_chars space s) as [|x r] eqn:Hr; cbn in *;
      [discriminate|].
    now rewrite Hc.
  - intros _. cbn. now rewrite ?Hc.
Qed.

(** A text is stripped to nothing exactly when it is made of the stripped
    characters. *)
Lemma strip_chars_nil (s : str) :
  strip_chars space s = [] <-> forallb space s = true.
Proof.
  unfold strip_chars. rewrite lstrip_chars_nil. split.
  - intro Hall. destruct (forallb space s) eqn:Hs; [reflexivity|].
    apply forallb_rstrip_chars in Hs. congruence.
  - intro Hall. apply rstrip_chars_nil in Hall. now rewrite Hall.
Qed.

Lemma rstrip_chars_length (s : str) :
  (List.length (rstrip_chars space s) <= List.length s)%nat.
Proof.
  induction s as [|c s IH]; cbn; [lia|].
  destruct (space c && is_empty (rstrip_chars space s)); cbn; lia.
Qed.

Lemma rstrip_chars_trailing (s : str) (c : N) :
  space c = true ->
  rstrip_chars space (s ++ [c])%list = rstrip_chars space s.
Proof.
  intro Hc. induction s as [|x s IH]; cbn.
  - now rewrite Hc.
  - now rewrite IH.
Qed.

(** A stripped text does not end with a stripped character. *)
Lemma strip_chars_no_trailing (s u : str) (c : N) :
  space c = true -> strip_chars space s <> (u ++ [c])%list.
Proof.
  intros Hc Heq.
  assert (Hfix : rstrip_chars space (strip_chars space s) = strip_chars space s).
  { unfold strip_chars. now rewrite rstrip_lstrip_chars, rstrip_chars_idem. }
  rewrite Heq in Hfix.
  rewrite (rstrip_chars_trailing u c Hc) in Hfix.
  pose proof (rstrip_chars_length u) as Hlen.
  rewrite Hfix, length_app in Hlen. cbn in Hlen. lia.
Qed.

Variable f : N -> N.
Hypothesis f_space : forall c, space (f c) = space c.





End Stripping.







(** ** Title case on ASCII text *)











Lemma text_literal_ascii (s : str) :
  forallb (fun c => (c <? 128)%N) s = true -> ascii_only s.
Proof.
  intro Hall. apply Forall_forall. intros c Hc.
  rewrite forallb_forall in Hall. now apply N.ltb_lt, Hall.
Qed.

(** ** The text methods *)

Section TextMethods.
Context {uni : Unicode}.

Lemma strip_idem (s : str) : strip (strip s) = strip s.
Proof. apply strip_chars_idem. Qed.

Lemma strip_nil (s : str) : strip s = [] <-> forallb is_whitespace s = true.
Proof. apply strip_chars_nil. Qed.



Lemma lower_at_ascii prev c rest :
  (c < 128)%N -> lower_at prev c rest = [to_lower c].
Proof.
  intro Hc. unfold lower_at.
  destruct (N.eqb_spec c 931) as [-> | _]; [lia|].
  now apply ascii_table.
Qed.

Lemma lower_from_ascii prev (s : str) :
  ascii_only s -> lower_from prev s = map to_lower s.
Proof.
  intro Hs. revert prev. induction Hs as [|c s Hc Hs IH]; intro prev; cbn;
    [reflexivity|].
  now rewrite (lower_at_ascii _ _ _ Hc), IH.
Qed.

Lemma lower_ascii (s : str) : ascii_only s -> lower s = map to_lower s.
Proof. apply lower_from_ascii. Qed.











(** On any text: a case mapping turns white space into itself and another
    character into text that is not all white space. *)
Lemma forallb_whitespace_piece (c : N) (piece : list N) :
  (is_whitespace c = true -> piece = [c]) ->
  (is_whitespace c = false ->
   exists d, In d piece /\ is_whitespace d = false) ->
  forallb is_whitespace piece = is_whitespace c.
Proof.
  intros Hws Htext. destruct (is_whitespace c) eqn:Hc.
  - rewrite (Hws eq_refl). cbn. now rewrite Hc.
  - destruct (Htext eq_refl) as (d & Hin & Hd).
    destruct (forallb is_whitespace piece) eqn:Hall; [|reflexivity].
    rewrite forallb_forall in Hall. specialize (Hall d Hin). congruence.
Qed.

Lemma lower_at_whitespace prev c rest :
  forallb is_whitespace (lower_at prev c rest) = is_whitespace c.
Proof.
  apply forallb_whitespace_piece; unfold lower_at.
  - intro Hc. destruct (whitespace_has_no_case c Hc) as (Hl & _ & _ & Hsigma).
    destruct (N.eqb_spec c 931); [contradiction | exact Hl].
  - intro Hc. destruct (N.eqb_spec c 931) as [_ | _].
    + destruct small_sigma_is_text as [H962 H963].
      destruct (final_sigma prev rest); eexists; (split; [now left|]);
        assumption.
    + now apply case_keeps_text.
Qed.

Lemma to_title_full_whitespace c :
  forallb is_whitespace (to_title_full c) = is_whitespace c.
Proof.
  apply forallb_whitespace_piece.
  - intro Hc. now apply whitespace_has_no_case.
  - intro Hc. now apply case_keeps_text.
Qed.

Lemma title_from_whitespace b prev (s : str) :
  forallb is_whitespace (title_from b prev s) = forallb is_whitespace s.
Proof.
  revert b prev. induction s as [|c s IH]; intros b prev; cbn;
    [reflexivity|].
  rewrite forallb_app, IH. f_equal.
  destruct b; [apply lower_at_whitespace | apply to_title_full_whitespace].
Qed.

(** [s.title().strip()] is empty exactly when [s.strip()] is. *)
Lemma strip_title_empty (s : str) :
  is_empty (strip (title s)) = is_empty (strip s).
Proof.
  apply Bool.eq_true_iff_eq. rewrite !is_empty_true, !strip_nil.
  unfold title. now rewrite title_from_whitespace.
Qed.

End TextMethods.

(* ================================================================== *)
(** * The libraries of the samples *)

Import Exemplos.


Lemma not_later_trans (z y x : option Z) :
  later z y = false -> later y x = false -> later z x = false.
Proof.
  destruct z as [z|], y as [y|], x as [x|]; cbn; intros Hzy Hyx;
    try reflexivity; try discriminate.
  apply Z.ltb_ge. apply Z.ltb_ge in Hzy, Hyx. lia.
Qed.

Section InsertionSort.
Context {A : Type} (key : A -> option Z).

Lemma insert_desc_In (r x : A) (df : list A) :
  In x (insert_desc key r df) <-> x = r \/ In x df.
Proof.
  induction df as [|y df IH]; cbn.
  - intuition congruence.
  - destruct (later (key y) (key r)); cbn; [rewrite IH|]; intuition congruence.
Qed.

Lemma insert_desc_sorted (r : A) (df : list A) :
  sorted_desc key df -> sorted_desc key (insert_desc key r df).
Proof.
  unfold sorted_desc. induction df as [|y df IH]; intro Hs; cbn.
  - constructor; constructor.
  - inversion Hs as [|y' df' Hrest Hall]; subst.
    destruct (later (key y) (key r)) eqn:Hyr.
    + constructor; [now apply IH|].
      apply Forall_forall. intros x Hx.
      apply insert_desc_In in Hx. destruct Hx as [-> | Hx].
      * destruct (later (key r) (key y)) eqn:Hry; [|reflexivity].
        destruct (key r) as [a|], (key y) as [b|]; cbn in *;
          try discriminate.
        apply Z.ltb_lt in Hyr, Hry. lia.
      * rewrite Forall_forall in Hall. now apply Hall.
    + constructor; [exact Hs|].
      constructor; [exact Hyr|].
      apply Forall_forall. intros x Hx.
      rewrite Forall_forall in Hall.
      apply (not_later_trans _ (key y)); [now apply Hall | exact Hyr].
Qed.

Lemma insert_desc_rows (r : A) (df : list A) :
  Permutation (r :: df) (insert_desc key r df).
Proof.
  induction df as [|y df IH]; cbn; [reflexivity|].
  destruct (later (key y) (key r)); [|reflexivity].
  rewrite perm_swap. now apply perm_skip.
Qed.

Lemma insertion_sort_desc_sorted (df : list A) :
  sorted_desc key (insertion_sort_desc key df).
Proof.
  induction df as [|r df IH]; cbn.
  - constructor.
  - now apply insert_desc_sorted.
Qed.

Lemma insertion_sort_desc_rows (df : list A) :
  Permutation df (insertion_sort_desc key df).
Proof.
  induction df as [|r df IH]; cbn; [reflexivity|].
  rewrite <- insert_desc_rows. now apply perm_skip.
Qed.

End InsertionSort.

(** The stable sort of the samples. *)
Definition ordenacao_estavel : Sorting :=
  {| sort_values_desc := @insertion_sort_desc;
     sort_values_desc_rows := @insertion_sort_desc_rows;
     sort_values_desc_order := @insertion_sort_desc_sorted |}.


Lemma amostra_ascii_table (c : N) :
  (c < 128)%N ->
  amostra_lower c = [to_lower c] /\
  amostra_upper c = [to_upper c] /\
  amostra_upper c = [to_upper c] /\
  amostra_cased c = is_alpha c /\
  amostra_whitespace c = is_space c /\
  amostra_decimal c = is_digit c.
Proof.
  intro Hc.
  unfold amostra_lower, amostra_upper, amostra_cased, amostra_whitespace,
    amostra_decimal.
  destruct (N.ltb_spec c 128); [|lia]. repeat split; reflexivity.
Qed.

Lemma amostra_whitespace_has_no_case (c : N) :
  amostra_whitespace c = true ->
  amostra_lower c = [c] /\ amostra_upper c = [c] /\ amostra_upper c = [c] /\
  c <> 931%N.
Proof.
  unfold amostra_lower, amostra_upper, amostra_whitespace.
  destruct (N.ltb_spec c 128) as [Hc | Hc]; intro Hs.
  - pose proof (space_not_alpha c Hs) as Ha.
    destruct (to_upper_lower c Ha) as [-> ->].
    repeat split; try reflexivity. lia.
  - apply orb_true_iff in Hs. rewrite !N.eqb_eq in Hs.
    destruct Hs as [-> | ->]; cbn; repeat split; try reflexivity; lia.
Qed.

Lemma amostra_case_keeps_text (c : N) :
  amostra_whitespace c = false ->
  (exists d, In d (amostra_lower c) /\ amostra_whitespace d = false) /\
  (exists d, In d (amostra_upper c) /\ amostra_whitespace d = false) /\
  (exists d, In d (amostra_upper c) /\ amostra_whitespace d = false).
Proof.
  intro Hs.
  assert (Hascii : forall f : N -> N,
            (forall x, is_space (f x) = is_space x) ->
            (forall x, (x < 128)%N -> (f x < 128)%N) ->
            (c < 128)%N -> amostra_whitespace (f c) = false).
  { intros f Hspace Hlt Hc. unfold amostra_whitespace in *.
    destruct (N.ltb_spec c 128); [|lia].
    specialize (Hlt c Hc). destruct (N.ltb_spec (f c) 128); [|lia].
    now rewrite Hspace. }
  unfold amostra_lower, amostra_upper.
  destruct (N.ltb_spec c 128) as [Hc | Hc].
  - repeat split; eexists; (split; [now left|]).
    + apply (Hascii to_lower is_space_to_lower to_lower_ascii Hc).
    + apply (Hascii to_upper is_space_to_upper to_upper_ascii Hc).
    + apply (Hascii to_upper is_space_to_upper to_upper_ascii Hc).
  - repeat split.
    + destruct (N.eqb_spec c 195); [exists 227%N; split; [now left | reflexivity]|].
      destruct (N.eqb_spec c 304); [exists 105%N; split; [now left | reflexivity]|].
      exists c. split; [now left | exact Hs].
    + destruct (N.eqb_spec c 227); [exists 195%N; split; [now left | reflexivity]|].
      exists c. split; [now left | exact Hs].
    + destruct (N.eqb_spec c 227); [exists 195%N; split; [now left | reflexivity]|].
      exists c. split; [now left | exact Hs].
Qed.

(** The character database of the samples. *)
Definition unicode_amostra : Unicode :=
  {| to_lower_full := amostra_lower;
     to_upper_full := amostra_upper;
     to_title_full := amostra_upper;
     is_cased := amostra_cased;
     is_case_ignorable := amostra_case_ignorable;
     is_whitespace := amostra_whitespace;
     is_decimal := amostra_decimal;
     ascii_table := amostra_ascii_table;
     whitespace_has_no_case := amostra_whitespace_has_no_case;
     case_keeps_text := amostra_case_keeps_text;
     small_sigma_is_text := conj eq_refl eq_refl |}.

(* ================================================================== *)
(** * Frames *)

Lemma mask_sum_zero {A} (mask : A -> bool) (df : list A) :
  (0 <? mask_sum mask df)%nat = false ->
  forall r, In r df -> mask r = false.
Proof.
  unfold mask_sum. intros Hz r Hin.
  apply Nat.ltb_ge in Hz.
  destruct (mask r) eqn:Hm; [|reflexivity].
  assert (Hf : In r (filter mask df)) by (apply filter_In; auto).
  destruct (filter mask df); [destruct Hf | cbn in Hz; lia].
Qed.

(** A guarded assignment [if mask.sum() > 0: df.loc[mask, col] = ...] is
    the assignment itself. *)
Lemma guarded_loc_set {A} (mask : A -> bool) (set : A -> A) (df : list A) :
  (if (0 <? mask_sum mask df)%nat then loc_set mask set df else df) =
  loc_set mask set df.
Proof.
  destruct (0 <? mask_sum mask df)%nat eqn:Hz; [reflexivity|].
  unfold loc_set. symmetry.
  rewrite <- (map_id df) at 2.
  apply map_ext_in. intros r Hin.
  now rewrite (mask_sum_zero mask df Hz r Hin).
Qed.

(** A guarded removal [if mask.sum() > 0: df = df[~mask]] is the removal
    itself. *)
Lemma guarded_filter {A} (mask : A -> bool) (df : list A) :
  (if (0 <? mask_sum mask df)%nat
   then filter (fun r => negb (mask r)) df else df) =
  filter (fun r => negb (mask r)) df.
Proof.
  destruct (0 <? mask_sum mask df)%nat eqn:Hz; [reflexivity|].
  symmetry. apply forallb_filter_id.
  apply forallb_forall. intros r Hin.
  now rewrite (mask_sum_zero mask df Hz r Hin).
Qed.

Lemma drop_duplicates_from_incl {A} (same : A -> A -> bool) (df seen : list A) r :
  In r (drop_duplicates_from same seen df) -> In r df.
Proof.
  revert seen. induction df as [|x df IH]; intros seen Hin; simpl in *.
  - exact Hin.
  - destruct (existsb (same x) seen).
    + right. eapply IH, Hin.
    + destruct Hin as [-> | Hin]; [now left | right; eapply IH, Hin].
Qed.

(** When no row is marked by [duplicated], [drop_duplicates] would keep
    them all. *)
Lemma duplicated_none {A} (same : A -> A -> bool) (df seen : list A) :
  bool_sum (duplicated_from same seen df) = 0%nat ->
  drop_duplicates_from same seen df = df.
Proof.
  revert seen. induction df as [|x df IH]; intros seen Hz; simpl in *.
  - reflexivity.
  - unfold bool_sum in Hz. simpl in Hz.
    destruct (existsb (same x) seen); simpl in Hz; [discriminate|].
    f_equal. apply IH. exact Hz.
Qed.

Lemma guarded_drop_duplicates {A} (same : A -> A -> bool) (df : list A) :
  (if (0 <? bool_sum (duplicated same df))%nat
   then drop_duplicates same df else df) = drop_duplicates same df.
Proof.
  destruct (0 <? bool_sum (duplicated same df))%nat eqn:Hz; [reflexivity|].
  apply Nat.ltb_ge in Hz. symmetry.
  apply duplicated_none. unfold duplicated in Hz. lia.
Qed.

(** Rows kept by [drop_duplicates] on a key have pairwise different keys,
    none of them the key of a row seen before. *)
Lemma drop_duplicates_from_key {A} (key : A -> Z) (df seen : list A) :
  let same := fun a b => Z.eqb (key a) (key b) in
  NoDup (map key (drop_duplicates_from same seen df)) /\
  forall r, In r (drop_duplicates_from same seen df) ->
            ~ In (key r) (map key seen).
Proof.
  intro same. revert seen.
  induction df as [|x df IH]; intro seen; simpl.
  - split; [constructor | intros r []].
  - destruct (IH (x :: seen)) as [Hnd Hfresh].
    destruct (existsb (same x) seen) eqn:Hex.
    + split; [exact Hnd|].
      intros r Hin Hk. apply (Hfresh r Hin). simpl. now right.
    + split.
      * simpl. constructor; [|exact Hnd].
        intro Hin. apply in_map_iff in Hin.
        destruct Hin as (r & Hk & Hin).
        apply (Hfresh r Hin). simpl. left. now symmetry.
      * intros r [<- | Hin] Hk.
        -- apply in_map_iff in Hk. destruct Hk as (y & Hk & Hy).
           assert (Hc : existsb (same x) seen = true).
           { apply existsb_exists. exists y. split; [exact Hy|].
             unfold same. apply Z.eqb_eq. now symmetry. }
           congruence.
        -- apply (Hfresh r Hin). simpl. now right.
Qed.

Lemma NoDup_map_filter {A} (key : A -> Z) (keep : A -> bool) (df : list A) :
  NoDup (map key df) -> NoDup (map key (filter keep df)).
Proof.
  induction df as [|x df IH]; simpl; intro Hnd.
  - constructor.
  - inversion Hnd as [|k ks Hnot Hrest]; subst.
    destruct (keep x); simpl; [|now apply IH].
    constructor; [|now apply IH].
    intro Hin. apply Hnot.
    apply in_map_iff in Hin. destruct Hin as (r & Hk & Hin).
    apply in_map_iff. exists r. split; [exact Hk|].
    apply filter_In in Hin. tauto.
Qed.

Lemma NoDup_map_drop_duplicates {A} (key : A -> Z) (same : A -> A -> bool)
    (df seen : list A) :
  NoDup (map key df) -> NoDup (map key (drop_duplicates_from same seen df)).
Proof.
  revert seen. induction df as [|x df IH]; intros seen Hnd; simpl.
  - constructor.
  - inversion Hnd as [|k ks Hnot Hrest]; subst.
    destruct (existsb (same x) seen); simpl; [now apply IH|].
    constructor; [|now apply IH].
    intro Hin. apply Hnot.
    apply in_map_iff in Hin. destruct Hin as (r & Hk & Hin).
    apply in_map_iff. exists r. split; [exact Hk|].
    eapply drop_duplicates_from_incl, Hin.
Qed.

Lemma isin_In (x : Z) (values : list Z) : isin x values = true <-> In x values.
Proof.
  unfold isin. rewrite existsb_exists. split.
  - intros (y & Hy & Heq). apply Z.eqb_eq in Heq. now subst.
  - intro Hin. exists x. split; [exact Hin | apply Z.eqb_refl].
Qed.

Lemma unique_In (x : Z) (values : list Z) : In x (unique values) -> In x values.
Proof. apply drop_duplicates_from_incl. Qed.

Import PorLinha.

(** ** The cleaning operations as maps over the rows kept *)

Section CleaningEquations.
Context {cal : Calendar} {uni : Unicode} {ord : Sorting}.

(** The steps before a date conversion leave the date column alone. *)
Lemma cliente_passos_nascimento (r : Clientes.Row) :
  Clientes.data_nascimento
    (cliente_nome
       (cliente_cidade
          (cliente_estado
             (cliente_email_valido (cliente_email (cliente_telefone r)))))) =
  Clientes.data_nascimento r.
Proof.
  unfold cliente_nome, cliente_cidade, cliente_estado, cliente_email_valido,
    cliente_email, cliente_telefone.
  repeat match goal with
         | |- context [if ?c then _ else _] => destruct c
         end; reflexivity.
Qed.

Lemma produto_passos_data_criacao (r : Produtos.Row) :
  Produtos.data_criacao
    (produto_ativo
       (produto_ativo_texto
          (produto_nome
             (produto_categoria
                (produto_categoria_vazia
                   (produto_estoque (produto_preco r))))))) =
  Produtos.data_criacao r.
Proof.
  unfold produto_ativo, produto_ativo_texto, produto_nome, produto_categoria,
    produto_categoria_vazia, produto_estoque, produto_preco.
  repeat match goal with
         | |- context [if ?c then _ else _] => destruct c
         end; reflexivity.
Qed.

Lemma venda_passos_data_venda (r : Vendas.Row) :
  Vendas.data_venda (venda_valor_total (venda_quantidade r)) =
  Vendas.data_venda r.
Proof.
  unfold venda_valor_total, venda_quantidade.
  repeat match goal with
         | |- context [if ?c then _ else _] => destruct c
         end; reflexivity.
Qed.

Lemma clean_clientes_rows (now : Z) (df : list Clientes.Row) (self : DataCleaner) :
  clean_clientes now df self =
    (Ok (clientes_limpos now (clientes_sem_duplicatas df)), self).
Proof.
  unfold clean_clientes, ret, clientes_limpos. cbv zeta.
  rewrite !guarded_loc_set.
  unfold assign, loc_set. rewrite !map_map.
  rewrite <- (map_ext _ _ cliente_passos_nascimento
                (clientes_sem_duplicatas df)).
  reflexivity.
Qed.

Lemma clean_produtos_rows (df : list Produtos.Row) (self : DataCleaner) :
  clean_produtos df self =
    (Ok (produtos_limpos (drop_duplicates Produtos.same_row df)), self).
Proof.
  unfold clean_produtos, ret, produtos_limpos. cbv zeta.
  rewrite guarded_drop_duplicates, !guarded_loc_set.
  unfold assign, loc_set. rewrite !map_map.
  rewrite <- (map_ext _ _ produto_passos_data_criacao
                (drop_duplicates Produtos.same_row df)).
  reflexivity.
Qed.

Lemma clean_vendas_rows (now : Z) (df : list Vendas.Row)
    (df_clientes : list Clientes.Row) (df_produtos : list Produtos.Row)
    (self : DataCleaner) :
  clean_vendas now df df_clientes df_produtos self =
    (Ok (vendas_limpas now
           (filter (produto_valido df_produtos)
              (filter (cliente_valido df_clientes) df))), self).
Proof.
  unfold clean_vendas, ret, vendas_limpas. cbv zeta.
  rewrite !guarded_filter, !guarded_loc_set.
  unfold assign, loc_set. rewrite !map_map.
  rewrite <- (map_ext _ _ venda_passos_data_venda
                (filter (produto_valido df_produtos)
                   (filter (cliente_valido df_clientes) df))).
  reflexivity.
Qed.

Lemma clean_logistica_rows (df : list Logistica.Row) (df_vendas : list Vendas.Row)
    (self : DataCleaner) :
  clean_logistica df df_vendas self =
    (Ok (entregas_limpas (filter (venda_valida df_vendas) df)), self).
Proof.
  unfold clean_logistica, ret, entregas_limpas. cbv zeta.
  rewrite !guarded_filter.
  unfold assign. rewrite !map_map.
  reflexivity.
Qed.

End CleaningEquations.

(* ================================================================== *)
(** * The cleaning operations *)

Lemma unique_complete (x : Z) (values seen : list Z) :
  In x values ->
  In x (drop_duplicates_from Z.eqb seen values) \/ In x seen.
Proof.
  revert seen. induction values as [|y values IH]; intros seen Hin.
  - destruct Hin.
  - simpl. destruct Hin as [-> | Hin].
    + destruct (existsb (Z.eqb x) seen) eqn:Hex.
      * right. apply existsb_exists in Hex.
        destruct Hex as (z & Hz & Heq). apply Z.eqb_eq in Heq. now subst.
      * left. now left.
    + destruct (IH (y :: seen) Hin) as [Hres | [-> | Hseen]].
      * left. destruct (existsb (Z.eqb y) seen); [exact Hres | now right].
      * destruct (existsb (Z.eqb x) seen) eqn:Hex.
        -- right. apply existsb_exists in Hex.
           destruct Hex as (z & Hz & Heq). apply Z.eqb_eq in Heq. now subst.
        -- left. now left.
      * now right.
Qed.

Lemma In_unique (x : Z) (values : list Z) : In x values -> In x (unique values).
Proof.
  intro Hin. destruct (unique_complete x values [] Hin) as [Hu | []].
  exact Hu.
Qed.

Lemma isin_unique (x : Z) (values : list Z) :
  isin x (unique values) = isin x values.
Proof.
  apply Bool.eq_true_iff_eq. rewrite !isin_In.
  split; [apply unique_In | apply In_unique].
Qed.

Lemma filter_twice {A} (p q : A -> bool) (df : list A) :
  filter q (filter p df) = filter (fun r => p r && q r) df.
Proof.
  induction df as [|r df IH]; cbn; [reflexivity|].
  destruct (p r); cbn; [|exact IH].
  destruct (q r); now rewrite IH.
Qed.

Section CleaningProperties.
Context {cal : Calendar} {uni : Unicode} {ord : Sorting}.

Lemma clean_all_rows (now : Z) (clientes_df : list Clientes.Row)
    (produtos_df : list Produtos.Row) (vendas_df : list Vendas.Row)
    (logistica_df : list Logistica.Row) (self : DataCleaner) :
  let clientes_clean := clientes_limpos now (clientes_sem_duplicatas clientes_df) in
  let produtos_clean := produtos_limpos (drop_duplicates Produtos.same_row produtos_df) in
  let vendas_clean :=
    vendas_limpas now
      (filter (produto_valido produtos_clean)
         (filter (cliente_valido clientes_clean) vendas_df)) in
  let logistica_clean :=
    entregas_limpas (filter (venda_valida vendas_clean) logistica_df) in
  clean_all now clientes_df produtos_df vendas_df logistica_df self =
    (Ok {| clientes := clientes_clean; produtos := produtos_clean;
           vendas := vendas_clean; logistica := logistica_clean |}, self).
Proof.
  cbv zeta. unfold clean_all, bind.
  rewrite clean_clientes_rows, clean_produtos_rows, clean_vendas_rows,
    clean_logistica_rows.
  reflexivity.
Qed.

(** No cleaning step writes an identifier column. *)
Lemma limpa_cliente_id now col r :
  Clientes.id_cliente (limpa_cliente now col r) = Clientes.id_cliente r.
Proof.
  unfold limpa_cliente, cliente_nascimento_valido, cliente_nascimento,
    cliente_nome, cliente_cidade, cliente_estado, cliente_email_valido,
    cliente_email, cliente_telefone.
  repeat match goal with
         | |- context [if ?c then _ else _] => destruct c
         end; reflexivity.
Qed.

Lemma limpa_produto_id col r :
  Produtos.id_produto (limpa_produto col r) = Produtos.id_produto r.
Proof.
  unfold limpa_produto, produto_data_criacao, produto_ativo,
    produto_ativo_texto, produto_nome, produto_categoria,
    produto_categoria_vazia, produto_estoque, produto_preco.
  repeat match goal with
         | |- context [if ?c then _ else _] => destruct c
         end; reflexivity.
Qed.

Lemma limpa_venda_ids now col r :
  Vendas.id_venda (limpa_venda now col r) = Vendas.id_venda r /\
  Vendas.id_cliente (limpa_venda now col r) = Vendas.id_cliente r /\
  Vendas.id_produto (limpa_venda now col r) = Vendas.id_produto r.
Proof.
  unfold limpa_venda, venda_status, venda_data_futura, venda_data,
    venda_valor_total, venda_quantidade.
  repeat match goal with
         | |- context [if ?c then _ else _] => destruct c
         end; repeat split; reflexivity.
Qed.

Lemma limpa_entrega_ids c1 c2 c3 r :
  Logistica.id_entrega (limpa_entrega c1 c2 c3 r) = Logistica.id_entrega r /\
  Logistica.id_venda (limpa_entrega c1 c2 c3 r) = Logistica.id_venda r.
Proof. split; reflexivity. Qed.

Lemma map_id_limpa_cliente now col df :
  map Clientes.id_cliente (map (limpa_cliente now col) df) =
  map Clientes.id_cliente df.
Proof.
  rewrite map_map. apply map_ext. intro r. apply limpa_cliente_id.
Qed.

Lemma map_id_limpa_produto col df :
  map Produtos.id_produto (map (limpa_produto col) df) =
  map Produtos.id_produto df.
Proof.
  rewrite map_map. apply map_ext. intro r. apply limpa_produto_id.
Qed.

Lemma map_id_limpa_venda now col df :
  map Vendas.id_venda (map (limpa_venda now col) df) = map Vendas.id_venda df.
Proof.
  rewrite map_map. apply map_ext. intro r. apply limpa_venda_ids.
Qed.

Lemma map_id_limpa_entrega c1 c2 c3 df :
  map Logistica.id_entrega (map (limpa_entrega c1 c2 c3) df) =
  map Logistica.id_entrega df.
Proof.
  rewrite map_map. apply map_ext. intro r. apply limpa_entrega_ids.
Qed.

Lemma clientes_limpos_id now kept :
  map Clientes.id_cliente (clientes_limpos now kept) =
  map Clientes.id_cliente kept.
Proof. apply map_id_limpa_cliente. Qed.

Lemma produtos_limpos_id kept :
  map Produtos.id_produto (produtos_limpos kept) = map Produtos.id_produto kept.
Proof. apply map_id_limpa_produto. Qed.

Lemma vendas_limpas_id now kept :
  map Vendas.id_venda (vendas_limpas now kept) = map Vendas.id_venda kept.
Proof. apply map_id_limpa_venda. Qed.

Lemma entregas_limpas_id kept :
  map Logistica.id_entrega (entregas_limpas kept) =
  map Logistica.id_entrega kept.
Proof. apply map_id_limpa_entrega. Qed.

(** C3. For every output of [clean_all], on any four raw collections, every
    cleaned sale has its [id_cliente] among the cleaned customer
    identifiers and its [id_produto] among the cleaned product identifiers,
    and every cleaned shipment has its [id_venda] among the cleaned sale
    identifiers. *)
Theorem C3_referential_integrity (now : Z) (clientes_df : list Clientes.Row)
    (produtos_df : list Produtos.Row) (vendas_df : list Vendas.Row)
    (logistica_df : list Logistica.Row) (self : DataCleaner) :
  exists cleaned,
    clean_all now clientes_df produtos_df vendas_df logistica_df self =
      (Ok cleaned, self) /\
    Forall (fun v =>
              In (Vendas.id_cliente v)
                 (map Clientes.id_cliente (clientes cleaned)) /\
              In (Vendas.id_produto v)
                 (map Produtos.id_produto (produtos cleaned)))
           (vendas cleaned) /\
    Forall (fun e =>
              In (Logistica.id_venda e) (map Vendas.id_venda (vendas cleaned)))
           (logistica cleaned).
Proof.
  eexists. split; [apply clean_all_rows|].
  cbn [clientes produtos vendas logistica].
  split; apply Forall_forall; intros x Hin;
    [unfold vendas_limpas in Hin at 1 | unfold entregas_limpas in Hin];
    apply in_map_iff in Hin; destruct Hin as (r & <- & Hin);
    repeat (apply filter_In in Hin; destruct Hin as [Hin ?]).
  - destruct (limpa_venda_ids now
                (map Vendas.data_venda
                   (filter (produto_valido
                              (produtos_limpos
                                 (drop_duplicates Produtos.same_row produtos_df)))
                      (filter (cliente_valido
                                 (clientes_limpos now
                                    (clientes_sem_duplicatas clientes_df)))
                         vendas_df))) r) as (_ & -> & ->).
    unfold cliente_valido, produto_valido in *.
    rewrite negb_involutive in *.
    split; apply unique_In, isin_In; assumption.
  - rewrite (proj2 (limpa_entrega_ids _ _ _ r)).
    unfold venda_valida in *. rewrite negb_involutive in *.
    apply unique_In, isin_In; assumption.
Qed.

Lemma clientes_sem_duplicatas_NoDup (df : list Clientes.Row) :
  NoDup (map Clientes.id_cliente (clientes_sem_duplicatas df)).
Proof.
  unfold clientes_sem_duplicatas.
  destruct (0 <? bool_sum (duplicated Clientes.same_id df))%nat eqn:Hz.
  - apply (drop_duplicates_from_key Clientes.id_cliente).
  - apply Nat.ltb_ge in Hz.
    assert (Hsame : drop_duplicates Clientes.same_id df = df).
    { apply duplicated_none. unfold duplicated in Hz. lia. }
    rewrite <- Hsame.
    apply (drop_duplicates_from_key Clientes.id_cliente).
Qed.

(** A row that differs from every row before it is kept by
    [drop_duplicates]. *)
Lemma drop_duplicates_from_keeps {A} (same : A -> A -> bool)
    (pre post seen : list A) (p : A) :
  (forall q, In q seen \/ In q pre -> same p q = false) ->
  In p (drop_duplicates_from same seen (pre ++ p :: post)).
Proof.
  revert seen. induction pre as [|x pre IH]; intros seen Hnew; cbn.
  - assert (Hex : existsb (same p) seen = false).
    { destruct (existsb (same p) seen) eqn:Hex; [|reflexivity].
      apply existsb_exists in Hex. destruct Hex as (q & Hq & Hsame).
      rewrite (Hnew q (or_introl Hq)) in Hsame. discriminate. }
    rewrite Hex. now left.
  - assert (Hrest : In p (drop_duplicates_from same (x :: seen)
                            (pre ++ p :: post))).
    { apply IH. intros q [[<- | Hq] | Hq]; apply Hnew.
      - right. now left.
      - now left.
      - right. now right. }
    destruct (existsb (same x) seen); [exact Hrest | now right].
Qed.

(** C4, as the code has it. For every raw input the cleaned customer
    collection has no duplicate [id_cliente]. Product cleaning removes a
    row only when it repeats an earlier row in every column: the products
    kept are those that [drop_duplicates] keeps on whole rows, and a raw
    product that differs in some column from every row before it is kept.
    Sale and shipment cleaning remove a row only for an unknown reference
    and none for being a duplicate: the sales kept are the raw sales whose
    customer and product are among the cleaned ones, the shipments kept are
    the raw shipments whose sale is among the cleaned ones. So the cleaned
    [id_produto], [id_venda] and [id_entrega] columns are free of
    duplicates whenever the raw ones are. *)
Theorem C4_identifier_uniqueness (now : Z) (clientes_df : list Clientes.Row)
    (produtos_df : list Produtos.Row) (vendas_df : list Vendas.Row)
    (logistica_df : list Logistica.Row) (self : DataCleaner) :
  exists cleaned,
    clean_all now clientes_df produtos_df vendas_df logistica_df self =
      (Ok cleaned, self) /\
    NoDup (map Clientes.id_cliente (clientes cleaned)) /\
    map Produtos.id_produto (produtos cleaned) =
      map Produtos.id_produto (drop_duplicates Produtos.same_row produtos_df) /\
    (forall pre p post,
       produtos_df = (pre ++ p :: post)%list ->
       (forall q, In q pre -> Produtos.same_row p q = false) ->
       In (Produtos.id_produto p) (map Produtos.id_produto (produtos cleaned))) /\
    map Vendas.id_venda (vendas cleaned) =
      map Vendas.id_venda
        (filter (fun v =>
                   isin (Vendas.id_cliente v)
                        (map Clientes.id_cliente (clientes cleaned)) &&
                   isin (Vendas.id_produto v)
                        (map Produtos.id_produto (produtos cleaned)))
           vendas_df) /\
    map Logistica.id_entrega (logistica cleaned) =
      map Logistica.id_entrega
        (filter (fun e => isin (Logistica.id_venda e)
                               (map Vendas.id_venda (vendas cleaned)))
           logistica_df) /\
    (NoDup (map Produtos.id_produto produtos_df) ->
     NoDup (map Produtos.id_produto (produtos cleaned))) /\
    (NoDup (map Vendas.id_venda vendas_df) ->
     NoDup (map Vendas.id_venda (vendas cleaned))) /\
    (NoDup (map Logistica.id_entrega logistica_df) ->
     NoDup (map Logistica.id_entrega (logistica cleaned))).
Proof.
  eexists. split; [apply clean_all_rows|].
  cbn [clientes produtos vendas logistica].
  rewrite !entregas_limpas_id, !vendas_limpas_id, !produtos_limpos_id,
    !clientes_limpos_id.
  split; [apply clientes_sem_duplicatas_NoDup|].
  split; [reflexivity|].
  split.
  { intros pre p post -> Hnew. apply in_map.
    apply drop_duplicates_from_keeps. intros q [[] | Hq]. now apply Hnew. }
  split.
  { rewrite filter_twice. f_equal. apply filter_ext. intro v.
    unfold cliente_valido, produto_valido.
    now rewrite !negb_involutive, !isin_unique, produtos_limpos_id,
      clientes_limpos_id. }
  split.
  { f_equal. apply filter_ext. intro e. unfold venda_valida.
    now rewrite negb_involutive, isin_unique, vendas_limpas_id. }
  split; [apply NoDup_map_drop_duplicates|].
  split; intro Hnd.
  - now do 2 apply NoDup_map_filter.
  - now apply NoDup_map_filter.
Qed.

End CleaningProperties.

Lemma NoDup_1_1 : ~ NoDup [1%Z; 1%Z].
Proof.
  intro Hnd. inversion Hnd as [|x l Hnot _]; subst.
  apply Hnot. now left.
Qed.

Lemma NoDup_1_2 : NoDup [1%Z; 2%Z].
Proof.
  constructor; [intros [Heq | []]; discriminate|].
  constructor; [intros [] | constructor].
Qed.

Lemma C4_identifier_uniqueness_witness :
  exists cleaned,
    clean_all (cal := calendario_iso) (uni := unicode_amostra)
      (ord := ordenacao_estavel) hoje
      [cliente_antigo; cliente_recente; cliente_2] [produto_1; produto_2]
      [venda_1; venda_2] [entrega_1; entrega_2] DataCleaner_init =
      (Ok cleaned, DataCleaner_init) /\
    NoDup (map Clientes.id_cliente (clientes cleaned)) /\
    NoDup (map Produtos.id_produto [produto_1; produto_2]) /\
    NoDup (map Produtos.id_produto (produtos cleaned)) /\
    NoDup (map Vendas.id_venda [venda_1; venda_2]) /\
    NoDup (map Vendas.id_venda (vendas cleaned)) /\
    NoDup (map Logistica.id_entrega [entrega_1; entrega_2]) /\
    NoDup (map Logistica.id_entrega (logistica cleaned)).
Proof.
  destruct (C4_identifier_uniqueness (cal := calendario_iso)
              (uni := unicode_amostra) (ord := ordenacao_estavel) hoje
              [cliente_antigo; cliente_recente; cliente_2]
              [produto_1; produto_2] [venda_1; venda_2]
              [entrega_1; entrega_2] DataCleaner_init)
    as (cleaned & Hrun & Hc & _ & _ & _ & _ & Hp & Hv & Hl).
  exists cleaned. split; [exact Hrun|]. split; [exact Hc|].
  split; [exact NoDup_1_2|]. split; [exact (Hp NoDup_1_2)|].
  split; [exact NoDup_1_2|]. split; [exact (Hv NoDup_1_2)|].
  split; [exact NoDup_1_2 | exact (Hl NoDup_1_2)].
Defined.

(** C4, as stated, fails on the products, the sales and the shipments: two
    products with the same [id_produto] and different names both survive
    the cleaning, and so do two sales and two shipments with the same
    identifier, while of the two customer rows with identifier 1 one is
    left. *)
Lemma C4_counterexample :
  exists cleaned,
    clean_all (cal := calendario_iso) (uni := unicode_amostra)
      (ord := ordenacao_estavel) hoje
      [cliente_antigo; cliente_recente; cliente_2]
      [produto_1; produto_1_bis; produto_2]
      [venda_1; venda_1_bis] [entrega_1; entrega_1] DataCleaner_init =
      (Ok cleaned, DataCleaner_init) /\
    map Clientes.id_cliente (clientes cleaned) = [1%Z; 2%Z] /\
    map Produtos.id_produto (produtos cleaned) = [1%Z; 1%Z; 2%Z] /\
    map Vendas.id_venda (vendas cleaned) = [1%Z; 1%Z] /\
    map Logistica.id_entrega (logistica cleaned) = [1%Z; 1%Z] /\
    ~ NoDup (map Produtos.id_produto (produtos cleaned)) /\
    ~ NoDup (map Vendas.id_venda (vendas cleaned)) /\
    ~ NoDup (map Logistica.id_entrega (logistica cleaned)).
Proof.
  eexists. split; [vm_compute; reflexivity|].
  cbn [clientes produtos vendas logistica map Clientes.id_cliente
       Produtos.id_produto Vendas.id_venda Logistica.id_entrega].
  split; [reflexivity|]. split; [reflexivity|].
  split; [reflexivity|]. split; [reflexivity|].
  split; [|split; exact NoDup_1_1].
  intro Hnd. inversion Hnd as [|x l Hnot _]; subst. apply Hnot. now left.
Qed.

Section SaleProperties.
Context {cal : Calendar} {uni : Unicode} {ord : Sorting}.

Lemma limpa_venda_values now col r :
  Vendas.quantidade (limpa_venda now col r) = Vendas.quantidade (venda_quantidade r) /\
  Vendas.valor_unitario (limpa_venda now col r) = Vendas.valor_unitario r /\
  Vendas.valor_total (limpa_venda now col r) =
    Vendas.valor_total (venda_valor_total (venda_quantidade r)).
Proof.
  unfold limpa_venda, venda_status, venda_data_futura, venda_data,
    venda_valor_total, venda_quantidade.
  repeat match goal with
         | |- context [if ?c then _ else _] => destruct c
         end; repeat split; reflexivity.
Qed.

(** After step 4 a row whose total and unit price are present obeys the
    total-value rule. *)
Lemma venda_valor_total_consistent (r : Vendas.Row) :
  Vendas.valor_total (venda_valor_total r) <> None ->
  Vendas.valor_unitario r <> None ->
  exists total unit_price,
    Vendas.valor_total (venda_valor_total r) = Some total /\
    Vendas.valor_unitario r = Some unit_price /\
    Qabs (total - inject_Z (Vendas.quantidade r) * unit_price) <= 1 # 100.
Proof.
  unfold venda_valor_total, inconsistent, valor_total_calculado.
  destruct r as [idv idc idp q [u|] [t|] d st];
    cbn [Vendas.valor_total Vendas.valor_unitario Vendas.quantidade
         Vendas.set_valor_total fmul fsub fabs fgt option_map];
    intros Ht Hu;
    try (exfalso; apply Hu; reflexivity);
    try (exfalso; apply Ht; reflexivity).
  - destruct (Qltb (1 # 100) (Qabs (t - inject_Z q * u))) eqn:Hcmp;
      cbn [Vendas.valor_total Vendas.set_valor_total].
    + exists (inject_Z q * u), u.
      split; [reflexivity|]. split; [reflexivity|].
      assert (Hz : inject_Z q * u - inject_Z q * u == 0) by ring.
      rewrite Hz. discriminate.
    + exists t, u.
      split; [reflexivity|]. split; [reflexivity|].
      now apply Qltb_ge.
Qed.

Lemma limpa_venda_total_consistent now col r :
  Vendas.valor_total (limpa_venda now col r) <> None ->
  Vendas.valor_unitario (limpa_venda now col r) <> None ->
  total_consistent (limpa_venda now col r).
Proof.
  destruct (limpa_venda_values now col r) as (Hq & Hu & Ht).
  unfold total_consistent. rewrite Hq, Hu, Ht. intros Hpres Hunit.
  assert (Hu' : Vendas.valor_unitario (venda_quantidade r) = Vendas.valor_unitario r).
  { unfold venda_quantidade.
    destruct ((Vendas.quantidade r <=? 0)%Z &&
              negb (opt_eqb str_eqb (Vendas.status r) (Some (lit "Cancelada"))));
      reflexivity. }
  rewrite <- Hu' in *.
  now apply venda_valor_total_consistent.
Qed.

(** On the sale output of [clean_vendas], every row whose total and unit
    price are present has its total within one cent of quantity times unit
    price. *)
Lemma clean_vendas_total_consistent now df df_clientes df_produtos self :
  exists cleaned,
    clean_vendas now df df_clientes df_produtos self = (Ok cleaned, self) /\
    Forall (fun v =>
              Vendas.valor_total v <> None ->
              Vendas.valor_unitario v <> None ->
              total_consistent v) cleaned.
Proof.
  eexists. split; [apply clean_vendas_rows|].
  apply Forall_forall. intros v Hin. unfold vendas_limpas in Hin.
  apply in_map_iff in Hin. destruct Hin as (r & <- & _).
  apply limpa_venda_total_consistent.
Qed.

End SaleProperties.

(** C5 fails on a sale whose total is missing from the file (NaN in the
    [float64] column): the difference to quantity times unit price is NaN,
    [difference > 0.01] is false, the total is not recomputed, and the
    cleaned row, with quantity 5 and unit price 2.00, has no total within
    one cent of 10.00. *)
Theorem C5_missing_total_not_recomputed :
  exists v,
    clean_vendas (cal := calendario_iso) (uni := unicode_amostra) hoje [venda_sem_total]
      [cliente_1] [produto_1] DataCleaner_init = (Ok [v], DataCleaner_init) /\
    Vendas.quantidade v = 5%Z /\
    Vendas.valor_unitario v = Some (200 # 100) /\
    Vendas.valor_total v = None /\
    ~ total_consistent v.
Proof.
  eexists. split; [reflexivity|]. cbn.
  repeat split.
  intros (total & unit_price & Htot & _). discriminate.
Qed.

Section CorrectionLog.
Context {cal : Calendar} {uni : Unicode} {ord : Sorting}.

(** The scenario of C2, for any row with quantity 5, unit price 2.00 and
    total 9.00 whose customer and product are known. *)
Lemma clean_vendas_scenario now r df_clientes df_produtos self u t :
  In (Vendas.id_cliente r) (map Clientes.id_cliente df_clientes) ->
  In (Vendas.id_produto r) (map Produtos.id_produto df_produtos) ->
  Vendas.quantidade r = 5%Z ->
  Vendas.valor_unitario r = Some u -> u == 2 ->
  Vendas.valor_total r = Some t -> t == 9 ->
  exists v total,
    clean_vendas now [r] df_clientes df_produtos self = (Ok [v], self) /\
    Vendas.quantidade v = 5%Z /\
    Vendas.valor_unitario v = Some u /\
    Vendas.valor_total v = Some total /\
    total == 10.
Proof.
  intros Hc Hp Hq Hu Hu2 Ht Ht9.
  rewrite clean_vendas_rows. cbn [filter].
  assert (Hcv : cliente_valido df_clientes r = true).
  { unfold cliente_valido. rewrite negb_involutive.
    apply isin_In, In_unique, Hc. }
  assert (Hpv : produto_valido df_produtos r = true).
  { unfold produto_valido. rewrite negb_involutive.
    apply isin_In, In_unique, Hp. }
  rewrite Hcv. cbn [filter]. rewrite Hpv. cbn [map].
  unfold vendas_limpas. cbn [map].
  destruct (limpa_venda_values now [Vendas.data_venda r] r) as (Hq' & Hu' & Ht').
  assert (Hqty : venda_quantidade r = r).
  { unfold venda_quantidade. rewrite Hq. reflexivity. }
  rewrite Hqty in *.
  assert (Hinc : inconsistent r = true).
  { unfold inconsistent, valor_total_calculado.
    rewrite Ht, Hu, Hq. cbn [fmul fsub fabs fgt option_map].
    apply Qltb_lt. rewrite Ht9, Hu2. reflexivity. }
  exists (limpa_venda now [Vendas.data_venda r] r), (inject_Z 5 * u).
  split; [reflexivity|].
  split; [now rewrite Hq'|].
  split; [now rewrite Hu'|].
  split.
  - rewrite Ht'. unfold venda_valor_total. rewrite Hinc. cbn.
    unfold valor_total_calculado. now rewrite Hq, Hu.
  - rewrite Hu2. reflexivity.
Qed.

(** C2, as the code has it. No cleaning operation appends to the
    correction log: [clean_clientes], [clean_produtos], [clean_vendas],
    [clean_logistica] and [clean_all] return the cleaner as they found it.
    Cleaning the sale row with quantity 5, unit price 2.00 and total 9.00
    corrects the total to 10.00 and logs no correction record.
    [log_correction], which no cleaning operation calls, appends exactly one
    record holding the old value, the new value and the reason. *)
Theorem C2_corrections_not_logged :
  (forall now df self, snd (clean_clientes now df self) = self) /\
  (forall df self, snd (clean_produtos df self) = self) /\
  (forall now df df_clientes df_produtos self,
     snd (clean_vendas now df df_clientes df_produtos self) = self) /\
  (forall df df_vendas self, snd (clean_logistica df df_vendas self) = self) /\
  (forall now c p v l self, snd (clean_all now c p v l self) = self) /\
  (forall now r df_clientes df_produtos self u t,
     In (Vendas.id_cliente r) (map Clientes.id_cliente df_clientes) ->
     In (Vendas.id_produto r) (map Produtos.id_produto df_produtos) ->
     Vendas.quantidade r = 5%Z ->
     Vendas.valor_unitario r = Some u -> u == 2 ->
     Vendas.valor_total r = Some t -> t == 9 ->
     exists v total,
       clean_vendas now [r] df_clientes df_produtos self = (Ok [v], self) /\
       Vendas.quantidade v = 5%Z /\
       Vendas.valor_unitario v = Some u /\
       Vendas.valor_total v = Some total /\
       total == 10) /\
  (forall now ds id fld old new why self,
     log_correction now ds id fld old new why self =
       (Ok tt,
        {| corrections_log :=
             (corrections_log self ++
              [ {| timestamp := now; dataset := ds; record_id := id;
                   field := fld; old_value := py_str old;
                   new_value := py_str new; reason := why |} ])%list |})).
Proof.
  split; [intros; now rewrite clean_clientes_rows|].
  split; [intros; now rewrite clean_produtos_rows|].
  split; [intros; now rewrite clean_vendas_rows|].
  split; [intros; now rewrite clean_logistica_rows|].
  split; [intros; now rewrite clean_all_rows|].
  split; [exact clean_vendas_scenario|].
  intros. reflexivity.
Qed.

End CorrectionLog.

Lemma C2_corrections_not_logged_witness :
  exists v total,
    clean_vendas (cal := calendario_iso) (uni := unicode_amostra) hoje [venda_1] [cliente_1] [produto_1]
      DataCleaner_init = (Ok [v], DataCleaner_init) /\
    Vendas.quantidade v = 5%Z /\
    Vendas.valor_unitario v = Some (200 # 100) /\
    Vendas.valor_total v = Some total /\
    total == 10.
Proof.
  refine (proj1 (proj2 (proj2 (proj2 (proj2 (proj2
            (C2_corrections_not_logged (cal := calendario_iso) (uni := unicode_amostra)
      (ord := ordenacao_estavel)))))))
            hoje venda_1 [cliente_1] [produto_1] DataCleaner_init
            (200 # 100) (900 # 100) _ _ _ _ _ _ _);
    first [reflexivity | now left].
Defined.

(** C2, as stated, fails: cleaning the sale row with quantity 5, unit price
    2.00 and total 9.00 corrects the total to 10.00, and the correction log,
    empty before, is empty after; it holds no record for the field
    [valor_total]. *)
Lemma C2_counterexample :
  let out := clean_vendas (cal := calendario_iso) (uni := unicode_amostra) hoje [venda_1] [cliente_1]
               [produto_1] DataCleaner_init in
  (exists v total,
     fst out = Ok [v] /\ Vendas.valor_total v = Some total /\ total == 10) /\
  corrections_log (snd out) = [] /\
  ~ (exists record,
       corrections_log (snd out) = [record] /\ field record = "valor_total").
Proof.
  cbv zeta. split; [|split].
  - do 2 eexists. split; [reflexivity|]. split; reflexivity.
  - reflexivity.
  - intros (record & Hlog & _). discriminate.
Qed.

Section ActiveFlag.
Context {cal : Calendar} {uni : Unicode} {ord : Sorting}.

Lemma limpa_produto_ativo col (r : Produtos.Row) :
  Produtos.ativo (limpa_produto col r) =
    map_true_false (lower (py_str (Produtos.ativo r))).
Proof.
  unfold limpa_produto, produto_data_criacao, produto_ativo,
    produto_ativo_texto, produto_nome, produto_categoria,
    produto_categoria_vazia, produto_estoque, produto_preco.
  repeat match goal with
         | |- context [if ?c then _ else _] => destruct c
         end; reflexivity.
Qed.

Lemma map_true_false_spec (s : str) :
  (map_true_false s = OBool true <-> s = lit "true") /\
  (map_true_false s = OBool false <-> s = lit "false") /\
  (map_true_false s = ONaN <-> s <> lit "true" /\ s <> lit "false").
Proof.
  unfold map_true_false.
  destruct (str_eqb s (lit "true")) eqn:Et.
  - apply str_eqb_eq in Et. subst s.
    intuition (try discriminate; try congruence).
  - assert (Ht : s <> lit "true").
    { intro Heq. subst s. now rewrite str_eqb_refl in Et. }
    destruct (str_eqb s (lit "false")) eqn:Ef.
    + apply str_eqb_eq in Ef. subst s.
      intuition (try discriminate; try congruence).
    + assert (Hf : s <> lit "false").
      { intro Heq. subst s. now rewrite str_eqb_refl in Ef. }
      intuition (try discriminate; try congruence).
Qed.

(** C10. After the product cleaning, row by row over the rows that are kept
    (full duplicates dropped, order unchanged), the active flag is [True]
    exactly when the text form of the original value lowercases to [true],
    [False] exactly when it lowercases to [false], and the missing value
    for any other original value; the operation raises nothing. The values
    [yes], [1] and the empty text, the integer 1 and a missing value all
    give a missing flag. *)
Theorem C10_active_flag_normalisation (df : list Produtos.Row) (self : DataCleaner) :
  exists cleaned,
    clean_produtos df self = (Ok cleaned, self) /\
    Forall2
      (fun original row =>
         Produtos.id_produto row = Produtos.id_produto original /\
         let text := lower (py_str (Produtos.ativo original)) in
         (Produtos.ativo row = OBool true <-> text = lit "true") /\
         (Produtos.ativo row = OBool false <-> text = lit "false") /\
         (Produtos.ativo row = ONaN <-> text <> lit "true" /\ text <> lit "false"))
      (drop_duplicates Produtos.same_row df) cleaned /\
    Forall
      (fun value =>
         forall r row,
           clean_produtos [Produtos.set_ativo value r] self = (Ok [row], self) ->
           Produtos.ativo row = ONaN)
      [OStr (lit "yes"); OStr (lit "1"); OStr (lit ""); OInt 1; ONaN].
Proof.
  eexists. split; [apply clean_produtos_rows|]. split.
  - unfold produtos_limpos.
    generalize (map Produtos.data_criacao
                  (drop_duplicates Produtos.same_row df)) as col.
    intro col.
    induction (drop_duplicates Produtos.same_row df) as [|r rows IH]; cbn [map].
    + constructor.
    + constructor; [|exact IH].
      split; [apply limpa_produto_id|].
      cbv zeta. rewrite limpa_produto_ativo. apply map_true_false_spec.
  - repeat constructor; intros r row Hrun;
      rewrite clean_produtos_rows in Hrun;
      unfold drop_duplicates, produtos_limpos in Hrun;
      cbn [drop_duplicates_from existsb map] in Hrun;
      injection Hrun as <-; rewrite limpa_produto_ativo;
      destruct r; cbn [Produtos.ativo Produtos.set_ativo py_str];
      rewrite lower_ascii by (apply text_literal_ascii; reflexivity);
      reflexivity.
Qed.

End ActiveFlag.

(** ** Customer cleaning, column by column *)


Section CustomerColumns.
Context {cal : Calendar} {uni : Unicode} {ord : Sorting}.

Lemma limpa_cliente_columns (now : Z) (col : list DateCell) (r : Clientes.Row) :
  limpa_cliente now col r =
    {| Clientes.id_cliente := Clientes.id_cliente r;
       Clientes.nome := nome_limpo (Clientes.id_cliente r) (Clientes.nome r);
       Clientes.email := email_limpo (Clientes.email r);
       Clientes.telefone :=
         Some (only_digits (astype_str (Clientes.telefone r)));
       Clientes.data_nascimento :=
         nascimento_limpo now col (Clientes.data_nascimento r);
       Clientes.cidade :=
         option_map (fun s => strip (title s)) (Clientes.cidade r);
       Clientes.estado :=
         option_map (fun s => strip (upper s)) (Clientes.estado r);
       Clientes.data_cadastro := Clientes.data_cadastro r |}.
Proof.
  destruct r as [id n e tel dn cid est dc].
  unfold limpa_cliente, cliente_nascimento_valido, nascimento_invalido,
    cliente_nascimento, cliente_nome, cliente_cidade, cliente_estado,
    cliente_email_valido, email_invalido, cliente_email, cliente_telefone,
    nome_limpo, email_limpo, nascimento_limpo.
  cbn -[blank to_datetime match_email strip lower upper title only_digits
        astype_str str_int app lit Z.ltb].
  destruct e as [e|]; cbn -[blank to_datetime match_email strip lower upper
                            title only_digits astype_str str_int app lit Z.ltb];
    [destruct (match_email (strip (lower e)))|];
    cbn -[blank to_datetime match_email strip lower upper title only_digits
          astype_str str_int app lit Z.ltb];
    (destruct (blank n);
     cbn -[blank to_datetime match_email strip lower upper title only_digits
           astype_str str_int app lit Z.ltb];
     destruct (to_datetime col dn) as [x|t|];
     cbn -[blank to_datetime match_email strip lower upper title only_digits
           astype_str str_int app lit Z.ltb];
     try reflexivity;
     destruct ((dt_year t <? 1900)%Z || (dt_year now <? dt_year t)%Z);
     reflexivity).
Qed.







Lemma not_duplicated (df seen : list Clientes.Row) :
  NoDup (map Clientes.id_cliente df) ->
  (forall r, In r df ->
             ~ In (Clientes.id_cliente r) (map Clientes.id_cliente seen)) ->
  bool_sum (duplicated_from Clientes.same_id seen df) = 0%nat.
Proof.
  revert seen. induction df as [|x df IH]; intros seen Hnd Hfresh;
    [reflexivity|].
  inversion Hnd as [|k ks Hnot Hrest]; subst.
  cbn [duplicated_from]. unfold bool_sum. cbn [filter].
  destruct (existsb (Clientes.same_id x) seen) eqn:Hex.
  - exfalso. apply existsb_exists in Hex. destruct Hex as (y & Hy & Heq).
    apply (Hfresh x (or_introl eq_refl)).
    apply in_map_iff. exists y. split; [|exact Hy].
    unfold Clientes.same_id in Heq. apply Z.eqb_eq in Heq. now symmetry.
  - apply IH; [exact Hrest|].
    intros r Hin [Heq | Hseen].
    + apply Hnot. rewrite Heq. now apply in_map.
    + apply (Hfresh r (or_intror Hin) Hseen).
Qed.





End CustomerColumns.



(** C9, as stated, fails on text that is not ASCII, since [str.title] is not
    idempotent there. The city [İZMİR], written with the dotted capital I
    (U+0130), is cleaned to [İzmi̇r]: the lower case of the second dotted I
    is [i] followed by the combining dot above (U+0307). Cleaning the
    cleaned collection again gives [İzmi̇R]: the combining dot is not a cased
    character, so the [r] that follows it is put in title case. *)
Lemma C9_counterexample :
  exists cleaned again,
    clean_clientes (cal := calendario_iso) (uni := unicode_amostra)
      (ord := ordenacao_estavel) hoje [cliente_izmir] DataCleaner_init =
      (Ok cleaned, DataCleaner_init) /\
    clean_clientes (cal := calendario_iso) (uni := unicode_amostra)
      (ord := ordenacao_estavel) hoje cleaned DataCleaner_init =
      (Ok again, DataCleaner_init) /\
    map Clientes.cidade cleaned =
      [Some [304; 122; 109; 105; 775; 114]%N] /\
    map Clientes.cidade again =
      [Some [304; 122; 109; 105; 775; 82]%N] /\
    again <> cleaned.
Proof.
  do 2 eexists.
  split; [vm_compute; reflexivity|].
  split; [vm_compute; reflexivity|].
  split; [reflexivity|]. split; [reflexivity|].
  intro Heq. discriminate Heq.
Qed.

(** ** Which customer row survives *)





Section Survivor.
Context {cal : Calendar} {uni : Unicode} {ord : Sorting}.

Lemma duplicated_iff_not_NoDup (df : list Clientes.Row) :
  (0 <? bool_sum (duplicated Clientes.same_id df))%nat = true <->
  ~ NoDup (map Clientes.id_cliente df).
Proof.
  split.
  - intros Hdup Hnd. unfold duplicated in Hdup.
    rewrite (not_duplicated df [] Hnd) in Hdup; [discriminate|].
    intros r _ [].
  - intro Hnot.
    destruct (0 <? bool_sum (duplicated Clientes.same_id df))%nat eqn:Hz;
      [reflexivity|].
    exfalso. apply Hnot. apply Nat.ltb_ge in Hz.
    assert (Hsame : drop_duplicates Clientes.same_id df = df).
    { apply duplicated_none. unfold duplicated in Hz. lia. }
    rewrite <- Hsame.
    apply (drop_duplicates_from_key Clientes.id_cliente).
Qed.




End Survivor.


Section CustomerScenario.
Context {cal : Calendar} {uni : Unicode} {ord : Sorting}.




End CustomerScenario.



(* ================================================================== *)
(** * Further properties of the alert engine *)

From Stdlib Require Import Lqa.

Import Medidas Dashboard.

Lemma determine_severity_cases (p : Q) :
  (p < 1 /\ determine_severity p = None) \/
  (1 <= p /\ p < 3 /\ determine_severity p = Some LOW) \/
  (3 <= p /\ p < 5 /\ determine_severity p = Some MEDIUM) \/
  (5 <= p /\ p < 10 /\ determine_severity p = Some HIGH) \/
  (10 <= p /\ determine_severity p = Some CRITICAL).
Proof.
  unfold determine_severity.
  destruct (Qltb p 1) eqn:E1; [apply Qltb_lt in E1; auto|].
  apply Qltb_ge in E1.
  destruct (Qltb p 3) eqn:E3; [apply Qltb_lt in E3; auto|].
  apply Qltb_ge in E3.
  destruct (Qltb p 5) eqn:E5; [apply Qltb_lt in E5; auto 6|].
  apply Qltb_ge in E5.
  destruct (Qltb p 10) eqn:E10; [apply Qltb_lt in E10; auto 8|].
  apply Qltb_ge in E10. auto 8.
Qed.

(** X1. The classification is monotone: a larger percentage never gets a
    lower severity, in the order None, Low, Medium, High, Critical. *)
Theorem X1_severity_monotone (p1 p2 : Q) :
  p1 <= p2 ->
  (severity_rank (determine_severity p1) <=
   severity_rank (determine_severity p2))%nat.
Proof.
  intro Hle.
  destruct (determine_severity_cases p1)
    as [(H1 & ->) | [(H1 & H1' & ->) | [(H1 & H1' & ->) |
        [(H1 & H1' & ->) | (H1 & ->)]]]];
    destruct (determine_severity_cases p2)
      as [(H2 & ->) | [(H2 & H2' & ->) | [(H2 & H2' & ->) |
          [(H2 & H2' & ->) | (H2 & ->)]]]];
    cbn; try lia; exfalso; lra.
Qed.

Lemma X1_severity_monotone_witness :
  2 <= 7 /\
  (severity_rank (determine_severity 2) <=
   severity_rank (determine_severity 7))%nat.
Proof.
  assert (Hle : 2 <= 7) by discriminate.
  split; [exact Hle | exact (X1_severity_monotone 2 7 Hle)].
Defined.

(** X2. Classification and escalation compose monotonically: of two alerts
    created by [create_alert], the one with the larger percentage never
    gets a longer SLA when escalated. *)
Theorem X2_larger_percentage_shorter_sla
    (now : Z) (ds issue : string) (details : option Details)
    (affected1 total1 affected2 total2 : Z) (sys : AlertSystem)
    (a b : Alert) (sa sb : AlertSystem) :
  percentage_of affected1 total1 <= percentage_of affected2 total2 ->
  create_alert now ds issue affected1 total1 details sys = (Ok (Some a), sa) ->
  create_alert now ds issue affected2 total2 details sys = (Ok (Some b), sb) ->
  exists ea eb,
    fst (escalate_alert now a sa) = Ok ea /\
    fst (escalate_alert now b sb) = Ok eb /\
    (sla_hours eb <= sla_hours ea)%Z.
Proof.
  intros Hle Ha Hb. unfold create_alert in Ha, Hb.
  destruct (determine_severity_cases (percentage_of affected1 total1))
    as [(H1 & E1) | [(H1 & H1' & E1) | [(H1 & H1' & E1) |
        [(H1 & H1' & E1) | (H1 & E1)]]]];
    rewrite E1 in Ha; cbn in Ha; try discriminate;
    injection Ha as <- <-;
    (destruct (determine_severity_cases (percentage_of affected2 total2))
       as [(H2 & E2) | [(H2 & H2' & E2) | [(H2 & H2' & E2) |
           [(H2 & H2' & E2) | (H2 & E2)]]]];
     rewrite E2 in Hb; cbn in Hb; try discriminate;
     injection Hb as <- <-;
     rewrite !escalate_alert_run; do 2 eexists;
     (split; [reflexivity|]); (split; [reflexivity|]);
     cbn; first [lia | exfalso; lra]).
Qed.

Lemma X2_larger_percentage_shorter_sla_witness :
  exists ea eb,
    fst (escalate_alert 0
           (Alert_init 0 "vendas" "Valores inconsistentes" LOW 2 100 None)
           (snd (create_alert 0 "vendas" "Valores inconsistentes" 2 100 None
                   AlertSystem_init))) = Ok ea /\
    fst (escalate_alert 0
           (Alert_init 0 "vendas" "Valores inconsistentes" CRITICAL 15 100 None)
           (snd (create_alert 0 "vendas" "Valores inconsistentes" 15 100 None
                   AlertSystem_init))) = Ok eb /\
    (sla_hours eb <= sla_hours ea)%Z.
Proof.
  apply (X2_larger_percentage_shorter_sla 0 "vendas" "Valores inconsistentes"
           None 2 100 15 100 AlertSystem_init);
    [discriminate | reflexivity | reflexivity].
Defined.

Lemma percentage_at_least_one (affected total : Z) :
  1 <= percentage_of affected total ->
  (0 < total)%Z /\ (0 < affected)%Z.
Proof.
  unfold percentage_of.
  destruct (0 <? total)%Z eqn:Ht; [|intro Hp; exfalso; lra].
  apply Z.ltb_lt in Ht. intro Hp. split; [exact Ht|].
  destruct total as [|t|t]; try lia.
  destruct (Z_lt_le_dec 0 affected) as [Hpos | Hneg]; [exact Hpos|].
  exfalso. revert Hp. unfold Qle, Qdiv, Qmult, Qinv, inject_Z. cbn.
  nia.
Qed.

Lemma create_alert_well_classified now ds issue affected total details sys :
  Forall well_classified (alerts sys) ->
  Forall well_classified
    (alerts (snd (create_alert now ds issue affected total details sys))).
Proof.
  intro Hsys. unfold create_alert.
  destruct (determine_severity (percentage_of affected total)) as [sev|] eqn:Hsev;
    cbn; [|exact Hsys].
  apply Forall_app. split; [exact Hsys|].
  constructor; [|constructor].
  assert (Hone : 1 <= percentage_of affected total).
  { destruct (determine_severity_cases (percentage_of affected total))
      as [(_ & Hn) | [(H1 & _) | [(H1 & _) | [(H1 & _) | (H1 & _)]]]];
      try congruence; lra. }
  destruct (percentage_at_least_one affected total Hone) as [Ht Ha].
  unfold well_classified. cbn. auto.
Qed.

Lemma analyze_quality_results_well_classified now results sys :
  Forall well_classified (alerts sys) ->
  Forall well_classified (alerts (snd (analyze_quality_results now results sys))).
Proof.
  intro Hsys. unfold analyze_quality_results.
  apply (bind_preserves (fun s => Forall well_classified (alerts s))).
  - apply (for_each_preserves (fun s => Forall well_classified (alerts s)));
      [|exact Hsys].
    intros [checkpoint details] s _ Hs.
    apply (when_preserves (fun s => Forall well_classified (alerts s)));
      [exact Hs|]. intros _.
    apply (bind_preserves (fun s => Forall well_classified (alerts s)));
      [|intros; assumption].
    apply create_alert_well_classified, Hs.
  - intros _ s Hs.
    apply (when_preserves (fun s => Forall well_classified (alerts s)));
      [exact Hs|]. intros _.
    apply (bind_preserves (fun s => Forall well_classified (alerts s)));
      [|intros; assumption].
    apply create_alert_well_classified, Hs.
Qed.

(** X3. In every state the engine can reach, each stored alert is
    classified as its own figures say: its total and its affected count are
    positive, its percentage is affected / total * 100 and at least 1, and
    its severity is the one [determine_severity] gives for that
    percentage. *)
Theorem X3_stored_alerts_well_classified (sys : AlertSystem) :
  reachable sys -> Forall well_classified (alerts sys).
Proof.
  induction 1 as [|sys sys' Hreach IH Hstep].
  - constructor.
  - destruct Hstep.
    + apply create_alert_well_classified, IH.
    + rewrite escalate_alert_alerts. exact IH.
    + apply analyze_quality_results_well_classified, IH.
    + rewrite (process_alerts_run now results sys
                 (analyze_quality_results_ok now results sys)).
      cbn. apply analyze_quality_results_well_classified, IH.
Qed.

Lemma X3_stored_alerts_well_classified_witness :
  reachable (snd (analyze_quality_results 0 mock_results AlertSystem_init)) /\
  Forall well_classified
    (alerts (snd (analyze_quality_results 0 mock_results AlertSystem_init))).
Proof.
  assert (Hreach : reachable
                     (snd (analyze_quality_results 0 mock_results
                             AlertSystem_init))).
  { eapply reach_step; [apply reach_init | apply step_analyze]. }
  split; [exact Hreach | exact (X3_stored_alerts_well_classified _ Hreach)].
Defined.

(** X5. The exit code of [main] is never 0: whatever the earlier stages
    do, the run ends in the [except] branch, at the latest on the
    [TypeError] of [process_alerts], and returns 1. *)
Theorem X5_main_exit_code (now : Z) (stages_1_to_5 : Result Results) :
  main_exit_code now stages_1_to_5 = 1%Z.
Proof.
  unfold main_exit_code. destruct stages_1_to_5 as [results|e]; [|reflexivity].
  rewrite (process_alerts_run now results AlertSystem_init
             (analyze_quality_results_ok now results AlertSystem_init)).
  reflexivity.
Qed.

Lemma bind_ok {S A B} (c : M S A) (k : A -> M S B) (s s' : S) (a : A) :
  c s = (Ok a, s') -> bind c k s = k a s'.
Proof. intro Hc. unfold bind. now rewrite Hc. Qed.

Lemma checkpoint_loop (now : Z) (items : list (string * Checkpoint))
    (sys : AlertSystem) :
  for_each items
    (fun item =>
       let '(checkpoint, details) := item in
       let dataset := replace "_lab" "" (replace "checkpoint_" "" checkpoint) in
       when (negb (get_default (success details) false))
         (bind (create_alert now dataset "Checkpoint falhou completamente" 1 1
                  (Some (ErrorDetails (get_default (error details) "Unknown"))))
               (fun _ => ret tt))) sys =
  (Ok tt,
   {| alerts := (alerts sys ++
                 map (checkpoint_alert now) (filter failed_checkpoint items))%list;
      escalations_json := escalations_json sys |}).
Proof.
  revert sys. induction items as [|[checkpoint details] items IH]; intro sys;
    cbn [for_each filter map].
  - rewrite app_nil_r. destruct sys; reflexivity.
  - unfold failed_checkpoint at 1. cbn [snd].
    match goal with
    | |- bind (?body ?item) ?k sys = _ =>
        assert (Hstep :
                  body item sys =
                    (Ok tt,
                     if negb (get_default (success details) false)
                     then {| alerts :=
                               (alerts sys ++
                                [checkpoint_alert now (checkpoint, details)])%list;
                             escalations_json := escalations_json sys |}
                     else sys))
    end.
    { cbn beta iota.
      destruct (negb (get_default (success details) false)); reflexivity. }
    rewrite (bind_ok _ _ _ _ _ Hstep), IH.
    destruct (negb (get_default (success details) false)); cbn;
      [rewrite <- app_assoc|]; reflexivity.
Qed.

Lemma analyze_quality_results_run (now : Z) (results : Results)
    (sys : AlertSystem) :
  analyze_quality_results now results sys =
    (Ok tt,
     {| alerts :=
          (alerts sys ++
           map (checkpoint_alert now)
             (filter failed_checkpoint (get_default (checkpoints results) [])) ++
           aggregate_alert now results)%list;
        escalations_json := escalations_json sys |}).
Proof.
  unfold analyze_quality_results.
  erewrite bind_ok by apply checkpoint_loop.
  unfold aggregate_alert. cbv zeta.
  destruct (Qltb 0
              (100 - get_default
                       (success_rate (get_default (summary results) empty_summary))
                       100)); cbn [when].
  - unfold bind, create_alert.
    destruct (determine_severity _); cbn.
    + rewrite <- app_assoc. reflexivity.
    + rewrite !app_nil_r. reflexivity.
  - cbn. rewrite !app_nil_r. reflexivity.
Qed.

(** X4. [process_alerts] never returns the alert list: for every results
    structure and every engine state the call ends with the [TypeError]
    raised in [save_alerts], after the alerts have been created and the
    Critical and High ones escalated. The alerts of the analysis stay in
    the engine, none is lost, and the escalation file has gained one
    entry, in order, for every Critical or High alert of the engine, those
    stored before the call included, and none for a Medium or Low one. *)
Theorem X4_process_alerts_raises (now : Z) (results : Results)
    (sys : AlertSystem) :
  let after := snd (process_alerts now results sys) in
  fst (process_alerts now results sys) =
    Raise (TypeError "dumps() takes 1 positional argument but 2 positional arguments (and 2 keyword-only arguments) were given") /\
  alerts after = alerts (snd (analyze_quality_results now results sys)) /\
  (List.length (alerts sys) <= List.length (alerts after))%nat /\
  escalations_json after =
    (escalations_json sys ++
     map (escalation_of now) (filter critical_or_high (alerts after)))%list /\
  Forall (fun e => exists a,
            In a (alerts after) /\ e = escalation_of now a /\
            (severity a = CRITICAL \/ severity a = HIGH))
         (map (escalation_of now) (filter critical_or_high (alerts after))) /\
  (forall a, In a (alerts after) ->
             severity a = CRITICAL \/ severity a = HIGH ->
             In (escalation_of now a) (escalations_json after)).
Proof.
  cbv zeta.
  rewrite (process_alerts_run now results sys
             (analyze_quality_results_ok now results sys)).
  rewrite analyze_quality_results_run.
  cbn [fst snd alerts escalations_json].
  split; [reflexivity|]. split; [reflexivity|].
  split; [rewrite length_app; lia|]. split; [reflexivity|].
  pose proof critical_or_high_iff as Hsev.
  split.
  - apply Forall_forall. intros e He.
    apply in_map_iff in He. destruct He as (a & <- & Ha).
    apply filter_In in Ha. destruct Ha as [Ha Hc].
    exists a. split; [exact Ha|]. split; [reflexivity | now apply Hsev].
  - intros a Ha Hs. apply in_or_app. right.
    apply in_map, filter_In. split; [exact Ha | now apply Hsev].
Qed.

(** X6. [analyze_quality_results] returns normally and appends, in order,
    one Critical alert (affected 1 of 1) for every checkpoint entry whose
    [success] is false or absent, named after the checkpoint without
    [checkpoint_] and [_lab], and then at most one aggregate alert for the
    dataset [GERAL]. The aggregate is considered only when [success_rate]
    is present and below 100, and it is classified from [failed] over
    [total], not from the rate: with no [failed] count, or fewer than one
    failure in a hundred, there is none. The escalations are not touched. *)
Theorem X6_analyze_quality_results_alerts (now : Z) (results : Results)
    (sys : AlertSystem) :
  analyze_quality_results now results sys =
    (Ok tt,
     {| alerts :=
          (alerts sys ++
           map (checkpoint_alert now)
             (filter failed_checkpoint (get_default (checkpoints results) [])) ++
           aggregate_alert now results)%list;
        escalations_json := escalations_json sys |}) /\
  (List.length (aggregate_alert now results) <= 1)%nat /\
  Forall (fun a => Alertas.dataset a = "GERAL" /\
                   affected_records a =
                     get_default (failed (get_default (summary results)
                                            empty_summary)) 0%Z)
         (aggregate_alert now results) /\
  (get_default (success_rate (get_default (summary results) empty_summary)) 100
     == 100 -> aggregate_alert now results = []) /\
  (failed (get_default (summary results) empty_summary) = None ->
   aggregate_alert now results = []).
Proof.
  split; [apply analyze_quality_results_run|].
  unfold aggregate_alert. cbv zeta.
  set (s := get_default (summary results) empty_summary).
  destruct (Qltb 0 (100 - get_default (success_rate s) 100)) eqn:Hrate.
  - destruct (determine_severity
                (percentage_of (get_default (failed s) 0%Z)
                   (get_default (total s) 1%Z))) as [sev|] eqn:Hsev.
    + split; [cbn; lia|]. split; [repeat constructor|].
      split.
      * intro Hfull. apply Qltb_lt in Hrate. exfalso. lra.
      * intro Hnone. rewrite Hnone in Hsev. cbn [get_default] in Hsev.
        exfalso.
        destruct (determine_severity_cases
                    (percentage_of 0 (get_default (total s) 1%Z)))
          as [(_ & Hn) | [(H1 & _) | [(H1 & _) | [(H1 & _) | (H1 & _)]]]];
          try congruence;
          (assert (H1' : 1 <= percentage_of 0 (get_default (total s) 1%Z))
             by lra;
           apply percentage_at_least_one in H1'; lia).
    + split; [cbn; lia|]. split; [constructor|]. split; reflexivity.
  - split; [cbn; lia|]. split; [constructor|]. split; reflexivity.
Qed.

(** The number of checkpoints of a dashboard run that did not succeed. *)
Lemma run_all_checkpoints_failed (gx : string -> CheckpointRun) :
  let results := run_all_checkpoints gx in
  let items := get_default (checkpoints results) [] in
  let failures := Z.of_nat (List.length (filter failed_checkpoint items)) in
  let s := get_default (summary results) empty_summary in
  total s = Some 4%Z /\
  failed s = Some failures /\
  successful s = Some (4 - failures)%Z /\
  (0 <= failures <= 4)%Z /\
  success_rate s = Some (inject_Z (4 - failures) / inject_Z 4 * 100).
Proof.
  unfold run_all_checkpoints, count_successful, checkpoint_names,
    run_checkpoint, failed_checkpoint.
  cbn [map List.length get_default checkpoints summary total failed
       successful success_rate snd fst].
  destruct (gx "checkpoint_clientes_lab") as [[]|m1],
           (gx "checkpoint_produtos") as [[]|m2],
           (gx "checkpoint_vendas") as [[]|m3],
           (gx "checkpoint_logistica") as [[]|m4];
    cbn; repeat split; try reflexivity; try lia.
Qed.

(** X7. In the flow of main.py, where the results come from
    [run_all_checkpoints], only Critical alerts arise: the analysis stores
    one alert for each of the four checkpoints that did not succeed (an
    exception counts as a failure), and, when at least one did not, one
    aggregate alert that is Critical as well, a single failure being 25
    percent; when all four succeed no alert is stored. *)
Theorem X7_dashboard_results_only_critical (now : Z)
    (gx : string -> CheckpointRun) :
  let results := run_all_checkpoints gx in
  let failures :=
    List.length (filter failed_checkpoint (get_default (checkpoints results) [])) in
  let stored := alerts (snd (analyze_quality_results now results AlertSystem_init)) in
  Forall (fun a => severity a = CRITICAL) stored /\
  List.length stored = (if (failures =? 0)%nat then 0 else failures + 1)%nat /\
  (failures = 0%nat <->
   forall name, In name checkpoint_names -> gx name = Ran true).
Proof.
  cbv zeta. rewrite analyze_quality_results_run.
  unfold run_all_checkpoints, count_successful, checkpoint_names,
    run_checkpoint, failed_checkpoint, aggregate_alert.
  cbn [map List.length get_default checkpoints summary total failed
       successful success_rate snd fst alerts AlertSystem_init app].
  destruct (gx "checkpoint_clientes_lab") as [[]|m1] eqn:G1,
           (gx "checkpoint_produtos") as [[]|m2] eqn:G2,
           (gx "checkpoint_vendas") as [[]|m3] eqn:G3,
           (gx "checkpoint_logistica") as [[]|m4] eqn:G4;
    cbn;
    (split; [repeat constructor|]);
    (split; [reflexivity|]);
    (split;
     [ intro Hz; try discriminate;
       intros name [<- | [<- | [<- | [<- | []]]]]; assumption
     | intro Hall; try reflexivity; exfalso;
       pose proof (Hall "checkpoint_clientes_lab" (or_introl eq_refl)) as A1;
       pose proof (Hall "checkpoint_produtos"
                     (or_intror (or_introl eq_refl))) as A2;
       pose proof (Hall "checkpoint_vendas"
                     (or_intror (or_intror (or_introl eq_refl)))) as A3;
       pose proof (Hall "checkpoint_logistica"
                     (or_intror (or_intror (or_intror (or_introl eq_refl))))) as A4;
       congruence ]).
Qed.

(** X8. With the four checkpoints of the dashboard the quality score is a
    multiple of 25 and the level is [EXCELENTE] when all four succeed and
    [CRÍTICO] otherwise: the levels [BOM] and [ACEITÁVEL] are never given
    to a dashboard run. *)
Theorem X8_quality_level_of_dashboard_run (gx : string -> CheckpointRun) :
  let failures :=
    Z.of_nat (List.length
                (filter failed_checkpoint
                   (get_default (checkpoints (run_all_checkpoints gx)) []))) in
  exists score,
    calculate_quality_score (run_all_checkpoints gx) =
      Some (score, if (failures =? 0)%Z then "EXCELENTE" else "CRÍTICO") /\
    score == inject_Z (100 - 25 * failures).
Proof.
  cbv zeta.
  unfold calculate_quality_score, run_all_checkpoints, count_successful,
    checkpoint_names, run_checkpoint, failed_checkpoint.
  cbn [map List.length get_default checkpoints summary total failed
       successful success_rate snd fst].
  destruct (gx "checkpoint_clientes_lab") as [[]|m1],
           (gx "checkpoint_produtos") as [[]|m2],
           (gx "checkpoint_vendas") as [[]|m3],
           (gx "checkpoint_logistica") as [[]|m4];
    cbn; eexists; split; reflexivity.
Qed.

(* ================================================================== *)
(** * Further properties of the cleaning pipeline *)

Lemma filter_none {A} (p : A -> bool) (df : list A) :
  (forall r, p r = false) -> filter p df = [].
Proof.
  intro Hp. induction df as [|r df IH]; cbn; [reflexivity|].
  now rewrite Hp.
Qed.

Lemma filter_length_le {A} (p : A -> bool) (df : list A) :
  (List.length (filter p df) <= List.length df)%nat.
Proof.
  induction df as [|r df IH]; cbn; [lia|].
  destruct (p r); cbn; lia.
Qed.


Section KeptRows.
Context {cal : Calendar} {uni : Unicode} {ord : Sorting}.

(** X9. [clean_vendas] keeps exactly the sales whose customer identifier
    is among the customers given and whose product identifier is among the
    products given, in their order and with their identifiers: no such sale
    is lost, no row is added, and with an empty customer or product
    collection every sale is dropped. *)
Theorem X9_clean_vendas_keeps_valid_sales (now : Z) (df : list Vendas.Row)
    (df_clientes : list Clientes.Row) (df_produtos : list Produtos.Row)
    (self : DataCleaner) :
  exists cleaned,
    clean_vendas now df df_clientes df_produtos self = (Ok cleaned, self) /\
    map Vendas.id_venda cleaned =
      map Vendas.id_venda
        (filter (fun r =>
                   isin (Vendas.id_cliente r)
                        (map Clientes.id_cliente df_clientes) &&
                   isin (Vendas.id_produto r)
                        (map Produtos.id_produto df_produtos)) df) /\
    (forall r, In r df ->
       In (Vendas.id_cliente r) (map Clientes.id_cliente df_clientes) ->
       In (Vendas.id_produto r) (map Produtos.id_produto df_produtos) ->
       exists v, In v cleaned /\
                 Vendas.id_venda v = Vendas.id_venda r /\
                 Vendas.id_cliente v = Vendas.id_cliente r /\
                 Vendas.id_produto v = Vendas.id_produto r) /\
    (List.length cleaned <= List.length df)%nat /\
    (df_clientes = [] \/ df_produtos = [] -> cleaned = []).
Proof.
  eexists. split; [apply clean_vendas_rows|].
  rewrite filter_twice.
  assert (Hsame : forall r,
            cliente_valido df_clientes r && produto_valido df_produtos r =
            isin (Vendas.id_cliente r) (map Clientes.id_cliente df_clientes) &&
            isin (Vendas.id_produto r) (map Produtos.id_produto df_produtos)).
  { intro r. unfold cliente_valido, produto_valido.
    now rewrite !negb_involutive, !isin_unique. }
  rewrite (filter_ext _ _ Hsame).
  split; [apply vendas_limpas_id|]. unfold vendas_limpas.
  split; [|split].
  - intros r Hin Hc Hp. eexists. split.
    + apply in_map, filter_In. split; [exact Hin|].
      apply andb_true_iff. split; now apply isin_In.
    + apply limpa_venda_ids.
  - rewrite length_map. apply filter_length_le.
  - intros [-> | ->]; rewrite filter_none; try reflexivity;
      intro r; cbn [map isin existsb andb];
      first [reflexivity | apply andb_false_r].
Qed.

(** X10. [clean_logistica] keeps exactly the shipments whose sale
    identifier is among the sales given, in their order and with their
    identifiers; no row is added, and with no sale every shipment is
    dropped. *)
Theorem X10_clean_logistica_keeps_valid_shipments (df : list Logistica.Row)
    (df_vendas : list Vendas.Row) (self : DataCleaner) :
  exists cleaned,
    clean_logistica df df_vendas self = (Ok cleaned, self) /\
    map Logistica.id_entrega cleaned =
      map Logistica.id_entrega
        (filter (fun r => isin (Logistica.id_venda r)
                               (map Vendas.id_venda df_vendas)) df) /\
    (forall r, In r df ->
       In (Logistica.id_venda r) (map Vendas.id_venda df_vendas) ->
       exists e, In e cleaned /\
                 Logistica.id_entrega e = Logistica.id_entrega r /\
                 Logistica.id_venda e = Logistica.id_venda r) /\
    (List.length cleaned <= List.length df)%nat /\
    (df_vendas = [] -> cleaned = []).
Proof.
  eexists. split; [apply clean_logistica_rows|].
  assert (Hsame : forall r,
            venda_valida df_vendas r =
            isin (Logistica.id_venda r) (map Vendas.id_venda df_vendas)).
  { intro r. unfold venda_valida. now rewrite negb_involutive, isin_unique. }
  rewrite (filter_ext _ _ Hsame).
  split; [apply entregas_limpas_id|]. unfold entregas_limpas.
  split; [|split].
  - intros r Hin Hv. eexists. split.
    + apply in_map, filter_In. split; [exact Hin | now apply isin_In].
    + apply limpa_entrega_ids.
  - rewrite length_map. apply filter_length_le.
  - intros ->. rewrite filter_none; [reflexivity|].
    intro r. reflexivity.
Qed.

End KeptRows.


Lemma to_datetime_not_text {cal : Calendar} (col : list DateCell)
    (d : DateCell) (s : string) :
  to_datetime col d <> DStr s.
Proof.
  destruct d as [x|t|]; cbn; try discriminate.
  destruct (parse_datetime col x); discriminate.
Qed.


Section SaleRows.
Context {cal : Calendar} {uni : Unicode} {ord : Sorting}.


(** The least [int64] value apart, [abs] gives a quantity that is not
    negative. *)
Lemma int64_abs_nonneg (q : Z) : q <> (- 2 ^ 63)%Z -> (0 <= int64_abs q)%Z.
Proof.
  intro Hq. unfold int64_abs.
  destruct (Z.eqb_spec q (- 2 ^ 63)); [contradiction | lia].
Qed.

Lemma int64_abs_least : int64_abs (- 2 ^ 63) = (- 2 ^ 63)%Z.
Proof. reflexivity. Qed.



End SaleRows.

Lemma blank_strip_title {uni : Unicode} (s : str) :
  blank (Some (strip (title s))) = blank (Some s).
Proof.
  unfold blank. rewrite strip_idem. apply strip_title_empty.
Qed.

(** Text that starts with an ASCII character other than white space is not
    blank. *)
Lemma blank_cons {uni : Unicode} (c : N) (s : str) :
  (c < 128)%N -> is_space c = false -> blank (Some (c :: s)) = false.
Proof.
  intros Hc Hs. unfold blank.
  destruct (is_empty (strip (c :: s))) eqn:He; [|reflexivity].
  apply is_empty_true, strip_nil in He.
  cbn [forallb] in He. apply andb_true_iff in He. destruct He as [Hw _].
  destruct (ascii_table c Hc) as (_ & _ & _ & _ & Hspace & _).
  rewrite Hspace, Hs in Hw. discriminate.
Qed.


Section ProductRows.
Context {cal : Calendar} {uni : Unicode} {ord : Sorting}.

Lemma limpa_produto_columns (col : list DateCell) (r : Produtos.Row) :
  limpa_produto col r =
    {| Produtos.id_produto := Produtos.id_produto r;
       Produtos.nome_produto := option_map strip (Produtos.nome_produto r);
       Produtos.categoria :=
         option_map (fun s => strip (title s))
           (if blank (Produtos.categoria r)
            then Some (lit "Sem Categoria") else Produtos.categoria r);
       Produtos.preco :=
         (if flt (Produtos.preco r) 0
          then fabs (Produtos.preco r) else Produtos.preco r);
       Produtos.estoque :=
         (if (Produtos.estoque r <? 0)%Z then 0%Z else Produtos.estoque r);
       Produtos.data_criacao := to_datetime col (Produtos.data_criacao r);
       Produtos.ativo := map_true_false (lower (py_str (Produtos.ativo r))) |}.
Proof.
  destruct r as [id n c p e d a].
  unfold limpa_produto, produto_data_criacao, produto_ativo,
    produto_ativo_texto, produto_nome, produto_categoria,
    produto_categoria_vazia, produto_estoque, produto_preco.
  cbn -[blank flt fabs to_datetime map_true_false strip lower title py_str
        lit Z.ltb].
  destruct (flt p 0);
    cbn -[blank flt fabs to_datetime map_true_false strip lower title py_str
          lit Z.ltb];
    destruct (e <? 0)%Z;
    cbn -[blank flt fabs to_datetime map_true_false strip lower title py_str
          lit Z.ltb];
    destruct (blank c); reflexivity.
Qed.

Lemma preco_limpo_nonneg (p : option Q) (x : Q) :
  (if flt p 0 then fabs p else p) = Some x -> 0 <= x.
Proof.
  destruct p as [y|]; cbn [flt fabs option_map]; [|destruct (flt None 0); discriminate].
  destruct (Qltb y 0) eqn:Hneg; intro Hx; injection Hx as <-.
  - apply Qabs_nonneg.
  - now apply Qltb_ge.
Qed.

Lemma sem_categoria_not_blank : blank (Some (lit "Sem Categoria")) = false.
Proof.
  change (lit "Sem Categoria") with (83%N :: tl (lit "Sem Categoria")).
  apply blank_cons; reflexivity.
Qed.

Lemma categoria_limpa_not_blank (c : option str) :
  blank (option_map (fun s => strip (title s))
           (if blank c then Some (lit "Sem Categoria") else c)) = false.
Proof.
  destruct (blank c) eqn:Hb.
  - cbn [option_map]. rewrite blank_strip_title.
    apply sem_categoria_not_blank.
  - destruct c as [s|]; [|discriminate].
    cbn [option_map]. now rewrite blank_strip_title.
Qed.

Lemma map_true_false_values (s : str) :
  map_true_false s = OBool true \/ map_true_false s = OBool false \/
  map_true_false s = ONaN.
Proof.
  unfold map_true_false.
  destruct (str_eqb s (lit "true")); [auto|].
  destruct (str_eqb s (lit "false")); auto.
Qed.

(** X13. What every cleaned product satisfies: the price is missing or not
    negative, the stock is not negative, the category is present and not
    blank, the active flag is [True], [False] or missing, the creation date
    is a timestamp or missing (never text), and name and category are
    stripped. *)
Theorem X13_cleaned_products_are_normal (df : list Produtos.Row)
    (self : DataCleaner) :
  exists cleaned,
    clean_produtos df self = (Ok cleaned, self) /\
    Forall
      (fun p =>
         (forall x, Produtos.preco p = Some x -> 0 <= x) /\
         (0 <= Produtos.estoque p)%Z /\
         blank (Produtos.categoria p) = false /\
         (Produtos.ativo p = OBool true \/ Produtos.ativo p = OBool false \/
          Produtos.ativo p = ONaN) /\
         (forall s, Produtos.data_criacao p <> DStr s) /\
         option_map strip (Produtos.nome_produto p) = Produtos.nome_produto p /\
         option_map strip (Produtos.categoria p) = Produtos.categoria p)
      cleaned.
Proof.
  eexists. split; [apply clean_produtos_rows|].
  apply Forall_forall. intros p Hin. unfold produtos_limpos in Hin.
  apply in_map_iff in Hin. destruct Hin as (r & <- & _).
  rewrite limpa_produto_columns.
  cbn [Produtos.preco Produtos.estoque Produtos.categoria Produtos.ativo
       Produtos.data_criacao Produtos.nome_produto].
  split; [apply preco_limpo_nonneg|].
  split; [destruct (Produtos.estoque r <? 0)%Z eqn:He;
          [lia | apply Z.ltb_ge in He; exact He]|].
  split; [apply categoria_limpa_not_blank|].
  split; [apply map_true_false_values|].
  split; [apply to_datetime_not_text|].
  split.
  - destruct (Produtos.nome_produto r); cbn [option_map]; [|reflexivity].
    now rewrite strip_idem.
  - destruct (if blank (Produtos.categoria r)
              then Some (lit "Sem Categoria") else Produtos.categoria r);
      cbn [option_map]; [|reflexivity].
    now rewrite strip_idem.
Qed.




End ProductRows.



Section CustomerRows.
Context {cal : Calendar} {uni : Unicode} {ord : Sorting}.


End CustomerRows.




Section SecondPass.
Context {cal : Calendar} {uni : Unicode} {ord : Sorting}.










End SecondPass.





(* ================================================================== *)
(** * The address pattern *)

Lemma app_cons_inv {A} (a b : list A) (c : A) (s : list A) :
  (a ++ b)%list = c :: s ->
  (a = [] /\ b = c :: s) \/ (exists a', a = c :: a' /\ s = (a' ++ b)%list).
Proof.
  destruct a as [|x a]; cbn; intro Hab; [now left|].
  injection Hab as -> <-. right. now exists a.
Qed.

Lemma lang_seq_inv (r1 r2 : regex) (s : str) :
  lang (Seq r1 r2) s ->
  exists s1 s2, s = (s1 ++ s2)%list /\ lang r1 s1 /\ lang r2 s2.
Proof. intro Hl. inversion Hl; subst. eauto. Qed.

Lemma lang_chr_inv (p : N -> bool) (s : str) :
  lang (Chr p) s -> exists c, s = [c] /\ p c = true.
Proof. intro Hl. inversion Hl; subst. eauto. Qed.

Lemma lang_alt_inv (r1 r2 : regex) (s : str) :
  lang (Alt r1 r2) s -> lang r1 s \/ lang r2 s.
Proof. intro Hl. inversion Hl; subst; auto. Qed.

Lemma lang_eps_inv (s : str) : lang Eps s -> s = [].
Proof. intro Hl. now inversion Hl. Qed.

Lemma nullable_lang (r : regex) : nullable r = true -> lang r [].
Proof.
  induction r; cbn; intro Hn; try discriminate.
  - constructor.
  - apply andb_true_iff in Hn. destruct Hn as [H1 H2].
    change (@nil N) with (@nil N ++ [])%list. constructor; auto.
  - apply orb_true_iff in Hn. destruct Hn as [Hn | Hn];
      [apply lang_alt_l | apply lang_alt_r]; auto.
  - constructor.
Qed.

Lemma lang_nullable (r : regex) (s : str) :
  lang r s -> s = [] -> nullable r = true.
Proof.
  induction 1; intro Hs; cbn; try reflexivity; try discriminate.
  - apply app_eq_nil in Hs. destruct Hs as [-> ->].
    now rewrite IHlang1, IHlang2.
  - now rewrite IHlang.
  - rewrite IHlang by assumption. apply orb_true_r.
Qed.

Lemma deriv_lang (c : N) (r : regex) (s : str) :
  lang (deriv c r) s -> lang r (c :: s).
Proof.
  revert s. induction r; cbn; intros s Hd.
  - inversion Hd.
  - inversion Hd.
  - destruct (p c) eqn:Hp; inversion Hd; subst. now constructor.
  - assert (Hleft : lang (Seq (deriv c r1) r2) s -> lang (Seq r1 r2) (c :: s)).
    { intro Hs. inversion Hs; subst.
      change (c :: (s1 ++ s2)%list) with ((c :: s1) ++ s2)%list.
      constructor; auto. }
    destruct (nullable r1) eqn:Hn; [|now apply Hleft].
    inversion Hd; subst; [now apply Hleft|].
    change (c :: s) with ([] ++ c :: s)%list.
    constructor; [now apply nullable_lang | auto].
  - inversion Hd; subst; [apply lang_alt_l | apply lang_alt_r]; auto.
  - inversion Hd; subst.
    change (c :: (s1 ++ s2)%list) with ((c :: s1) ++ s2)%list.
    constructor; auto.
Qed.

Lemma lang_deriv (r : regex) (w : str) :
  lang r w -> forall c s, w = c :: s -> lang (deriv c r) s.
Proof.
  induction 1 as [|p c Hp|r1 r2 s1 s2 H1 IH1 H2 IH2|r1 r2 s H1 IH1
                  |r1 r2 s H2 IH2|r|r s1 s2 H1 IH1 H2 IH2];
    intros c0 s0 Hw; cbn.
  - discriminate.
  - injection Hw as -> <-. rewrite Hp. constructor.
  - apply app_cons_inv in Hw. destruct Hw as [[-> ->] | (a' & -> & ->)].
    + rewrite (lang_nullable _ _ H1 eq_refl).
      apply lang_alt_r. now apply IH2.
    + assert (Hseq : lang (Seq (deriv c0 r1) r2) (a' ++ s2)%list)
        by (constructor; [now apply IH1 | assumption]).
      destruct (nullable r1); [now apply lang_alt_l | exact Hseq].
  - apply lang_alt_l. now apply IH1.
  - apply lang_alt_r. now apply IH2.
  - discriminate.
  - apply app_cons_inv in Hw. destruct Hw as [[-> ->] | (a' & -> & ->)].
    + now apply IH2.
    + constructor; [now apply IH1 | assumption].
Qed.

(** The matcher decides the language of the pattern. *)
Lemma fullmatch_lang (r : regex) (s : str) :
  fullmatch r s = true <-> lang r s.
Proof.
  revert r. induction s as [|c s IH]; intro r; cbn.
  - split; [apply nullable_lang | intro Hl; now apply (lang_nullable r [])].
  - rewrite IH. split; [apply deriv_lang | intro Hl; now apply (lang_deriv r _ Hl)].
Qed.

Lemma lang_star_chr (p : N -> bool) (r : regex) (s : str) :
  lang r s -> r = Star (Chr p) -> all_chars p s = true.
Proof.
  induction 1 as [| | | | | |r0 s1 s2 H1 _ H2 IH2]; intro Hr;
    try discriminate; [reflexivity|].
  injection Hr as ->.
  apply lang_chr_inv in H1. destruct H1 as (c & -> & Hc).
  cbn. rewrite Hc. cbn. now apply IH2.
Qed.

Lemma all_chars_star (p : N -> bool) (s : str) :
  all_chars p s = true -> lang (Star (Chr p)) s.
Proof.
  induction s as [|c s IH]; cbn; intro Hall; [constructor|].
  apply andb_true_iff in Hall. destruct Hall as [Hc Hs].
  change (c :: s) with ([c] ++ s)%list.
  constructor; [now constructor | now apply IH].
Qed.

Lemma lang_plus_chr (p : N -> bool) (s : str) :
  lang (Plus (Chr p)) s <-> s <> [] /\ all_chars p s = true.
Proof.
  unfold Plus. split.
  - intro Hl. apply lang_seq_inv in Hl. destruct Hl as (s1 & s2 & -> & H1 & H2).
    apply lang_chr_inv in H1. destruct H1 as (c & -> & Hc).
    cbn. rewrite Hc. cbn.
    split; [discriminate | now apply (lang_star_chr p _ _ H2)].
  - intros [Hne Hall]. destruct s as [|c s]; [now contradiction Hne|].
    cbn in Hall. apply andb_true_iff in Hall. destruct Hall as [Hc Hs].
    change (c :: s) with ([c] ++ s)%list.
    constructor; [now constructor | now apply all_chars_star].
Qed.

Lemma lang_char (a : ascii) (s : str) :
  lang (Chr (is_char a)) s <-> s = [N_of_ascii a].
Proof.
  split.
  - intro Hl. apply lang_chr_inv in Hl. destruct Hl as (c & -> & Hc).
    unfold is_char in Hc. apply N.eqb_eq in Hc. now subst.
  - intros ->. constructor. unfold is_char. apply N.eqb_refl.
Qed.

Lemma lang_letters (s : str) :
  lang (Seq (Chr is_alpha) (Seq (Chr is_alpha) (Star (Chr is_alpha)))) s <->
  (2 <= List.length s)%nat /\ all_chars is_alpha s = true.
Proof.
  split.
  - intro Hl. apply lang_seq_inv in Hl. destruct Hl as (s1 & s2 & -> & H1 & H2).
    apply lang_seq_inv in H2. destruct H2 as (s3 & s4 & -> & H3 & H4).
    apply lang_chr_inv in H1, H3.
    destruct H1 as (a & -> & Ha), H3 as (b & -> & Hb).
    pose proof (lang_star_chr is_alpha _ _ H4 eq_refl) as Hrest.
    cbn [app List.length all_chars]. rewrite Ha, Hb, Hrest.
    split; [lia | reflexivity].
  - intros [Hlen Hall].
    destruct s as [|a [|b s]]; cbn in Hlen; try lia.
    cbn [all_chars] in Hall.
    apply andb_true_iff in Hall. destruct Hall as [Ha Hall].
    apply andb_true_iff in Hall. destruct Hall as [Hb Hs].
    change (a :: b :: s) with ([a] ++ ([b] ++ s))%list.
    constructor; [now constructor|].
    constructor; [now constructor | now apply all_chars_star].
Qed.

(** The texts that the pattern of [clean_clientes] accepts: the addresses,
    and the addresses followed by one newline. *)
Lemma match_email_address (s : str) :
  match_email s = true <->
  address s \/ exists s', s = (s' ++ [10%N])%list /\ address s'.
Proof.
  unfold match_email. rewrite fullmatch_lang. unfold email_pattern, address.
  change (lit "@") with [64%N]. change (lit ".") with [46%N].
  split.
  - intro Hl.
    apply lang_seq_inv in Hl. destruct Hl as (local & rest1 & -> & Hlocal & Hl).
    apply lang_seq_inv in Hl. destruct Hl as (at_ & rest2 & -> & Hat & Hl).
    apply lang_seq_inv in Hl. destruct Hl as (domain & rest3 & -> & Hdomain & Hl).
    apply lang_seq_inv in Hl. destruct Hl as (dot & rest4 & -> & Hdot & Hl).
    apply lang_seq_inv in Hl. destruct Hl as (tld & nl & -> & Htld & Hnl).
    apply lang_plus_chr in Hlocal, Hdomain.
    apply lang_char in Hat, Hdot. subst at_ dot.
    apply lang_letters in Htld.
    destruct Hlocal as [Hl1 Hl2], Hdomain as [Hd1 Hd2], Htld as [Ht1 Ht2].
    apply lang_alt_inv in Hnl. destruct Hnl as [Hx | Hx].
    + apply lang_char in Hx. subst nl. right.
      exists (local ++ [64%N] ++ domain ++ [46%N] ++ tld)%list. split.
      * change (N_of_ascii "@") with 64%N. change (N_of_ascii ".") with 46%N.
        change (N_of_ascii "010") with 10%N.
        now rewrite <- !app_assoc.
      * exists local, domain, tld. repeat split; assumption.
    + apply lang_eps_inv in Hx. subst nl. left.
      exists local, domain, tld. rewrite app_nil_r.
      repeat split; assumption.
  - assert (Hbuild : forall local domain tld nl,
              local <> [] -> all_chars local_char local = true ->
              domain <> [] -> all_chars domain_char domain = true ->
              (2 <= List.length tld)%nat -> all_chars is_alpha tld = true ->
              lang (Opt (Chr (is_char "010"))) nl ->
              lang
                (Seq (Plus (Chr local_char))
                   (Seq (Chr (is_char "@"))
                      (Seq (Plus (Chr domain_char))
                         (Seq (Chr (is_char "."))
                            (Seq (Seq (Chr is_alpha)
                                    (Seq (Chr is_alpha) (Star (Chr is_alpha))))
                               (Opt (Chr (is_char "010"))))))))
                (local ++ [64%N] ++ domain ++ [46%N] ++ tld ++ nl)%list).
    { intros local domain tld nl Hl1 Hl2 Hd1 Hd2 Ht1 Ht2 Hnl.
      constructor; [now apply lang_plus_chr|].
      constructor; [now apply lang_char|].
      constructor; [now apply lang_plus_chr|].
      constructor; [now apply lang_char|].
      constructor; [now apply lang_letters | exact Hnl]. }
    intros [(local & domain & tld & -> & Hl1 & Hl2 & Hd1 & Hd2 & Ht1 & Ht2)
           | (s' & -> & local & domain & tld & -> & Hl1 & Hl2 & Hd1 & Hd2 & Ht1 & Ht2)].
    + rewrite <- (app_nil_r tld).
      apply Hbuild; try assumption. apply lang_alt_r. constructor.
    + rewrite <- !app_assoc.
      apply Hbuild; try assumption.
      apply lang_alt_l. now apply lang_char.
Qed.

(** A stripped text does not end with a newline. *)
Lemma strip_no_trailing_newline {uni : Unicode} (s u : str) :
  strip s <> (u ++ [10%N])%list.
Proof.
  apply strip_chars_no_trailing.
  assert (H10 : (10 < 128)%N) by reflexivity.
  destruct (ascii_table 10%N H10) as (_ & _ & _ & _ & Hw & _).
  now rewrite Hw.
Qed.

Section Addresses.
Context {cal : Calendar} {uni : Unicode} {ord : Sorting}.

(** X18. The e-mail of a cleaned customer is missing or an address
    local@domain.tld: a non-empty local part of letters, digits and [._%+-],
    one [@], a non-empty domain of letters, digits, dots and hyphens, then a
    dot and at least two letters, with nothing before or after. The pattern
    itself accepts exactly these addresses and the same followed by one
    newline, which the stripping rules out. *)
Theorem X18_cleaned_email_is_an_address (now : Z) (df : list Clientes.Row)
    (self : DataCleaner) :
  (forall s,
     match_email s = true <->
     address s \/ exists s', s = (s' ++ [10%N])%list /\ address s') /\
  exists cleaned,
    clean_clientes now df self = (Ok cleaned, self) /\
    Forall (fun c => Clientes.email c = None \/
                     exists e, Clientes.email c = Some e /\ address e)
           cleaned.
Proof.
  split; [exact match_email_address|].
  eexists. split; [apply clean_clientes_rows|].
  apply Forall_forall. intros c Hin. unfold clientes_limpos in Hin.
  apply in_map_iff in Hin. destruct Hin as (r & <- & _).
  rewrite limpa_cliente_columns. cbn [Clientes.email].
  unfold email_limpo.
  destruct (Clientes.email r) as [e|]; cbn [option_map]; [|now left].
  destruct (match_email (strip (lower e))) eqn:Hm; [|now left].
  right. eexists. split; [reflexivity|].
  apply match_email_address in Hm.
  destruct Hm as [Haddr | (s' & Heq & _)]; [exact Haddr|].
  exfalso. exact (strip_no_trailing_newline _ _ Heq).
Qed.

End Addresses.

(* ================================================================== *)
(** * Consistent input *)

Lemma drop_duplicates_from_NoDup {A} (key : A -> Z) (same : A -> A -> bool)
    (df seen : list A) :
  (forall a b, same a b = true -> key a = key b) ->
  NoDup (map key df) ->
  (forall r, In r df -> ~ In (key r) (map key seen)) ->
  drop_duplicates_from same seen df = df.
Proof.
  intro Hsame. revert seen.
  induction df as [|x df IH]; intros seen Hnd Hfresh; cbn; [reflexivity|].
  inversion Hnd as [|k ks Hnot Hrest]; subst.
  assert (Hex : existsb (same x) seen = false).
  { destruct (existsb (same x) seen) eqn:Hex; [|reflexivity].
    apply existsb_exists in Hex. destruct Hex as (y & Hy & Hxy).
    exfalso. apply (Hfresh x (or_introl eq_refl)).
    rewrite (Hsame _ _ Hxy). now apply in_map. }
  rewrite Hex. f_equal. apply IH; [exact Hrest|].
  intros r Hr [Hk | Hk].
  - apply Hnot. rewrite Hk. now apply in_map.
  - apply (Hfresh r (or_intror Hr) Hk).
Qed.

Lemma same_row_id (a b : Produtos.Row) :
  Produtos.same_row a b = true -> Produtos.id_produto a = Produtos.id_produto b.
Proof.
  unfold Produtos.same_row. intro Hsame.
  repeat (apply andb_true_iff in Hsame; destruct Hsame as [Hsame _]).
  now apply Z.eqb_eq.
Qed.

Lemma filter_all {A} (p : A -> bool) (df : list A) :
  (forall r, In r df -> p r = true) -> filter p df = df.
Proof.
  intro Hall. apply forallb_filter_id. now apply forallb_forall.
Qed.

Lemma drop_duplicates_from_length {A} (same : A -> A -> bool) (df seen : list A) :
  (List.length (drop_duplicates_from same seen df) <= List.length df)%nat.
Proof.
  revert seen. induction df as [|x df IH]; intro seen; cbn; [lia|].
  specialize (IH (x :: seen)).
  destruct (existsb (same x) seen); cbn; lia.
Qed.

Section ConsistentInput.
Context {cal : Calendar} {uni : Unicode} {ord : Sorting}.

Lemma clientes_sem_duplicatas_length (df : list Clientes.Row) :
  (List.length (clientes_sem_duplicatas df) <= List.length df)%nat.
Proof.
  unfold clientes_sem_duplicatas, drop_duplicates, assign.
  destruct (0 <? bool_sum (duplicated Clientes.same_id df))%nat; [|lia].
  etransitivity; [apply drop_duplicates_from_length|].
  rewrite <- (Permutation_length (sort_values_desc_rows _ _ _)).
  now rewrite length_map.
Qed.

(** X19. [clean_all] never returns more rows than it was given, in any of
    the four collections. On consistent input (customer identifiers without
    repetition, product identifiers without repetition, every sale naming a
    customer and a product of the raw collections, every shipment naming a
    sale of the raw collection) it drops no row: each cleaned collection
    has the identifiers of the raw one, in the same order. *)
Theorem X19_clean_all_keeps_consistent_data (now : Z)
    (clientes_df : list Clientes.Row) (produtos_df : list Produtos.Row)
    (vendas_df : list Vendas.Row) (logistica_df : list Logistica.Row)
    (self : DataCleaner) :
  exists cleaned,
    clean_all now clientes_df produtos_df vendas_df logistica_df self =
      (Ok cleaned, self) /\
    (List.length (clientes cleaned) <= List.length clientes_df)%nat /\
    (List.length (produtos cleaned) <= List.length produtos_df)%nat /\
    (List.length (vendas cleaned) <= List.length vendas_df)%nat /\
    (List.length (logistica cleaned) <= List.length logistica_df)%nat /\
    (NoDup (map Clientes.id_cliente clientes_df) ->
     NoDup (map Produtos.id_produto produtos_df) ->
     (forall v, In v vendas_df ->
        In (Vendas.id_cliente v) (map Clientes.id_cliente clientes_df) /\
        In (Vendas.id_produto v) (map Produtos.id_produto produtos_df)) ->
     (forall e, In e logistica_df ->
        In (Logistica.id_venda e) (map Vendas.id_venda vendas_df)) ->
     map Clientes.id_cliente (clientes cleaned) =
       map Clientes.id_cliente clientes_df /\
     map Produtos.id_produto (produtos cleaned) =
       map Produtos.id_produto produtos_df /\
     map Vendas.id_venda (vendas cleaned) = map Vendas.id_venda vendas_df /\
     map Logistica.id_entrega (logistica cleaned) =
       map Logistica.id_entrega logistica_df).
Proof.
  eexists. split; [apply clean_all_rows|].
  cbn [clientes produtos vendas logistica].
  unfold clientes_limpos at 1, produtos_limpos at 1, vendas_limpas at 1,
    entregas_limpas at 1.
  rewrite !length_map.
  split; [apply clientes_sem_duplicatas_length|].
  split; [apply drop_duplicates_from_length|].
  split; [etransitivity; apply filter_length_le|].
  split; [apply filter_length_le|].
  intros Hc Hp Hv He.
  assert (Hclientes : clientes_sem_duplicatas clientes_df = clientes_df).
  { unfold clientes_sem_duplicatas.
    destruct (0 <? bool_sum (duplicated Clientes.same_id clientes_df))%nat
      eqn:Hdup; [|reflexivity].
    apply duplicated_iff_not_NoDup in Hdup. contradiction. }
  assert (Hprodutos : drop_duplicates Produtos.same_row produtos_df = produtos_df).
  { apply (drop_duplicates_from_NoDup Produtos.id_produto);
      [exact same_row_id | exact Hp | intros r _ []]. }
  rewrite Hclientes, Hprodutos.
  assert (Hvendas :
            filter (produto_valido (produtos_limpos produtos_df))
              (filter (cliente_valido (clientes_limpos now clientes_df))
                 vendas_df) = vendas_df).
  { rewrite (filter_all (cliente_valido _)).
    - apply filter_all. intros v Hin. unfold produto_valido.
      rewrite negb_involutive, isin_unique, produtos_limpos_id.
      apply isin_In. now apply Hv.
    - intros v Hin. unfold cliente_valido.
      rewrite negb_involutive, isin_unique, clientes_limpos_id.
      apply isin_In. now apply Hv. }
  rewrite Hvendas.
  assert (Hlogistica :
            filter (venda_valida (vendas_limpas now vendas_df)) logistica_df =
            logistica_df).
  { apply filter_all. intros e Hin. unfold venda_valida.
    rewrite negb_involutive, isin_unique, vendas_limpas_id.
    apply isin_In. now apply He. }
  rewrite Hlogistica.
  rewrite clientes_limpos_id, produtos_limpos_id, vendas_limpas_id,
    entregas_limpas_id.
  repeat split; reflexivity.
Qed.

End ConsistentInput.

Lemma X19_clean_all_keeps_consistent_data_witness :
  exists cleaned,
    clean_all (cal := calendario_iso) (uni := unicode_amostra)
      (ord := ordenacao_estavel) hoje [cliente_1; cliente_2]
      [produto_1; produto_2] [venda_1; venda_2] [entrega_1; entrega_2]
      DataCleaner_init = (Ok cleaned, DataCleaner_init) /\
    map Clientes.id_cliente (clientes cleaned) = [1%Z; 2%Z] /\
    map Produtos.id_produto (produtos cleaned) = [1%Z; 2%Z] /\
    map Vendas.id_venda (vendas cleaned) = [1%Z; 2%Z] /\
    map Logistica.id_entrega (logistica cleaned) = [1%Z; 2%Z].
Proof.
  destruct (X19_clean_all_keeps_consistent_data (cal := calendario_iso)
              (uni := unicode_amostra) (ord := ordenacao_estavel) hoje
              [cliente_1; cliente_2] [produto_1; produto_2]
              [venda_1; venda_2] [entrega_1; entrega_2] DataCleaner_init)
    as (cleaned & Hrun & _ & _ & _ & _ & Hkept).
  exists cleaned. split; [exact Hrun|].
  apply Hkept.
  - exact NoDup_1_2.
  - exact NoDup_1_2.
  - intros v [<- | [<- | []]]; split; cbn; auto.
  - intros e [<- | [<- | []]]; cbn; auto.
Defined.

(* ================================================================== *)
(** * The executive report *)

Import Relatorio.

Section ExecutiveReport.
Context {uni : Unicode}.

(** X20. Whenever [generate_executive_report] produces a report, its score
    and level are those of [calculate_quality_score], and the
    recommendation agrees with the level: an excellent level (score at
    least 98) with the praise, a good level (95 up to 98) with the advice
    to keep monitoring, an acceptable level (90 up to 95) with the call for
    improvement, and a critical level (below 90) with the urgent review.
    It fails only on a results structure without one of the keys it
    reads. *)
Theorem X20_report_recommendation_matches_level (results : Results) :
  match generate_executive_report results with
  | Some report =>
      calculate_quality_score results =
        Some (report_score report, report_level report) /\
      ((98 <= report_score report /\
        report_level report = "EXCELENTE" /\
        report_recommendation report =
          "  ✓  Excelente qualidade! Manter boas práticas.") \/
       (95 <= report_score report /\ report_score report < 98 /\
        report_level report = "BOM" /\
        report_recommendation report =
          "  ✓  Qualidade boa. Manter monitoramento.") \/
       (90 <= report_score report /\ report_score report < 95 /\
        report_level report = "ACEITÁVEL" /\
        report_recommendation report =
          "  ⚠️  ATENÇÃO: Qualidade requer melhoria.") \/
       (report_score report < 90 /\
        report_level report = "CRÍTICO" /\
        report_recommendation report =
          "  ⚠️  URGENTE: Qualidade abaixo do aceitável. Revisar processos."))
  | None =>
      checkpoints results = None \/
      match summary results with
      | None => True
      | Some s => success_rate s = None \/ total s = None \/
                  successful s = None \/ failed s = None
      end
  end.
Proof.
  unfold generate_executive_report, calculate_quality_score.
  destruct (summary results) as [s|]; [|now right].
  destruct (success_rate s) as [rate|]; [|right; now left].
  destruct (checkpoints results) as [items|]; [|now left].
  destruct (total s) as [t|]; [|right; right; now left].
  destruct (successful s) as [ok|]; [|right; right; right; now left].
  destruct (failed s) as [ko|]; [|right; right; right; now right].
  cbn [report_score report_level report_recommendation].
  split; [reflexivity|].
  unfold quality_level, recommendation, Qltb.
  destruct (Qle_bool 98 rate) eqn:H98.
  - apply Qle_bool_iff in H98.
    assert (H95 : Qle_bool 95 rate = true) by (apply Qle_bool_iff; lra).
    assert (H90 : Qle_bool 90 rate = true) by (apply Qle_bool_iff; lra).
    rewrite H95, H90. cbn [negb]. left. auto.
  - assert (Hlt98 : rate < 98).
    { apply Qnot_le_lt. intro Hle. apply Qle_bool_iff in Hle. congruence. }
    destruct (Qle_bool 95 rate) eqn:H95.
    + apply Qle_bool_iff in H95.
      assert (H90 : Qle_bool 90 rate = true) by (apply Qle_bool_iff; lra).
      rewrite H90. cbn [negb]. right. left. auto.
    + assert (Hlt95 : rate < 95).
      { apply Qnot_le_lt. intro Hle. apply Qle_bool_iff in Hle. congruence. }
      destruct (Qle_bool 90 rate) eqn:H90; cbn [negb].
      * apply Qle_bool_iff in H90. right. right. left. auto.
      * assert (Hlt90 : rate < 90).
        { apply Qnot_le_lt. intro Hle. apply Qle_bool_iff in Hle. congruence. }
        right. right. right. auto.
Qed.

End ExecutiveReport.

(* ================================================================== *)
(** * The alert dashboard *)

Import Painel.

Lemma Severity_eqb_true (a b : Severity) : Severity_eqb a b = true <-> a = b.
Proof. destruct a, b; cbn; split; intro Heq; congruence. Qed.

Lemma Severity_eqb_comm (a b : Severity) : Severity_eqb a b = Severity_eqb b a.
Proof. now destruct a, b. Qed.

Lemma groups_get_append (s k : Severity) (a : Alert) (d : Groups) :
  groups_get s (groups_append k a d) =
    if Severity_eqb s k
    then option_map (fun v => (v ++ [a])%list) (groups_get k d)
    else groups_get s d.
Proof.
  induction d as [|[k' v] d IH]; cbn.
  - now destruct (Severity_eqb s k).
  - destruct (Severity_eqb k k') eqn:Hk; cbn.
    + apply Severity_eqb_true in Hk. subst k'.
      now destruct (Severity_eqb s k).
    + rewrite IH. destruct (Severity_eqb s k) eqn:Hs; [|reflexivity].
      apply Severity_eqb_true in Hs. subst s. now rewrite Hk.
Qed.

Lemma groups_get_new_key (s k : Severity) (d : Groups) :
  groups_get s (d ++ [(k, [])])%list =
    match groups_get s d with
    | Some v => Some v
    | None => if Severity_eqb s k then Some [] else None
    end.
Proof.
  induction d as [|[k' v] d IH]; cbn; [reflexivity|].
  now destruct (Severity_eqb s k').
Qed.

(** One turn of the grouping loop adds the alert to the list under its
    severity and leaves the other lists as they were. *)
Lemma group_alert_get (s : Severity) (d : Groups) (a : Alert) :
  get_default (groups_get s (group_alert d a)) [] =
    (get_default (groups_get s d) [] ++
     if Severity_eqb (severity a) s then [a] else [])%list.
Proof.
  unfold group_alert. cbv zeta. rewrite (Severity_eqb_comm (severity a) s).
  destruct (groups_get (severity a) d) as [v|] eqn:Hk.
  - rewrite groups_get_append.
    destruct (Severity_eqb s (severity a)) eqn:Hs.
    + apply Severity_eqb_true in Hs. subst s. now rewrite Hk.
    + now rewrite app_nil_r.
  - rewrite groups_get_append, !groups_get_new_key, Hk.
    destruct (Severity_eqb s (severity a)) eqn:Hs.
    + apply Severity_eqb_true in Hs. subst s.
      rewrite Hk, (proj2 (Severity_eqb_true _ _) eq_refl). reflexivity.
    + rewrite app_nil_r. now destruct (groups_get s d).
Qed.

Lemma fold_group_alert_get (s : Severity) (alerts : list Alert) (d : Groups) :
  get_default (groups_get s (fold_left group_alert alerts d)) [] =
    (get_default (groups_get s d) [] ++
     filter (fun a => Severity_eqb (severity a) s) alerts)%list.
Proof.
  revert d. induction alerts as [|a alerts IH]; intro d; cbn [fold_left filter].
  - now rewrite app_nil_r.
  - rewrite IH, group_alert_get, <- app_assoc.
    now destruct (Severity_eqb (severity a) s).
Qed.

Lemma group_by_severity_get (s : Severity) (alerts : list Alert) :
  get_default (groups_get s (group_by_severity alerts)) [] =
    filter (fun a => Severity_eqb (severity a) s) alerts.
Proof. unfold group_by_severity. now rewrite fold_group_alert_get. Qed.

Lemma by_severity_length (alerts : list Alert) :
  List.length alerts =
    (List.length (filter (fun a => Severity_eqb (severity a) CRITICAL) alerts) +
     List.length (filter (fun a => Severity_eqb (severity a) HIGH) alerts) +
     List.length (filter (fun a => Severity_eqb (severity a) MEDIUM) alerts) +
     List.length (filter (fun a => Severity_eqb (severity a) LOW) alerts))%nat.
Proof.
  induction alerts as [|a alerts IH]; cbn [filter List.length]; [reflexivity|].
  destruct (severity a); cbn; lia.
Qed.

(** X21. With no alert stored, [generate_alert_dashboard] gives the
    message that none is active. Otherwise the total it shows is the
    number of stored alerts, and its blocks come in the order critical,
    high, medium, low, one for each severity that has an alert and none
    for the others; a block lists exactly the stored alerts of its
    severity, in the order they were stored, under the icon of that
    severity and with their number. So every stored alert is listed once,
    and the numbers of the blocks add up to the total. *)
Theorem X21_dashboard_lists_every_alert_once (self : AlertSystem) :
  let of_severity := fun s => filter (fun a => Severity_eqb (severity a) s)
                                     (alerts self) in
  let block_of := fun s =>
    match of_severity s with
    | [] => []
    | _ :: _ => [{| block_icon := icon s; block_severity := s;
                    block_count := List.length (of_severity s);
                    block_alerts := of_severity s |}]
    end in
  (alerts self = [] -> generate_alert_dashboard self = None) /\
  (alerts self <> [] ->
   exists blocks,
     generate_alert_dashboard self = Some (List.length (alerts self), blocks) /\
     blocks = (block_of CRITICAL ++ block_of HIGH ++ block_of MEDIUM ++
               block_of LOW)%list /\
     Forall (fun b => block_alerts b <> [] /\
                      block_count b = List.length (block_alerts b) /\
                      Forall (fun a => severity a = block_severity b)
                             (block_alerts b)) blocks /\
     list_sum (map block_count blocks) = List.length (alerts self) /\
     (forall a, In a (alerts self) <->
                exists b, In b blocks /\ In a (block_alerts b))).
Proof.
  cbv zeta. unfold generate_alert_dashboard.
  destruct (alerts self) as [|a0 rest] eqn:Halerts;
    (split; [intro Hnil | intro Hsome]);
    [reflexivity | now contradiction Hsome | discriminate |].
  rewrite <- Halerts. clear Halerts a0 rest Hsome.
  eexists. split; [reflexivity|].
  cbn [flat_map]. rewrite !group_by_severity_get, app_nil_r.
  set (F := fun s => filter (fun a => Severity_eqb (severity a) s) (alerts self)).
  change (filter (fun a => Severity_eqb (severity a) CRITICAL) (alerts self))
    with (F CRITICAL).
  change (filter (fun a => Severity_eqb (severity a) HIGH) (alerts self))
    with (F HIGH).
  change (filter (fun a => Severity_eqb (severity a) MEDIUM) (alerts self))
    with (F MEDIUM).
  change (filter (fun a => Severity_eqb (severity a) LOW) (alerts self))
    with (F LOW).
  assert (HF : forall s a, In a (F s) <-> In a (alerts self) /\ severity a = s).
  { intros s a. unfold F. rewrite filter_In, Severity_eqb_true. reflexivity. }
  pose proof (by_severity_length (alerts self)) as Hlen.
  change (filter (fun a => Severity_eqb (severity a) CRITICAL) (alerts self))
    with (F CRITICAL) in Hlen.
  change (filter (fun a => Severity_eqb (severity a) HIGH) (alerts self))
    with (F HIGH) in Hlen.
  change (filter (fun a => Severity_eqb (severity a) MEDIUM) (alerts self))
    with (F MEDIUM) in Hlen.
  change (filter (fun a => Severity_eqb (severity a) LOW) (alerts self))
    with (F LOW) in Hlen.
  split; [reflexivity|].
  assert (Hblock : forall s,
            Forall (fun b => block_alerts b <> [] /\
                             block_count b = List.length (block_alerts b) /\
                             Forall (fun a => severity a = block_severity b)
                                    (block_alerts b))
              match F s with
              | [] => []
              | _ :: _ => [{| block_icon := icon s; block_severity := s;
                              block_count := List.length (F s);
                              block_alerts := F s |}]
              end).
  { intro s. destruct (F s) as [|x l] eqn:HFs; constructor; [|constructor].
    cbn [block_alerts block_count block_severity].
    split; [discriminate|]. split; [reflexivity|].
    apply Forall_forall. intros a Ha. rewrite <- HFs in Ha.
    now apply HF in Ha. }
  assert (Hsum : forall s,
            list_sum (map block_count
              match F s with
              | [] => []
              | _ :: _ => [{| block_icon := icon s; block_severity := s;
                              block_count := List.length (F s);
                              block_alerts := F s |}]
              end) = List.length (F s)).
  { intro s. destruct (F s) as [|x l]; cbn; lia. }
  assert (Hin : forall s a,
            (exists b, In b match F s with
                            | [] => []
                            | _ :: _ => [{| block_icon := icon s;
                                            block_severity := s;
                                            block_count := List.length (F s);
                                            block_alerts := F s |}]
                            end /\ In a (block_alerts b)) <-> In a (F s)).
  { intros s a. destruct (F s) as [|x l] eqn:HFs.
    - split; [intros (b & [] & _) | intros []].
    - split.
      + intros (b & [<- | []] & Ha). exact Ha.
      + intro Ha. eexists. split; [now left | exact Ha]. }
  split; [|split].
  - repeat (apply Forall_app; split); apply Hblock.
  - rewrite !map_app, !list_sum_app, !Hsum. lia.
  - intro a. split.
    + intro Ha.
      assert (Hs : In a (F (severity a))) by (apply HF; now split).
      apply Hin in Hs. destruct Hs as (b & Hb & Hab).
      exists b. split; [|exact Hab].
      destruct (severity a); rewrite !in_app_iff; tauto.
    + intros (b & Hb & Hab).
      rewrite !in_app_iff in Hb.
      destruct Hb as [Hb | [Hb | [Hb | Hb]]];
        (assert (Hs : exists s, In a (F s))
           by (eexists; apply Hin; exists b; split; [exact Hb | exact Hab]));
        destruct Hs as (s & Hs); now apply HF in Hs.
Qed.

(* ================================================================== *)
(** * Schema validation *)

Import Ingestao.

Lemma mem_In (x : string) (xs : list string) : mem x xs = true <-> In x xs.
Proof.
  unfold mem. rewrite existsb_exists. split.
  - intros (y & Hy & Heq). apply String.eqb_eq in Heq. now subst.
  - intro Hx. exists x. split; [exact Hx | apply String.eqb_refl].
Qed.

Lemma set_diff_nil (a b : list string) :
  set_diff a b = [] <-> (forall x, In x a -> In x b).
Proof.
  unfold set_diff. split.
  - intros Hnil x Hx. destruct (mem x b) eqn:Hm; [now apply mem_In|].
    assert (Hin : In x (nodup string_dec (filter (fun x => negb (mem x b)) a))).
    { apply nodup_In, filter_In. split; [exact Hx | now rewrite Hm]. }
    rewrite Hnil in Hin. destruct Hin.
  - intro Hall.
    destruct (nodup string_dec (filter (fun x => negb (mem x b)) a))
      as [|y l] eqn:Hn; [reflexivity|].
    assert (Hin : In y (nodup string_dec (filter (fun x => negb (mem x b)) a)))
      by (rewrite Hn; now left).
    apply nodup_In, filter_In in Hin. destruct Hin as [Hy Hm].
    apply Hall, mem_In in Hy. rewrite Hy in Hm. discriminate.
Qed.

Lemma dtypes_of_absent (col : string) (df : FrameInfo) :
  ~ In col (columns df) -> dtypes_of col df = [].
Proof.
  unfold dtypes_of, columns.
  induction df as [|[k t] df IH]; cbn; intro Hnot; [reflexivity|].
  destruct (String.eqb k col) eqn:Hk.
  - apply String.eqb_eq in Hk. exfalso. apply Hnot. now left.
  - apply IH. intro Hin. apply Hnot. now right.
Qed.

Lemma dtypes_of_unique (col : string) (df : FrameInfo) :
  NoDup (columns df) -> In col (columns df) ->
  exists t, dtypes_of col df = [t].
Proof.
  unfold columns.
  induction df as [|[k t] df IH]; cbn [map fst]; intros Hnd Hin; [destruct Hin|].
  inversion Hnd as [|x xs Hnot Hrest]; subst.
  unfold dtypes_of. cbn [filter fst].
  destruct (String.eqb k col) eqn:Hk.
  - apply String.eqb_eq in Hk. subst k. exists t. cbn [map snd]. f_equal.
    now apply dtypes_of_absent.
  - destruct Hin as [Heq | Hin].
    + subst k. now rewrite String.eqb_refl in Hk.
    + now apply IH.
Qed.

Lemma check_dtypes_total (df : FrameInfo) (schema : Schema) :
  NoDup (columns df) -> exists warnings, check_dtypes df schema = Some warnings.
Proof.
  intro Hnd. induction schema as [|[col ty] schema IH]; cbn [check_dtypes].
  - now exists [].
  - destruct IH as (w & Hw). rewrite Hw.
    destruct (mem col (columns df)) eqn:Hm; [|now exists w].
    apply mem_In in Hm.
    destruct (dtypes_of_unique col df Hnd Hm) as (t & Ht). rewrite Ht.
    eexists. reflexivity.
Qed.

Lemma schemas_not_empty (dataset_name : string) :
  dict_get dataset_name SCHEMAS <> Some [].
Proof.
  unfold SCHEMAS. cbn [dict_get].
  repeat match goal with
         | |- context [String.eqb dataset_name ?k] =>
             destruct (String.eqb dataset_name k)
         end; discriminate.
Qed.

(** X22. On a frame whose column labels are pairwise different,
    [SchemaValidator.validate] raises nothing, and it declares the frame
    valid exactly when the dataset name has a schema and the frame has the
    columns of that schema, no more and no fewer; it is valid exactly when
    no error is listed. The dtypes play no part: a frame with the same
    labels and any other dtypes gets the same verdict and the same
    errors. *)
Theorem X22_validate_checks_labels_only (df : FrameInfo) (dataset_name : string) :
  NoDup (columns df) ->
  exists is_valid errors warnings,
    validate df dataset_name = Some (is_valid, errors, warnings) /\
    (is_valid = true <-> errors = []) /\
    (is_valid = true <->
     exists schema,
       dict_get dataset_name SCHEMAS = Some schema /\
       forall c, In c (columns df) <-> In c (map fst schema)) /\
    (forall df', columns df' = columns df ->
       exists warnings',
         validate df' dataset_name = Some (is_valid, errors, warnings')).
Proof.
  intro Hnd. unfold validate.
  pose proof (schemas_not_empty dataset_name) as Hne.
  destruct (dict_get dataset_name SCHEMAS) as [schema|] eqn:Hget.
  2: { exists false, [UnknownSchema dataset_name], [].
       split; [reflexivity|]. split; [split; discriminate|]. split.
       - split; [discriminate | intros (s & Hs & _); discriminate].
       - intros df' _. now exists []. }
  destruct schema as [|entry schema']; [now contradiction Hne|].
  set (schema := entry :: schema') in *. cbv zeta.
  destruct (check_dtypes_total df schema Hnd) as (w & Hw). rewrite Hw.
  set (missing := set_diff (map fst schema) (columns df)).
  set (extra := set_diff (columns df) (map fst schema)).
  set (errors := (match missing with [] => [] | _ :: _ => [MissingCols missing] end ++
                  match extra with [] => [] | _ :: _ => [ExtraCols extra] end)%list).
  assert (Herrors : errors = [] <-> missing = [] /\ extra = []).
  { unfold errors. destruct missing, extra; cbn; split;
      try (intros [? ?]); try discriminate; auto. }
  assert (Hvalid : Nat.eqb (List.length errors) 0 = true <-> errors = []).
  { destruct errors; cbn; split; intro Hx; try discriminate; reflexivity. }
  exists (Nat.eqb (List.length errors) 0), errors, w.
  split; [reflexivity|]. split; [exact Hvalid|]. split.
  - rewrite Hvalid, Herrors. unfold missing, extra. rewrite !set_diff_nil.
    split.
    + intros [Hm He]. exists schema. split; [reflexivity|].
      intro c. split; [apply He | apply Hm].
    + intros (s & Hs & Hall). injection Hs as <-.
      split; intros c Hc; now apply Hall.
  - intros df' Hcols.
    assert (Hnd' : NoDup (columns df')) by now rewrite Hcols.
    destruct (check_dtypes_total df' schema Hnd') as (w' & Hw').
    exists w'. rewrite Hw'. unfold errors, missing, extra. now rewrite Hcols.
Qed.

Lemma X22_validate_checks_labels_only_witness :
  exists errors warnings,
    validate [ ("id_produto", "float64"); ("nome_produto", "object");
               ("categoria", "object"); ("preco", "object");
               ("estoque", "float64"); ("data_criacao", "object");
               ("ativo", "bool") ] "produtos" = Some (true, errors, warnings) /\
    errors = [].
Proof.
  destruct (X22_validate_checks_labels_only
              [ ("id_produto", "float64"); ("nome_produto", "object");
                ("categoria", "object"); ("preco", "object");
                ("estoque", "float64"); ("data_criacao", "object");
                ("ativo", "bool") ] "produtos")
    as (is_valid & errors & warnings & Hrun & Herr & _).
  { cbn. repeat (constructor; [cbn; intuition discriminate|]). constructor. }
  assert (Hv : is_valid = true) by (vm_compute in Hrun; congruence).
  exists errors, warnings. subst is_valid.
  split; [exact Hrun | now apply Herr].
Defined.
